(** * StreamTablet server: a shallow embedding of the media and input paths

    The development follows the C++ sources of the server:
    - [VideoSender]   : server/src/network/video_sender.{hpp,cpp}
    - [ControlServer] : server/src/network/control_server.cpp
    - [VAAPIEncoder]  : server/src/encoder/vaapi_encoder.{hpp,cpp}
    - [NV12]          : convert_bgra_to_nv12_fast (vaapi_encoder.cpp)
    - [UInput]        : server/src/input/uinput_backend.{hpp,cpp}
    - [Server]        : Server::run (handshake step) and Server::handle_input

    Machine integers are [Z] with the wrap-around of their C type written
    out; system calls whose result the program branches on (sendto, the
    codec calls) are oracles supplied by the environment; every side effect
    (datagram, sleep, input_event write) is appended to an explicit trace. *)

From Stdlib Require Import ZArith List Bool Lia Sorted.
From stdpp Require Import base list.
Import ListNotations.
Local Open Scope Z_scope.

(** ** Fixed-width integer casts *)

Definition to_uint8 (v : Z) : Z := v mod 256.
Definition to_uint16 (v : Z) : Z := v mod 65536.
Definition to_uint32 (z : Z) : Z := z mod 2 ^ 32.
Definition to_uint64 (v : Z) : Z := v mod 2 ^ 64.
(* size_t on the 64-bit targets the server builds for *)
Definition to_size_t (v : Z) : Z := v mod 2 ^ 64.

(** * VideoSender *)

Module VideoSender.

(* constexpr size_t MAX_PAYLOAD_SIZE = 1200;  // MTU safe *)
Definition MAX_PAYLOAD_SIZE : Z := 1200.

Definition VIDEO_MAGIC : Z := 0x5354.
Definition FLAG_KEYFRAME : Z := 0x01.
Definition FLAG_START_OF_FRAME : Z := 0x02.
Definition FLAG_END_OF_FRAME : Z := 0x04.

Inductive PacingMode : Type :=
  | AUTO | NONE | LIGHT | AGGRESSIVE | KEYFRAME.

(* struct VideoPacketHeader (packed, 16 bytes) *)
Record VideoPacketHeader : Type := mkHeader {
  magic : Z;
  sequence : Z;
  frame_number : Z;
  flags : Z;
  reserved : Z;
  fragment_idx : Z;
  fragment_count : Z;
  payload_len : Z;
  reserved2 : Z
}.

(* std::vector<uint8_t> packet(sizeof(VideoPacketHeader) + payload_size) *)
Record packet : Type := mkPacket {
  pkt_header : VideoPacketHeader;
  pkt_payload : list Z
}.

Definition sizeof_VideoPacketHeader : Z := 16.

Definition packet_size (p : packet) : Z :=
  sizeof_VideoPacketHeader + Z.of_nat (length (pkt_payload p)).

(* the members of class VideoSender that send_frame reads or writes *)
Record t : Type := mkSender {
  m_socket : Z;
  m_client_set : bool;
  m_sequence : Z;
  m_bytes_sent : Z;
  m_packets_sent : Z;
  m_pacing_mode : PacingMode;
  m_pacing_threshold : Z;
  m_packets_per_burst : Z;
  m_burst_delay_us : Z
}.

(* member initialisers of the class *)
Definition initial : t :=
  {| m_socket := -1; m_client_set := false; m_sequence := 0;
     m_bytes_sent := 0; m_packets_sent := 0; m_pacing_mode := LIGHT;
     m_pacing_threshold := 0; m_packets_per_burst := 0; m_burst_delay_us := 0 |}.

(* what a call makes observable outside the object *)
Inductive event : Type :=
  | EvSendto (p : packet) (ret : Z)      (* sendto(...) and its return value *)
  | EvSleep (us : Z).                    (* std::this_thread::sleep_for *)

Definition set_pacing (s : t) (mode : PacingMode) (thr ppb delay : Z) : t :=
  {| m_socket := m_socket s; m_client_set := true;
     m_sequence := m_sequence s; m_bytes_sent := m_bytes_sent s;
     m_packets_sent := m_packets_sent s; m_pacing_mode := mode;
     m_pacing_threshold := thr; m_packets_per_burst := ppb;
     m_burst_delay_us := delay |}.

(* VideoSender::set_client; [detected] is the value of
   detect_pacing_mode(host), consulted only when mode is AUTO *)
Definition set_client (s : t) (detected mode : PacingMode) : t :=
  let pm := match mode with AUTO => detected | _ => mode end in
  match pm with
  | NONE => set_pacing s pm 1000000000 0 0
  | LIGHT => set_pacing s pm 50000 20 50
  | AGGRESSIVE => set_pacing s pm 2400 4 200
  | KEYFRAME => set_pacing s pm 0 8 100
  | AUTO => set_pacing s pm 50000 20 50      (* default: *)
  end.

Section SendFrame.

(* the environment: what sendto returns for a datagram *)
Variable sendto : packet -> Z.

(* VideoSender::send_packet *)
Definition send_packet (s : t) (p : packet) : bool * t :=
  let sent := sendto p in
  if sent <? 0 then (false, s)
  else (true,
        {| m_socket := m_socket s; m_client_set := m_client_set s;
           m_sequence := m_sequence s;
           m_bytes_sent := to_uint64 (m_bytes_sent s + sent);
           m_packets_sent := to_uint64 (m_packets_sent s + 1);
           m_pacing_mode := m_pacing_mode s;
           m_pacing_threshold := m_pacing_threshold s;
           m_packets_per_burst := m_packets_per_burst s;
           m_burst_delay_us := m_burst_delay_us s |}).

Definition bump_sequence (s : t) : t :=
  {| m_socket := m_socket s; m_client_set := m_client_set s;
     m_sequence := to_uint16 (m_sequence s + 1);
     m_bytes_sent := m_bytes_sent s; m_packets_sent := m_packets_sent s;
     m_pacing_mode := m_pacing_mode s;
     m_pacing_threshold := m_pacing_threshold s;
     m_packets_per_burst := m_packets_per_burst s;
     m_burst_delay_us := m_burst_delay_us s |}.

(* memcpy(packet.data() + sizeof(VideoPacketHeader), data + offset, payload_size) *)
Definition copy_payload (data : Z -> Z) (offset payload_size : Z) : list Z :=
  map (fun k => data (offset + Z.of_nat k)) (seq 0 (Z.to_nat payload_size)).

Definition flag_if (b : bool) (f : Z) : Z := if b then f else 0.

(* lines 184-204: the packet built for fragment i *)
Definition build_packet (seqno : Z) (data : Z -> Z) (size frame_no : Z)
    (keyframe : bool) (num_fragments i offset : Z) : packet :=
  let payload_size := Z.min MAX_PAYLOAD_SIZE (to_size_t (size - offset)) in
  {| pkt_header :=
       {| magic := VIDEO_MAGIC;
          sequence := seqno;
          frame_number := to_uint16 (Z.land frame_no 0xFFFF);
          flags :=
            Z.lor (Z.lor (Z.lor 0 (flag_if keyframe FLAG_KEYFRAME))
                         (flag_if (i =? 0) FLAG_START_OF_FRAME))
                  (flag_if (i =? to_size_t (num_fragments - 1)) FLAG_END_OF_FRAME);
          reserved := 0;
          fragment_idx := to_uint16 i;
          fragment_count := to_uint16 num_fragments;
          payload_len := to_uint16 payload_size;
          reserved2 := 0 |};
     pkt_payload := copy_payload data offset payload_size |}.

(* the body of the for loop of send_frame, iterated; [fuel] is
   num_fragments - i, the number of iterations left *)
Fixpoint send_loop (fuel : nat) (data : Z -> Z) (size frame_no : Z)
    (keyframe need_pacing : bool) (packets_per_burst burst_delay_us : Z)
    (num_fragments i offset packets_in_burst : Z) (s : t)
    : bool * t * list event :=
  match fuel with
  | O => (true, s, [])
  | S fuel' =>
      let payload_size := Z.min MAX_PAYLOAD_SIZE (to_size_t (size - offset)) in
      let p := build_packet (m_sequence s) data size frame_no keyframe
                            num_fragments i offset in
      let s1 := bump_sequence s in
      let '(ok, s2) := send_packet s1 p in
      if negb ok then (false, s2, [EvSendto p (sendto p)])
      else
        let offset' := to_size_t (offset + payload_size) in
        let pace := need_pacing
                    && (packets_per_burst <=? packets_in_burst + 1)
                    && (i <? to_size_t (num_fragments - 1)) in
        let pib' := if need_pacing
                    then (if pace then 0 else packets_in_burst + 1)
                    else packets_in_burst in
        let '(r, s3, tr) :=
          send_loop fuel' data size frame_no keyframe need_pacing
                    packets_per_burst burst_delay_us num_fragments
                    (i + 1) offset' pib' s2 in
        (r, s3,
         EvSendto p (sendto p)
           :: (if pace then [EvSleep burst_delay_us] else []) ++ tr)
  end.

(* pacing parameters chosen at lines 149-177:
   (need_pacing, packets_per_burst, burst_delay_us) *)
Definition pacing_params (s : t) (size : Z) (keyframe : bool) : bool * Z * Z :=
  match m_pacing_mode s with
  | KEYFRAME =>
      if keyframe && (100000 <? size) then
        if 500000 <? size then (keyframe, 2, 300)
        else if 300000 <? size then (keyframe, 4, 200)
        else (keyframe, 6, 150)
      else (keyframe, m_packets_per_burst s, m_burst_delay_us s)
  | NONE => (false, m_packets_per_burst s, m_burst_delay_us s)
  | _ => (m_pacing_threshold s <? size, m_packets_per_burst s, m_burst_delay_us s)
  end.

(* size_t num_fragments = (size + MAX_PAYLOAD_SIZE - 1) / MAX_PAYLOAD_SIZE; *)
Definition num_fragments_of (size : Z) : Z :=
  to_size_t (size + MAX_PAYLOAD_SIZE - 1) / MAX_PAYLOAD_SIZE.

(* VideoSender::send_frame(data, size, frame_number, keyframe, timestamp_us) *)
Definition send_frame (s : t) (data : Z -> Z) (size frame_no : Z)
    (keyframe : bool) (timestamp_us : Z) : bool * t * list event :=
  if negb (m_client_set s) || (m_socket s <? 0) then (false, s, [])
  else
    let num_fragments := num_fragments_of size in
    if 65535 <? num_fragments then (false, s, [])
    else
      let '(need_pacing, ppb, delay) := pacing_params s size keyframe in
      send_loop (Z.to_nat num_fragments) data size frame_no keyframe
                need_pacing ppb delay num_fragments 0 0 0 s.

End SendFrame.

(* the datagrams that left the socket: sendto calls that did not fail *)
Fixpoint datagrams (tr : list event) : list packet :=
  match tr with
  | [] => []
  | EvSendto p r :: tr' => if r <? 0 then datagrams tr' else p :: datagrams tr'
  | EvSleep _ :: tr' => datagrams tr'
  end.

Definition has_flag (p : packet) (f : Z) : bool :=
  negb (Z.land (flags (pkt_header p)) f =? 0).

(* the trace with each datagram reduced to its fragment index:
   inl idx for a sendto, inr us for a sleep *)
Definition shape (tr : list event) : list (Z + Z) :=
  map (fun ev => match ev with
                 | EvSendto p _ => inl (fragment_idx (pkt_header p))
                 | EvSleep us => inr us
                 end) tr.

(* the sleeps of a trace, in order *)
Definition sleeps (tr : list event) : list Z :=
  omap (fun ev => match ev with EvSleep us => Some us | _ => None end) tr.

(* the object after init() succeeded with socket descriptor [fd] *)
Definition init_ok (s : t) (fd : Z) : t :=
  {| m_socket := fd; m_client_set := m_client_set s;
     m_sequence := m_sequence s; m_bytes_sent := m_bytes_sent s;
     m_packets_sent := m_packets_sent s; m_pacing_mode := m_pacing_mode s;
     m_pacing_threshold := m_pacing_threshold s;
     m_packets_per_burst := m_packets_per_burst s;
     m_burst_delay_us := m_burst_delay_us s |}.

(* VideoSender::shutdown *)
Definition shutdown (s : t) : t :=
  {| m_socket := if 0 <=? m_socket s then -1 else m_socket s;
     m_client_set := false;
     m_sequence := m_sequence s; m_bytes_sent := m_bytes_sent s;
     m_packets_sent := m_packets_sent s; m_pacing_mode := m_pacing_mode s;
     m_pacing_threshold := m_pacing_threshold s;
     m_packets_per_burst := m_packets_per_burst s;
     m_burst_delay_us := m_burst_delay_us s |}.

(* every packet handed to sendto, accepted or not, in call order *)
Fixpoint sendto_calls (tr : list event) : list packet :=
  match tr with
  | [] => []
  | EvSendto p _ :: tr' => p :: sendto_calls tr'
  | EvSleep _ :: tr' => sendto_calls tr'
  end.

(* the byte counts sendto reported for the datagrams it accepted *)
Fixpoint bytes_accepted (tr : list event) : Z :=
  match tr with
  | [] => 0
  | EvSendto _ r :: tr' => (if r <? 0 then 0 else r) + bytes_accepted tr'
  | EvSleep _ :: tr' => bytes_accepted tr'
  end.

End VideoSender.

(** * ControlServer: the ConfigResponse variants *)

Module ControlServer.

Definition MSG_CONFIG_REQUEST : Z := 0x03.
Definition MSG_CONFIG_RESPONSE : Z := 0x04.
Definition MSG_KEYFRAME_REQUEST : Z := 0x05.

(* ControlServer::send_message: the bytes handed to send()/SSL_write() *)
Definition send_message (type : Z) (data : list Z) : list Z :=
  let len := Z.of_nat (length data) in
  let length16 := to_uint16 (len + 1) in
  [Z.land (Z.shiftr length16 8) 0xFF; Z.land length16 0xFF; type] ++ data.

(* ControlServer::send_config: the 8 payload bytes *)
Definition config_payload (screen_width screen_height video_port input_port : Z)
    : list Z :=
  [ to_uint8 (Z.land (Z.shiftr screen_width 8) 0xFF);
    to_uint8 (Z.land screen_width 0xFF);
    to_uint8 (Z.land (Z.shiftr screen_height 8) 0xFF);
    to_uint8 (Z.land screen_height 0xFF);
    to_uint8 (Z.land (Z.shiftr video_port 8) 0xFF);
    to_uint8 (Z.land video_port 0xFF);
    to_uint8 (Z.land (Z.shiftr input_port 8) 0xFF);
    to_uint8 (Z.land input_port 0xFF) ].

Definition send_config (screen_width screen_height video_port input_port : Z)
    : list Z :=
  send_message MSG_CONFIG_RESPONSE
    (config_payload screen_width screen_height video_port input_port).

(* ControlServer::send_config_full: the 15 payload bytes, data[0..14] *)
Definition config_full_payload
    (screen_width screen_height video_port input_port
     audio_port audio_sample_rate audio_channels audio_frame_ms codec_type : Z)
    : list Z :=
  [ to_uint8 (Z.land (Z.shiftr screen_width 8) 0xFF);
    to_uint8 (Z.land screen_width 0xFF);
    to_uint8 (Z.land (Z.shiftr screen_height 8) 0xFF);
    to_uint8 (Z.land screen_height 0xFF);
    to_uint8 (Z.land (Z.shiftr video_port 8) 0xFF);
    to_uint8 (Z.land video_port 0xFF);
    to_uint8 (Z.land (Z.shiftr input_port 8) 0xFF);
    to_uint8 (Z.land input_port 0xFF);
    to_uint8 (Z.land (Z.shiftr audio_port 8) 0xFF);
    to_uint8 (Z.land audio_port 0xFF);
    to_uint8 (Z.land (Z.shiftr audio_sample_rate 8) 0xFF);
    to_uint8 (Z.land audio_sample_rate 0xFF);
    to_uint8 audio_channels;
    to_uint8 audio_frame_ms;
    codec_type ].

Definition send_config_full
    (screen_width screen_height video_port input_port
     audio_port audio_sample_rate audio_channels audio_frame_ms codec_type : Z)
    : list Z :=
  send_message MSG_CONFIG_RESPONSE
    (config_full_payload screen_width screen_height video_port input_port
       audio_port audio_sample_rate audio_channels audio_frame_ms codec_type).

Definition MSG_PING : Z := 0x06.
Definition MSG_PONG : Z := 0x07.
Definition MSG_DISCONNECT : Z := 0x08.

(* ControlServer::send_config_with_audio: the 14 payload bytes *)
Definition config_with_audio_payload
    (screen_width screen_height video_port input_port
     audio_port audio_sample_rate audio_channels audio_frame_ms : Z)
    : list Z :=
  [ to_uint8 (Z.land (Z.shiftr screen_width 8) 0xFF);
    to_uint8 (Z.land screen_width 0xFF);
    to_uint8 (Z.land (Z.shiftr screen_height 8) 0xFF);
    to_uint8 (Z.land screen_height 0xFF);
    to_uint8 (Z.land (Z.shiftr video_port 8) 0xFF);
    to_uint8 (Z.land video_port 0xFF);
    to_uint8 (Z.land (Z.shiftr input_port 8) 0xFF);
    to_uint8 (Z.land input_port 0xFF);
    to_uint8 (Z.land (Z.shiftr audio_port 8) 0xFF);
    to_uint8 (Z.land audio_port 0xFF);
    to_uint8 (Z.land (Z.shiftr audio_sample_rate 8) 0xFF);
    to_uint8 (Z.land audio_sample_rate 0xFF);
    to_uint8 audio_channels;
    to_uint8 audio_frame_ms ].

Definition send_config_with_audio
    (screen_width screen_height video_port input_port
     audio_port audio_sample_rate audio_channels audio_frame_ms : Z)
    : list Z :=
  send_message MSG_CONFIG_RESPONSE
    (config_with_audio_payload screen_width screen_height video_port input_port
       audio_port audio_sample_rate audio_channels audio_frame_ms).

(* recv(m_client_socket, buf, n, MSG_WAITALL) on the plain socket, when
   [stream] is what the peer delivers before the connection stops: the bytes
   received (fewer than n only at the end) and the bytes still to come *)
Definition recv_waitall (stream : list Z) (n : Z) : list Z * list Z :=
  (firstn (Z.to_nat n) stream, skipn (Z.to_nat n) stream).

(* ControlServer::read_message: Some (type, data) when it returns true *)
Definition read_message (stream : list Z) : option (Z * list Z) * list Z :=
  let '(header, rest) := recv_waitall stream 3 in
  match header with
  | [h0; h1; h2] =>
      let length16 := to_uint16 (Z.lor (Z.shiftl h0 8) h1) in
      let type := h2 in
      if 1 <? length16 then
        let '(data, rest') := recv_waitall rest (length16 - 1) in
        if Z.of_nat (length data) =? length16 - 1
        then (Some (type, data), rest')
        else (None, rest')
      else (Some (type, []), rest)
  | _ => (None, rest)                           (* n != 3 *)
  end.

(* struct ClientInfo *)
Record ClientInfo : Type := mkClientInfo {
  host : list Z;
  video_port : Z;
  input_port : Z;
  width : Z;
  height : Z
}.

Definition default_ClientInfo : ClientInfo :=
  {| host := []; video_port := 0; input_port := 0; width := 0; height := 0 |}.

(* the members the message paths use *)
Record t : Type := mkControl {
  m_listen_socket : Z;
  m_client_socket : Z;
  m_client_host : list Z;
  m_client_connected : bool;
  m_keyframe_cb : bool                          (* a callback is installed *)
}.

(* what a call does outside the object *)
Inductive action : Type :=
  | Sent (bytes : list Z)                        (* send() on the client socket *)
  | KeyframeCallback.                            (* m_keyframe_cb() *)

(* accept_client, "Parse config request": msg_data[i] with i < size *)
Definition parse_config_request (out_info : ClientInfo) (msg_data : list Z)
    : ClientInfo :=
  if (8 <=? length msg_data)%nat then
    let d := fun i => nth i msg_data 0 in
    {| host := host out_info;
       video_port := to_uint16 (Z.lor (Z.shiftl (d 4%nat) 8) (d 5%nat));
       input_port := to_uint16 (Z.lor (Z.shiftl (d 6%nat) 8) (d 7%nat));
       width := Z.lor (Z.shiftl (d 0%nat) 8) (d 1%nat);
       height := Z.lor (Z.shiftl (d 2%nat) 8) (d 3%nat) |}
  else out_info.

(* ControlServer::accept_client without TLS (init_plain); [accepted] is what
   accept() returns, [peer] the text inet_ntop gives for the peer address *)
Definition accept_client (c : t) (accepted : Z) (peer : list Z)
    (out_info : ClientInfo) (stream : list Z)
    : bool * ClientInfo * t * list Z :=
  if m_listen_socket c <? 0 then (false, out_info, c, stream)
  else
    let c1 := {| m_listen_socket := m_listen_socket c;
                 m_client_socket := accepted;
                 m_client_host := m_client_host c;
                 m_client_connected := m_client_connected c;
                 m_keyframe_cb := m_keyframe_cb c |} in
    if accepted <? 0 then (false, out_info, c1, stream)
    else
      let c2 := {| m_listen_socket := m_listen_socket c;
                   m_client_socket := accepted;
                   m_client_host := peer;
                   m_client_connected := m_client_connected c;
                   m_keyframe_cb := m_keyframe_cb c |} in
      match read_message stream with
      | (Some (msg_type, msg_data), rest) =>
          if negb (msg_type =? MSG_CONFIG_REQUEST) then (false, out_info, c2, rest)
          else
            let info1 := parse_config_request out_info msg_data in
            let info2 := {| host := peer; video_port := video_port info1;
                            input_port := input_port info1;
                            width := width info1; height := height info1 |} in
            (true, info2,
             {| m_listen_socket := m_listen_socket c;
                m_client_socket := accepted;
                m_client_host := peer;
                m_client_connected := true;
                m_keyframe_cb := m_keyframe_cb c |},
             rest)
      | (None, rest) => (false, out_info, c2, rest)
      end.

Definition set_connected (c : t) (b : bool) : t :=
  {| m_listen_socket := m_listen_socket c;
     m_client_socket := m_client_socket c;
     m_client_host := m_client_host c;
     m_client_connected := b;
     m_keyframe_cb := m_keyframe_cb c |}.

(* ControlServer::process; [readable] is select(...) > 0 *)
Definition process (c : t) (readable : bool) (stream : list Z)
    : t * list action * list Z :=
  if (m_client_socket c <? 0) || negb (m_client_connected c)
  then (c, [], stream)
  else if negb readable then (c, [], stream)
  else
    match read_message stream with
    | (Some (msg_type, msg_data), rest) =>
        if msg_type =? MSG_KEYFRAME_REQUEST then
          (c, if m_keyframe_cb c then [KeyframeCallback] else [], rest)
        else if msg_type =? MSG_PING then
          (c, [Sent (send_message MSG_PONG msg_data)], rest)
        else if msg_type =? MSG_DISCONNECT then
          (set_connected c false, [], rest)
        else (c, [], rest)
    | (None, rest) => (set_connected c false, [], rest)
    end.

(* ControlServer::reset *)
Definition reset (c : t) : t :=
  {| m_listen_socket := m_listen_socket c;
     m_client_socket := if 0 <=? m_client_socket c then -1 else m_client_socket c;
     m_client_host := [];
     m_client_connected := false;
     m_keyframe_cb := m_keyframe_cb c |}.

End ControlServer.

(** * BGRA to NV12 conversion *)

Module NV12.

(* a byte buffer addressed by offset from its base pointer *)
Definition mem : Type := Z -> Z.

Definition store (m : mem) (i v : Z) : mem :=
  fun j => if j =? i then v else m j.

(* [count] iterations of [body], the index going i, i+step, ... *)
Fixpoint for_range {A : Type} (count : nat) (i step : Z)
    (body : Z -> A -> A) (a : A) : A :=
  match count with
  | O => a
  | S c => for_range c (i + step) step body (body i a)
  end.

(* (u < 0) ? 0 : (u > 255) ? 255 : u   and   std::clamp(u, 0, 255) *)
Definition clamp_0_255 (u : Z) : Z :=
  if u <? 0 then 0 else if 255 <? u then 255 else u.

(* one Y row, #ifdef HAS_SSE2: four pixels per iteration, then the rest;
   [src] and [dst_y] are the row offsets y*src_stride and y*y_stride *)
Definition y_row_unrolled (bgra : mem) (width src dst_y : Z) (yp : mem) : mem :=
  let n4 := Z.to_nat (width / 4) in            (* for (; x <= width - 4; x += 4) *)
  let yp1 :=
    for_range n4 0 4 (fun x yp =>
      let b0 := bgra (src + (x*4+0)) in
      let g0 := bgra (src + (x*4+1)) in
      let r0 := bgra (src + (x*4+2)) in
      let b1 := bgra (src + (x*4+4)) in
      let g1 := bgra (src + (x*4+5)) in
      let r1 := bgra (src + (x*4+6)) in
      let b2 := bgra (src + (x*4+8)) in
      let g2 := bgra (src + (x*4+9)) in
      let r2 := bgra (src + (x*4+10)) in
      let b3 := bgra (src + (x*4+12)) in
      let g3 := bgra (src + (x*4+13)) in
      let r3 := bgra (src + (x*4+14)) in
      let yp := store yp (dst_y + (x+0))
                  (to_uint8 (Z.shiftr (66*r0 + 129*g0 + 25*b0 + 128) 8 + 16)) in
      let yp := store yp (dst_y + (x+1))
                  (to_uint8 (Z.shiftr (66*r1 + 129*g1 + 25*b1 + 128) 8 + 16)) in
      let yp := store yp (dst_y + (x+2))
                  (to_uint8 (Z.shiftr (66*r2 + 129*g2 + 25*b2 + 128) 8 + 16)) in
      store yp (dst_y + (x+3))
                  (to_uint8 (Z.shiftr (66*r3 + 129*g3 + 25*b3 + 128) 8 + 16))) yp in
  let x0 := 4 * Z.of_nat n4 in                 (* for (; x < width; x++) *)
  for_range (Z.to_nat (width - x0)) x0 1 (fun x yp =>
    let b := bgra (src + (x*4+0)) in
    let g := bgra (src + (x*4+1)) in
    let r := bgra (src + (x*4+2)) in
    store yp (dst_y + x) (to_uint8 (Z.shiftr (66*r + 129*g + 25*b + 128) 8 + 16)))
    yp1.

(* one Y row, fallback scalar implementation *)
Definition y_row_scalar (bgra : mem) (width src dst_y : Z) (yp : mem) : mem :=
  for_range (Z.to_nat width) 0 1 (fun x yp =>
    let b := bgra (src + (x*4+0)) in
    let g := bgra (src + (x*4+1)) in
    let r := bgra (src + (x*4+2)) in
    store yp (dst_y + x) (to_uint8 (Z.shiftr (66*r + 129*g + 25*b + 128) 8 + 16)))
    yp.

(* one UV row: 2x2 blocks; the two preprocessor branches differ only in
   where the shift by 2 is written and in how the clamp is spelled *)
Definition uv_row (bgra : mem) (width src0 src1 dst_uv : Z) (uvp : mem) : mem :=
  for_range (Z.to_nat (width / 2)) 0 1 (fun x uvp =>
    let r := bgra (src0 + (x*8+2)) + bgra (src0 + (x*8+6))
             + bgra (src1 + (x*8+2)) + bgra (src1 + (x*8+6)) in
    let g := bgra (src0 + (x*8+1)) + bgra (src0 + (x*8+5))
             + bgra (src1 + (x*8+1)) + bgra (src1 + (x*8+5)) in
    let b := bgra (src0 + (x*8+0)) + bgra (src0 + (x*8+4))
             + bgra (src1 + (x*8+0)) + bgra (src1 + (x*8+4)) in
    let r := Z.shiftr r 2 in
    let g := Z.shiftr g 2 in
    let b := Z.shiftr b 2 in
    let u := Z.shiftr (-38*r - 74*g + 112*b + 128) 8 + 128 in
    let v := Z.shiftr (112*r - 94*g - 18*b + 128) 8 + 128 in
    let uvp := store uvp (dst_uv + (x*2+0)) (to_uint8 (clamp_0_255 u)) in
    store uvp (dst_uv + (x*2+1)) (to_uint8 (clamp_0_255 v))) uvp.

(* convert_bgra_to_nv12_fast; [has_sse2] is the HAS_SSE2 build flag *)
Definition convert_bgra_to_nv12_fast (has_sse2 : bool) (bgra : mem)
    (width height src_stride : Z) (y_plane uv_plane : mem)
    (y_stride uv_stride : Z) : mem * mem :=
  let y_plane' :=
    for_range (Z.to_nat height) 0 1 (fun y yp =>
      let src := y * src_stride in
      let dst_y := y * y_stride in
      if has_sse2 then y_row_unrolled bgra width src dst_y yp
      else y_row_scalar bgra width src dst_y yp) y_plane in
  let uv_plane' :=
    for_range (Z.to_nat (height / 2)) 0 1 (fun y uvp =>
      let src0 := (y * 2) * src_stride in
      let src1 := (y * 2 + 1) * src_stride in
      let dst_uv := y * uv_stride in
      uv_row bgra width src0 src1 dst_uv uvp) uv_plane in
  (y_plane', uv_plane').

(* the formulas of the specification, section 4.2 *)
Definition spec_Y (r g b : Z) : Z := (66*r + 129*g + 25*b + 128) / 256 + 16.
Definition spec_U (r g b : Z) : Z := (-38*r - 74*g + 112*b + 128) / 256 + 128.
Definition spec_V (r g b : Z) : Z := (112*r - 94*g - 18*b + 128) / 256 + 128.
(* component-wise average of a 2x2 block: the sum shifted right by 2 *)
Definition spec_avg (p00 p01 p10 p11 : Z) : Z := (p00 + p01 + p10 + p11) / 4.

End NV12.

(** * VAAPIEncoder: keyframe forcing around the codec calls *)

Module VAAPIEncoder.

(* constants of the FFmpeg headers the encoder is compiled against *)
Definition AV_PICTURE_TYPE_NONE : Z := 0.
Definition AV_PICTURE_TYPE_I : Z := 1.
Definition AV_FRAME_FLAG_KEY : Z := 2.        (* 1 << 1 *)
Definition AV_PKT_FLAG_KEY : Z := 1.
Definition AVERROR_EAGAIN : Z := -11.         (* AVERROR(EAGAIN) *)

(* struct EncodedFrame *)
Record EncodedFrame : Type := mkEncoded {
  data : list Z;
  timestamp_us : Z;
  is_keyframe : bool
}.

(* the fields of m_impl->hw_frame that encode() sets *)
Record hw_frame : Type := mkHwFrame {
  pts : Z;
  pict_type : Z;
  frame_flags : Z
}.

(* the members encode() reads or writes *)
Record t : Type := mkEncoder {
  codec_ctx : bool;                 (* m_impl->codec_ctx != nullptr *)
  m_frame_count : Z;
  m_force_keyframe : bool;
  hw_flags : Z;                     (* m_impl->hw_frame->flags *)
  sw_y_plane : NV12.mem;            (* sw_frame->data[0] *)
  sw_uv_plane : NV12.mem;           (* sw_frame->data[1] *)
  sw_y_stride : Z;                  (* sw_frame->linesize[0] *)
  sw_uv_stride : Z                  (* sw_frame->linesize[1] *)
}.

(* what the FFmpeg calls of one encode() return *)
Record codec_env : Type := mkEnv {
  upload_ret : Z;                   (* av_hwframe_transfer_data *)
  send_ret : Z;                     (* avcodec_send_frame *)
  recv_ret : Z;                     (* avcodec_receive_packet *)
  packet_data : list Z;             (* m_impl->packet->data, size bytes *)
  packet_flags : Z                  (* m_impl->packet->flags *)
}.

Definition with_force (e : t) (b : bool) : t :=
  {| codec_ctx := codec_ctx e; m_frame_count := m_frame_count e;
     m_force_keyframe := b; hw_flags := hw_flags e;
     sw_y_plane := sw_y_plane e; sw_uv_plane := sw_uv_plane e;
     sw_y_stride := sw_y_stride e; sw_uv_stride := sw_uv_stride e |}.

(* void request_keyframe() { m_force_keyframe = true; } *)
Definition request_keyframe (e : t) : t := with_force e true.

(* VAAPIEncoder::encode; the third component lists the frames handed to
   avcodec_send_frame (at most one per call) *)
Definition encode (has_sse2 : bool) (e : t) (env : codec_env)
    (bgra_data : NV12.mem) (width height stride : Z) (ts_us : Z)
    : option EncodedFrame * t * list hw_frame :=
  if negb (codec_ctx e) then (None, e, [])
  else
    let '(yp, uvp) :=
      NV12.convert_bgra_to_nv12_fast has_sse2 bgra_data width height stride
        (sw_y_plane e) (sw_uv_plane e) (sw_y_stride e) (sw_uv_stride e) in
    let sw_pts := m_frame_count e in                (* sw_frame->pts = m_frame_count++ *)
    let e1 :=
      {| codec_ctx := true; m_frame_count := to_uint64 (m_frame_count e + 1);
         m_force_keyframe := m_force_keyframe e; hw_flags := hw_flags e;
         sw_y_plane := yp; sw_uv_plane := uvp;
         sw_y_stride := sw_y_stride e; sw_uv_stride := sw_uv_stride e |} in
    if upload_ret env <? 0 then (None, e1, [])
    else
      let '(ptype, fl, force') :=
        if m_force_keyframe e1
        then (AV_PICTURE_TYPE_I, Z.lor (hw_flags e1) AV_FRAME_FLAG_KEY, false)
        else (AV_PICTURE_TYPE_NONE,
              Z.land (hw_flags e1) (Z.lnot AV_FRAME_FLAG_KEY),
              m_force_keyframe e1) in
      let e2 :=
        {| codec_ctx := true; m_frame_count := m_frame_count e1;
           m_force_keyframe := force'; hw_flags := fl;
           sw_y_plane := yp; sw_uv_plane := uvp;
           sw_y_stride := sw_y_stride e; sw_uv_stride := sw_uv_stride e |} in
      let fr := {| pts := sw_pts; pict_type := ptype; frame_flags := fl |} in
      if send_ret env <? 0 then (None, e2, [fr])
      else if recv_ret env =? AVERROR_EAGAIN then (None, e2, [fr])
      else if recv_ret env <? 0 then (None, e2, [fr])
      else
        (Some {| data := packet_data env; timestamp_us := ts_us;
                 is_keyframe :=
                   negb (Z.land (packet_flags env) AV_PKT_FLAG_KEY =? 0) |},
         e2, [fr]).

(* one call of the pipeline loop: the captured frame and what FFmpeg
   answers during that call *)
Record call : Type := mkCall {
  call_env : codec_env;
  call_bgra : NV12.mem;
  call_width : Z;
  call_height : Z;
  call_stride : Z;
  call_ts : Z
}.

(* successive encode() calls with no request_keyframe in between:
   the outputs, the final encoder, the frames handed to the codec *)
Fixpoint encode_all (has_sse2 : bool) (e : t) (calls : list call)
    : list (option EncodedFrame) * t * list hw_frame :=
  match calls with
  | [] => ([], e, [])
  | c :: cs =>
      let '(out, e1, sent1) :=
        encode has_sse2 e (call_env c) (call_bgra c) (call_width c)
               (call_height c) (call_stride c) (call_ts c) in
      let '(outs, e2, sent2) := encode_all has_sse2 e1 cs in
      (out :: outs, e2, sent1 ++ sent2)
  end.

End VAAPIEncoder.

(** * Floating point, kept abstract

    The input path computes a few values in binary32 arithmetic and
    truncates them to int.  None of the properties below depends on how
    these round, so the operations are an interface. *)

Class FloatOps (F : Type) : Type := {
  f_zero : F;                          (* 0.0f *)
  f_scale : F -> Z -> Z;               (* static_cast<int>(v * k) *)
  f_trunc : F -> Z;                    (* static_cast<int>(v) *)
  f_ratio : Z -> Z -> Z -> Z           (* static_cast<int>((static_cast<float>(val) / max) * k) *)
}.

(* an instance to run the model with: values in units of 1/65535 *)
#[export] Instance fixed_float : FloatOps Z := {|
  f_zero := 0;
  f_scale := fun v k => Z.quot (v * k) 65535;
  f_trunc := fun v => Z.quot v 65535;
  f_ratio := fun val max k => if max =? 0 then 0 else Z.quot (val * k) max
|}.

(** * UInputBackend *)

Module UInput.

(* #define ABS_MAXVAL 65535 *)
Definition ABS_MAXVAL : Z := 65535.

(* event types and codes of <linux/input-event-codes.h> *)
Definition EV_SYN : Z := 0x00.
Definition EV_KEY : Z := 0x01.
Definition EV_ABS : Z := 0x03.
Definition SYN_REPORT : Z := 0.
Definition BTN_LEFT : Z := 0x110.
Definition BTN_RIGHT : Z := 0x111.
Definition BTN_MIDDLE : Z := 0x112.
Definition BTN_TOOL_PEN : Z := 0x140.
Definition BTN_TOOL_RUBBER : Z := 0x141.
Definition BTN_TOOL_FINGER : Z := 0x145.
Definition BTN_TOOL_QUINTTAP : Z := 0x148.
Definition BTN_TOUCH : Z := 0x14a.
Definition BTN_TOOL_DOUBLETAP : Z := 0x14d.
Definition BTN_TOOL_TRIPLETAP : Z := 0x14e.
Definition BTN_TOOL_QUADTAP : Z := 0x14f.
Definition ABS_X : Z := 0x00.
Definition ABS_Y : Z := 0x01.
Definition ABS_PRESSURE : Z := 0x18.
Definition ABS_TILT_X : Z := 0x1a.
Definition ABS_TILT_Y : Z := 0x1b.
Definition ABS_MT_SLOT : Z := 0x2f.
Definition ABS_MT_POSITION_X : Z := 0x35.
Definition ABS_MT_POSITION_Y : Z := 0x36.
Definition ABS_MT_TRACKING_ID : Z := 0x39.
Definition ABS_MT_PRESSURE : Z := 0x3a.

(* struct TouchSlot *)
Record TouchSlot : Type := mkSlot {
  active : bool;
  tracking_id : Z
}.

(* the data members of class UInputBackend *)
Record t : Type := mkBackend {
  m_stylus_fd : Z;
  m_mouse_fd : Z;
  m_touch_fd : Z;
  m_screen_width : Z;
  m_screen_height : Z;
  m_stylus_tool_active : bool;
  m_stylus_touching : bool;
  m_touch_slots : list TouchSlot           (* TouchSlot m_touch_slots[5] *)
}.

(* one struct input_event written to a device: emit(fd, type, code, value) *)
Record input_event : Type := emit {
  ev_fd : Z;
  ev_type : Z;
  ev_code : Z;
  ev_value : Z
}.

(* the object right after its devices were created with these descriptors *)
Definition created (stylus_fd mouse_fd touch_fd width height : Z) : t :=
  {| m_stylus_fd := stylus_fd; m_mouse_fd := mouse_fd; m_touch_fd := touch_fd;
     m_screen_width := width; m_screen_height := height;
     m_stylus_tool_active := false; m_stylus_touching := false;
     m_touch_slots := replicate 5 {| active := false; tracking_id := -1 |} |}.

Definition is_initialized (u : t) : bool :=
  (0 <=? m_stylus_fd u) && (0 <=? m_mouse_fd u) && (0 <=? m_touch_fd u).

Definition set_stylus (u : t) (tool_active touching : bool) : t :=
  {| m_stylus_fd := m_stylus_fd u; m_mouse_fd := m_mouse_fd u;
     m_touch_fd := m_touch_fd u; m_screen_width := m_screen_width u;
     m_screen_height := m_screen_height u;
     m_stylus_tool_active := tool_active; m_stylus_touching := touching;
     m_touch_slots := m_touch_slots u |}.

Definition set_slots (u : t) (slots : list TouchSlot) : t :=
  {| m_stylus_fd := m_stylus_fd u; m_mouse_fd := m_mouse_fd u;
     m_touch_fd := m_touch_fd u; m_screen_width := m_screen_width u;
     m_screen_height := m_screen_height u;
     m_stylus_tool_active := m_stylus_tool_active u;
     m_stylus_touching := m_stylus_touching u;
     m_touch_slots := slots |}.

(* m_touch_slots[i].active *)
Definition slot_active (slots : list TouchSlot) (i : nat) : bool :=
  match slots !! i with
  | Some sl => active sl
  | None => false
  end.

(* for (int i = 0; i < 5; i++) if (m_touch_slots[i].active) active_count++; *)
Definition count_active (slots : list TouchSlot) : Z :=
  fold_left (fun n i => if slot_active slots i then n + 1 else n) (seq 0 5) 0.

Section Backend.

Context {F : Type} `{FloatOps F}.

(* UInputBackend::transform_coord *)
Definition transform_coord (val max : Z) : Z := f_ratio val max ABS_MAXVAL.

(* UInputBackend::send_stylus *)
Definition send_stylus (u : t) (x y : Z) (pressure tilt_x tilt_y : F)
    (tip_down button1 button2 eraser in_range : bool) : t * list input_event :=
  if m_stylus_fd u <? 0 then (u, [])
  else
    let fd := m_stylus_fd u in
    let abs_x := transform_coord x (m_screen_width u) in
    let abs_y := transform_coord y (m_screen_height u) in
    let abs_pressure := f_scale pressure ABS_MAXVAL in
    if in_range then
      let '(tool1, tr1) :=
        if negb (m_stylus_tool_active u) && negb eraser
        then (true, [emit fd EV_KEY BTN_TOOL_PEN 1; emit fd EV_KEY BTN_TOOL_RUBBER 0])
        else (m_stylus_tool_active u, []) in
      let '(tool2, tr2) :=
        if eraser && tool1
        then (false, [emit fd EV_KEY BTN_TOOL_PEN 0; emit fd EV_KEY BTN_TOOL_RUBBER 1])
        else (tool1, []) in
      let '(touching, tr3) :=
        if tip_down && negb (m_stylus_touching u)
        then (true, [emit fd EV_KEY BTN_TOUCH 1])
        else if negb tip_down && m_stylus_touching u
        then (false, [emit fd EV_KEY BTN_TOUCH 0])
        else (m_stylus_touching u, []) in
      (set_stylus u tool2 touching,
       tr1 ++ tr2 ++ tr3 ++
       [ emit fd EV_ABS ABS_X abs_x;
         emit fd EV_ABS ABS_Y abs_y;
         emit fd EV_ABS ABS_PRESSURE (if touching then abs_pressure else 0);
         emit fd EV_ABS ABS_TILT_X (f_trunc tilt_x);
         emit fd EV_ABS ABS_TILT_Y (f_trunc tilt_y);
         emit fd EV_SYN SYN_REPORT 0 ])
    else
      let tr1 := if m_stylus_touching u then [emit fd EV_KEY BTN_TOUCH 0] else [] in
      let tr2 := if m_stylus_tool_active u then [emit fd EV_KEY BTN_TOOL_PEN 0] else [] in
      (set_stylus u false false,
       tr1 ++ tr2 ++
       [ emit fd EV_KEY BTN_TOOL_RUBBER 0;
         emit fd EV_ABS ABS_PRESSURE 0;
         emit fd EV_SYN SYN_REPORT 0 ]).

(* UInputBackend::send_touch *)
Definition send_touch (u : t) (x y slot : Z) (down : bool) (pressure : F)
    : t * list input_event :=
  if (m_touch_fd u <? 0) || (slot <? 0) || (5 <=? slot) then (u, [])
  else
    let fd := m_touch_fd u in
    let abs_x := transform_coord x (m_screen_width u) in
    let abs_y := transform_coord y (m_screen_height u) in
    let abs_pressure := f_scale pressure ABS_MAXVAL in
    let sel := [emit fd EV_ABS ABS_MT_SLOT slot] in
    let i := Z.to_nat slot in
    if down then
      let was_down := slot_active (m_touch_slots u) i in
      let '(slots', tr_new) :=
        if negb was_down then
          let slots1 := <[i := {| active := true; tracking_id := slot |}]>
                          (m_touch_slots u) in
          let active_count := count_active slots1 in
          (slots1,
           [ emit fd EV_ABS ABS_MT_TRACKING_ID slot;
             emit fd EV_KEY BTN_TOUCH 1;
             (* switch (active_count - 1) *)
             (if active_count - 1 =? 1 then emit fd EV_KEY BTN_TOOL_FINGER 0
              else if active_count - 1 =? 2 then emit fd EV_KEY BTN_TOOL_DOUBLETAP 0
              else if active_count - 1 =? 3 then emit fd EV_KEY BTN_TOOL_TRIPLETAP 0
              else if active_count - 1 =? 4 then emit fd EV_KEY BTN_TOOL_QUADTAP 0
              else emit fd EV_KEY BTN_TOOL_QUINTTAP 0);
             (* switch (active_count) *)
             (if active_count =? 1 then emit fd EV_KEY BTN_TOOL_FINGER 1
              else if active_count =? 2 then emit fd EV_KEY BTN_TOOL_DOUBLETAP 1
              else if active_count =? 3 then emit fd EV_KEY BTN_TOOL_TRIPLETAP 1
              else if active_count =? 4 then emit fd EV_KEY BTN_TOOL_QUADTAP 1
              else emit fd EV_KEY BTN_TOOL_QUINTTAP 1) ])
        else (m_touch_slots u, []) in
      (set_slots u slots',
       sel ++ tr_new ++
       [ emit fd EV_ABS ABS_MT_PRESSURE abs_pressure;
         emit fd EV_ABS ABS_MT_POSITION_X abs_x;
         emit fd EV_ABS ABS_MT_POSITION_Y abs_y;
         emit fd EV_ABS ABS_X abs_x;
         emit fd EV_ABS ABS_Y abs_y;
         emit fd EV_SYN SYN_REPORT 0 ])
    else
      let active_count := count_active (m_touch_slots u) in
      let tr_tool :=
        (* switch (active_count): cases 2..5, no default *)
        if active_count =? 2 then [emit fd EV_KEY BTN_TOOL_DOUBLETAP 0]
        else if active_count =? 3 then [emit fd EV_KEY BTN_TOOL_TRIPLETAP 0]
        else if active_count =? 4 then [emit fd EV_KEY BTN_TOOL_QUADTAP 0]
        else if active_count =? 5 then [emit fd EV_KEY BTN_TOOL_QUINTTAP 0]
        else [] in
      (set_slots u (<[i := {| active := false; tracking_id := -1 |}]>
                      (m_touch_slots u)),
       sel ++
       [ emit fd EV_ABS ABS_MT_TRACKING_ID (-1);
         emit fd EV_KEY BTN_TOUCH 0;
         emit fd EV_KEY BTN_TOOL_FINGER 0 ] ++
       tr_tool ++
       [ emit fd EV_SYN SYN_REPORT 0 ]).

(* void UInputBackend::sync() { /* Each device syncs itself after events */ } *)
Definition sync (u : t) : t * list input_event := (u, []).

End Backend.

(* reset_all, one turn of "for (int slot = 0; slot < 5; slot++)" *)
Definition reset_slot (fd : Z) (acc : list TouchSlot * list input_event)
    (slot : nat) : list TouchSlot * list input_event :=
  let '(slots, tr) := acc in
  if slot_active slots slot then
    (<[slot := {| active := false; tracking_id := -1 |}]> slots,
     tr ++ [ emit fd EV_ABS ABS_MT_SLOT (Z.of_nat slot);
             emit fd EV_ABS ABS_MT_TRACKING_ID (-1) ])
  else acc.

(* UInputBackend::reset_all *)
Definition reset_all (u : t) : t * list input_event :=
  let tr_stylus :=
    if 0 <=? m_stylus_fd u then
      [ emit (m_stylus_fd u) EV_KEY BTN_TOUCH 0;
        emit (m_stylus_fd u) EV_KEY BTN_TOOL_PEN 0;
        emit (m_stylus_fd u) EV_KEY BTN_TOOL_RUBBER 0;
        emit (m_stylus_fd u) EV_ABS ABS_PRESSURE 0;
        emit (m_stylus_fd u) EV_SYN SYN_REPORT 0 ]
    else [] in
  let tr_mouse :=
    if 0 <=? m_mouse_fd u then
      [ emit (m_mouse_fd u) EV_KEY BTN_LEFT 0;
        emit (m_mouse_fd u) EV_KEY BTN_RIGHT 0;
        emit (m_mouse_fd u) EV_KEY BTN_MIDDLE 0;
        emit (m_mouse_fd u) EV_SYN SYN_REPORT 0 ]
    else [] in
  let '(slots', tr_touch) :=
    if 0 <=? m_touch_fd u then
      let '(slots1, tr) :=
        fold_left (reset_slot (m_touch_fd u)) (seq 0 5) (m_touch_slots u, []) in
      (slots1,
       tr ++ [ emit (m_touch_fd u) EV_KEY BTN_TOUCH 0;
               emit (m_touch_fd u) EV_KEY BTN_TOOL_FINGER 0;
               emit (m_touch_fd u) EV_KEY BTN_TOOL_DOUBLETAP 0;
               emit (m_touch_fd u) EV_KEY BTN_TOOL_TRIPLETAP 0;
               emit (m_touch_fd u) EV_KEY BTN_TOOL_QUADTAP 0;
               emit (m_touch_fd u) EV_KEY BTN_TOOL_QUINTTAP 0;
               emit (m_touch_fd u) EV_SYN SYN_REPORT 0 ])
    else (m_touch_slots u, []) in
  ({| m_stylus_fd := m_stylus_fd u; m_mouse_fd := m_mouse_fd u;
      m_touch_fd := m_touch_fd u; m_screen_width := m_screen_width u;
      m_screen_height := m_screen_height u;
      m_stylus_tool_active := false; m_stylus_touching := false;
      m_touch_slots := slots' |},
   tr_stylus ++ tr_mouse ++ tr_touch).

(* destroy_*_device: if (fd >= 0) { ioctl; close; fd = -1; } *)
Definition destroyed (fd : Z) : Z := if 0 <=? fd then -1 else fd.

(* UInputBackend::shutdown *)
Definition shutdown (u : t) : t * list input_event :=
  let '(u1, tr) := reset_all u in
  ({| m_stylus_fd := destroyed (m_stylus_fd u1);
      m_mouse_fd := destroyed (m_mouse_fd u1);
      m_touch_fd := destroyed (m_touch_fd u1);
      m_screen_width := m_screen_width u1;
      m_screen_height := m_screen_height u1;
      m_stylus_tool_active := m_stylus_tool_active u1;
      m_stylus_touching := m_stylus_touching u1;
      m_touch_slots := m_touch_slots u1 |}, tr).

End UInput.

(** * Server: the orchestrator's handshake step and input dispatch *)

Module Server.

(* enum class InputEventType : uint8_t; read_event() stores whatever tag
   byte arrived, so tags outside the enumerators are possible values *)
Inductive InputEventType : Type :=
  | TOUCH_DOWN | TOUCH_MOVE | TOUCH_UP
  | STYLUS_DOWN | STYLUS_MOVE | STYLUS_UP | STYLUS_HOVER
  | KEY_DOWN | KEY_UP
  | OTHER_TAG (raw : Z).

(* static_cast<InputEventType>(packet.type) *)
Definition event_type_of_tag (tag : Z) : InputEventType :=
  if tag =? 0x01 then TOUCH_DOWN else if tag =? 0x02 then TOUCH_MOVE
  else if tag =? 0x03 then TOUCH_UP else if tag =? 0x04 then STYLUS_DOWN
  else if tag =? 0x05 then STYLUS_MOVE else if tag =? 0x06 then STYLUS_UP
  else if tag =? 0x07 then STYLUS_HOVER else if tag =? 0x08 then KEY_DOWN
  else if tag =? 0x09 then KEY_UP else OTHER_TAG tag.

Section Input.

Context {F : Type} `{FloatOps F}.

(* struct InputEvent *)
Record InputEvent : Type := mkInputEvent {
  type : InputEventType;
  pointer_id : Z;
  x : F;
  y : F;
  pressure : F;
  tilt_x : F;
  tilt_y : F;
  buttons : Z;
  timestamp_ms : Z
}.

(* the members handle_input uses: m_uinput (a unique_ptr, possibly null)
   and m_coord_transform.transform as a function of (x, y) *)
Record input_state : Type := mkInputState {
  m_uinput : option UInput.t;
  m_coord_transform : F -> F -> Z * Z
}.

Definition with_uinput (st : input_state) (u : UInput.t) : input_state :=
  {| m_uinput := Some u; m_coord_transform := m_coord_transform st |}.

(* Server::handle_input *)
Definition handle_input (st : input_state) (event : InputEvent)
    : input_state * list UInput.input_event :=
  match m_uinput st with
  | None => (st, [])
  | Some u =>
      if negb (UInput.is_initialized u) then (st, [])
      else
        let '(screen_x, screen_y) := m_coord_transform st (x event) (y event) in
        match type event with
        | STYLUS_DOWN | STYLUS_MOVE | STYLUS_HOVER =>
            let tip_down :=
              match type event with STYLUS_HOVER => false | _ => true end in
            let button1 := negb (Z.land (buttons event) 0x02 =? 0) in
            let button2 := negb (Z.land (buttons event) 0x04 =? 0) in
            let eraser := negb (Z.land (buttons event) 0x20 =? 0) in
            let '(u1, tr1) :=
              UInput.send_stylus u screen_x screen_y (pressure event)
                (tilt_x event) (tilt_y event) tip_down button1 button2 eraser
                true in
            let '(u2, tr2) := UInput.sync u1 in
            (with_uinput st u2, tr1 ++ tr2)
        | STYLUS_UP =>
            let '(u1, tr1) :=
              UInput.send_stylus u screen_x screen_y f_zero
                (tilt_x event) (tilt_y event) false false false false false in
            let '(u2, tr2) := UInput.sync u1 in
            (with_uinput st u2, tr1 ++ tr2)
        | TOUCH_DOWN | TOUCH_MOVE =>
            let '(u1, tr1) :=
              UInput.send_touch u screen_x screen_y (pointer_id event) true
                (pressure event) in
            let '(u2, tr2) := UInput.sync u1 in
            (with_uinput st u2, tr1 ++ tr2)
        | TOUCH_UP =>
            let '(u1, tr1) :=
              UInput.send_touch u screen_x screen_y (pointer_id event) false
                f_zero in
            let '(u2, tr2) := UInput.sync u1 in
            (with_uinput st u2, tr1 ++ tr2)
        | _ => (st, [])                       (* default: break; *)
        end
  end.

(* InputReceiver::process: the callback runs on every event, in order *)
Fixpoint process (st : input_state) (events : list InputEvent)
    : input_state * list UInput.input_event :=
  match events with
  | [] => (st, [])
  | e :: es =>
      let '(st1, tr1) := handle_input st e in
      let '(st2, tr2) := process st1 es in
      (st2, tr1 ++ tr2)
  end.

End Input.

(* the configuration and component state the handshake step reads *)
Record handshake_state : Type := mkHandshake {
  capture_width : Z;                (* m_capture->get_width() *)
  capture_height : Z;               (* m_capture->get_height() *)
  cfg_video_port : Z;               (* m_config.video_port *)
  cfg_input_port : Z;               (* m_config.input_port *)
  cfg_audio_port : Z;               (* m_config.audio_port *)
  cfg_audio_sample_rate : Z;
  cfg_audio_channels : Z;
  cfg_audio_frame_ms : Z;
  m_audio_initialized : bool;
  encoder_codec_type : Z            (* m_encoder->get_codec_type() *)
}.

(* Server::run, "Send configuration to client (with audio and codec info)":
   the bytes written to the control socket; [have_opus] is HAVE_OPUS *)
Definition run_send_configuration (have_opus : bool) (st : handshake_state)
    : list Z :=
  let codec_type := encoder_codec_type st in
  let audio_port :=
    if have_opus
    then (if m_audio_initialized st then cfg_audio_port st else 0)
    else 0 in
  ControlServer.send_config_full (capture_width st) (capture_height st)
    (cfg_video_port st) (cfg_input_port st) audio_port
    (cfg_audio_sample_rate st) (cfg_audio_channels st)
    (cfg_audio_frame_ms st) codec_type.

(* Server::run of the revisions without audio (server.cpp):
   "Send configuration to client" *)
Definition run_send_configuration_short (st : handshake_state) : list Z :=
  ControlServer.send_config (capture_width st) (capture_height st)
    (cfg_video_port st) (cfg_input_port st).

End Server.

(** * AudioSender: one datagram per Opus frame *)

Module AudioSender.

Definition AUDIO_MAGIC : Z := 0x5341.

(* struct AudioPacketHeader *)
Record AudioPacketHeader : Type := mkAudioHeader {
  magic : Z;
  sequence : Z;
  timestamp : Z;
  payload_len : Z;
  reserved : Z
}.

Record packet : Type := mkAudioPacket {
  pkt_header : AudioPacketHeader;
  pkt_payload : list Z
}.

Record t : Type := mkAudioSender {
  m_socket : Z;
  m_client_set : bool;
  m_bytes_sent : Z;
  m_packets_sent : Z
}.

Definition has_client (s : t) : bool := m_client_set s.

(* AudioSender::send_packet; [data] holds the size bytes at the pointer, the
   third component lists the datagrams handed to sendto *)
Definition send_packet (sendto : packet -> Z) (s : t) (data : list Z)
    (seq_no timestamp_us : Z) : bool * t * list packet :=
  if negb (m_client_set s) || (m_socket s <? 0) then (false, s, [])
  else
    let size := Z.of_nat (length data) in
    let p :=
      {| pkt_header :=
           {| magic := AUDIO_MAGIC;
              sequence := to_uint16 (Z.land seq_no 0xFFFF);
              timestamp := to_uint32 (to_uint64 (timestamp_us * 48) / 1000);
              payload_len := to_uint16 size;
              reserved := 0 |};
         pkt_payload := data |} in
    let sent := sendto p in
    if sent <? 0 then (false, s, [p])
    else
      (true,
       {| m_socket := m_socket s; m_client_set := m_client_set s;
          m_bytes_sent := to_uint64 (m_bytes_sent s + sent);
          m_packets_sent := to_uint64 (m_packets_sent s + 1) |},
       [p]).

End AudioSender.

(** * OpusEncoder: buffering of captured samples into codec frames *)

Module OpusEncoder.

(* struct OpusConfig *)
Record OpusConfig : Type := mkOpusConfig {
  sample_rate : Z;
  channels : Z;
  bitrate : Z;
  frame_size_ms : Z;
  enable_fec : bool
}.

(* struct EncodedAudio *)
Record EncodedAudio : Type := mkEncodedAudio {
  data : list Z;
  timestamp_us : Z;
  samples_per_channel : Z
}.

Section Encoder.

(* Sample: a float sample; Codec: the state behind the opaque
   ::OpusEncoder*; W: whatever the callback of encode() works on *)
Context {Sample Codec W : Type}.

(* opus_encode_float on [frame_size * channels] samples: the new codec
   state, the return value and the contents of m_encode_buffer *)
Variable opus_encode_float : Codec -> list Sample -> Codec * (Z * list Z).

Record t : Type := mkOpus {
  m_encoder : option Codec;
  m_config : OpusConfig;
  m_frame_size : Z;
  m_input_buffer : list Sample;
  m_buffer_start_timestamp : Z
}.

(* one turn of the loop of encode(): the samples the codec read (none if it
   was not called), the timestamp passed on, the frame it produced *)
Record frame_call : Type := mkFrameCall {
  fc_codec_input : list (list Sample);
  fc_timestamp : Z;
  fc_output : option EncodedAudio
}.

(* OpusEncoder::encode_frame on the samples at [samples] *)
Definition encode_frame (e : t) (samples : list Sample)
    (samples_per_channel timestamp_us : Z)
    : option EncodedAudio * t * list (list Sample) :=
  match m_encoder e with
  | None => (None, e, [])
  | Some c =>
      if negb (samples_per_channel =? m_frame_size e) then (None, e, [])
      else
        let pcm :=
          firstn (Z.to_nat (samples_per_channel * channels (m_config e)))
                 samples in
        let '(c', (encoded_bytes, encode_buffer)) := opus_encode_float c pcm in
        let e' := {| m_encoder := Some c'; m_config := m_config e;
                     m_frame_size := m_frame_size e;
                     m_input_buffer := m_input_buffer e;
                     m_buffer_start_timestamp := m_buffer_start_timestamp e |} in
        if encoded_bytes <? 0 then (None, e', [pcm])
        else
          (Some {| data := firstn (Z.to_nat encoded_bytes) encode_buffer;
                   timestamp_us := timestamp_us;
                   samples_per_channel := samples_per_channel |},
           e', [pcm])
  end.

(* size_t samples_per_frame = static_cast<size_t>(m_frame_size) * channels *)
Definition samples_per_frame (e : t) : Z :=
  to_size_t (to_size_t (m_frame_size e) * to_size_t (channels (m_config e))).

(* "while (m_input_buffer.size() >= samples_per_frame)": at most [fuel]
   turns; None when the loop is still running after them *)
Fixpoint encode_loop (callback : EncodedAudio -> W -> W) (fuel : nat) (e : t)
    (frames_encoded : Z) (w : W) : option (Z * t * W * list frame_call) :=
  if Z.of_nat (length (m_input_buffer e)) <? samples_per_frame e
  then Some (frames_encoded, e, w, [])
  else
    match fuel with
    | O => None
    | S fuel' =>
        let '(output, e1, pcm) :=
          encode_frame e (m_input_buffer e) (m_frame_size e)
            (m_buffer_start_timestamp e) in
        let '(frames_encoded1, w1) :=
          match output with
          | Some o => (frames_encoded + 1, callback o w)
          | None => (frames_encoded, w)
          end in
        let e2 :=
          {| m_encoder := m_encoder e1; m_config := m_config e1;
             m_frame_size := m_frame_size e1;
             m_input_buffer :=
               skipn (Z.to_nat (samples_per_frame e)) (m_input_buffer e1);
             m_buffer_start_timestamp :=
               to_uint64 (m_buffer_start_timestamp e1
                          + to_uint64
                              (to_uint64 (frame_size_ms (m_config e1)) * 1000)) |} in
        match encode_loop callback fuel' e2 frames_encoded1 w1 with
        | None => None
        | Some (n, e3, w3, calls) =>
            Some (n, e3, w3,
                  {| fc_codec_input := pcm;
                     fc_timestamp := m_buffer_start_timestamp e;
                     fc_output := output |} :: calls)
        end
    end.

(* the [n] samples at the pointer [samples] *)
Definition read_samples (samples : Z -> Sample) (n : Z) : list Sample :=
  map (fun k => samples (Z.of_nat k)) (seq 0 (Z.to_nat n)).

(* OpusEncoder::encode; [callback] is None for an empty std::function *)
Definition encode (fuel : nat) (e : t) (samples : Z -> Sample)
    (samples_per_channel timestamp_us : Z)
    (callback : option (EncodedAudio -> W -> W)) (w : W)
    : option (Z * t * W * list frame_call) :=
  match m_encoder e, callback with
  | Some _, Some cb =>
      let start :=
        match m_input_buffer e with
        | [] => timestamp_us
        | _ :: _ => m_buffer_start_timestamp e
        end in
      let total_samples :=
        to_size_t (to_size_t samples_per_channel
                   * to_size_t (channels (m_config e))) in
      let e1 :=
        {| m_encoder := m_encoder e; m_config := m_config e;
           m_frame_size := m_frame_size e;
           m_input_buffer :=
             m_input_buffer e ++ read_samples samples total_samples;
           m_buffer_start_timestamp := start |} in
      encode_loop cb fuel e1 0 w
  | _, _ => Some (0, e, w, [])
  end.

End Encoder.

End OpusEncoder.

(** * Server::on_audio_frame: from captured audio to datagrams *)

Module ServerAudio.

Section Audio.

Context {Sample Codec : Type}.
Variable opus_encode_float : Codec -> list Sample -> Codec * (Z * list Z).
Variable sendto : AudioSender.packet -> Z.

(* struct AudioFrame *)
Record AudioFrame : Type := mkAudioFrame {
  samples : Z -> Sample;
  num_samples : Z;
  channels : Z;
  timestamp_us : Z
}.

(* the members on_audio_frame uses *)
Record t : Type := mkServerAudio {
  m_opus_encoder : option (OpusEncoder.t (Sample := Sample) (Codec := Codec));
  m_audio_sender : option AudioSender.t;
  m_audio_sequence : Z
}.

(* what the lambda handed to encode() works on: the sender, the sequence
   counter, the datagrams handed to sendto so far *)
Definition send_encoded (encoded : OpusEncoder.EncodedAudio)
    (w : AudioSender.t * Z * list AudioSender.packet)
    : AudioSender.t * Z * list AudioSender.packet :=
  let '(sender, seq_no, tr) := w in
  let '(_, sender', tr') :=
    AudioSender.send_packet sendto sender (OpusEncoder.data encoded)
      seq_no (OpusEncoder.timestamp_us encoded) in
  (sender', to_uint32 (seq_no + 1), tr ++ tr').

(* Server::on_audio_frame *)
Definition on_audio_frame (fuel : nat) (st : t) (frame : AudioFrame)
    : option (t * list AudioSender.packet) :=
  match m_opus_encoder st, m_audio_sender st with
  | Some enc, Some sender =>
      if negb (AudioSender.has_client sender) then Some (st, [])
      else
        match OpusEncoder.encode opus_encode_float fuel enc (samples frame)
                (num_samples frame) (timestamp_us frame)
                (Some send_encoded) (sender, m_audio_sequence st, []) with
        | None => None
        | Some (_, enc', (sender', seq_no', tr), _) =>
            Some ({| m_opus_encoder := Some enc';
                     m_audio_sender := Some sender';
                     m_audio_sequence := seq_no' |}, tr)
        end
  | _, _ => Some (st, [])
  end.

End Audio.

End ServerAudio.

(** * Server::capture_and_encode_loop: one frame through the pipeline *)

Module ServerVideo.

(* the members capture_and_encode_loop uses *)
Record t : Type := mkServerVideo {
  m_encoder : VAAPIEncoder.t;
  m_video_sender : VideoSender.t;
  m_frame_count : Z
}.

(* encoded.data.data() as the pointer send_frame reads from *)
Definition data_at (bytes : list Z) (i : Z) : Z := nth (Z.to_nat i) bytes 0.

(* what one call did: the frames handed to the codec and, if the call got
   as far as send_frame, what the sender did *)
Record turn : Type := mkTurn {
  submitted : list VAAPIEncoder.hw_frame;
  sent : option (list VideoSender.event)
}.

(* Server::capture_and_encode_loop; [captured] is None when capture_frame
   fails, else the frame together with what FFmpeg answers for it *)
Definition capture_and_encode_loop (has_sse2 : bool)
    (sendto : VideoSender.packet -> Z) (st : t)
    (captured : option VAAPIEncoder.call) : t * turn :=
  match captured with
  | None => (st, {| submitted := []; sent := None |})
  | Some c =>
      let '(out, e1, frames) :=
        VAAPIEncoder.encode has_sse2 (m_encoder st) (VAAPIEncoder.call_env c)
          (VAAPIEncoder.call_bgra c) (VAAPIEncoder.call_width c)
          (VAAPIEncoder.call_height c) (VAAPIEncoder.call_stride c)
          (VAAPIEncoder.call_ts c) in
      match out with
      | None =>
          ({| m_encoder := e1; m_video_sender := m_video_sender st;
              m_frame_count := m_frame_count st |},
           {| submitted := frames; sent := None |})
      | Some encoded =>
          let '(_, s1, tr) :=
            VideoSender.send_frame sendto (m_video_sender st)
              (data_at (VAAPIEncoder.data encoded))
              (Z.of_nat (length (VAAPIEncoder.data encoded)))
              (m_frame_count st) (VAAPIEncoder.is_keyframe encoded)
              (VAAPIEncoder.timestamp_us encoded) in
          ({| m_encoder := e1; m_video_sender := s1;
              m_frame_count := to_uint32 (m_frame_count st + 1) |},
           {| submitted := frames; sent := Some tr |})
      end
  end.

(* the calls the stream loop of Server::run makes, one per due frame *)
Fixpoint stream (has_sse2 : bool) (sendto : VideoSender.packet -> Z) (st : t)
    (captures : list (option VAAPIEncoder.call)) : t * list turn :=
  match captures with
  | [] => (st, [])
  | c :: cs =>
      let '(st1, tn) := capture_and_encode_loop has_sse2 sendto st c in
      let '(st2, tns) := stream has_sse2 sendto st1 cs in
      (st2, tn :: tns)
  end.

End ServerVideo.

(** * Server::run: the timing of the stream loop *)

Module ServerLoop.

(* after a frame was handled at time [now] (the loop got here because
   now >= next_frame):
     next_frame += frame_interval;
     if (next_frame < now) next_frame = now + frame_interval;
   all times in microseconds *)
Definition advance_deadline (now next_frame frame_interval : Z) : Z :=
  let next_frame := next_frame + frame_interval in
  if next_frame <? now then now + frame_interval else next_frame.

(* "sleep smartly": the duration handed to sleep_for at the end of one
   turn of the loop, None when the loop goes round without sleeping *)
Definition sleep_request (current_fps time_to_next : Z) : option Z :=
  if 90 <? current_fps then
    if 2000 <? time_to_next then Some (time_to_next * 6 / 10)
    else if 500 <? time_to_next then Some 100
    else None
  else
    if 1000 <? time_to_next then Some (time_to_next / 2)
    else if 100 <? time_to_next then Some 50
    else None.

End ServerLoop.

(** * Words of the specification, for comparison with the code *)

Module Spec.

(* a 16-bit field, big-endian: most significant byte first *)
Definition be16 (v : Z) : list Z := [v / 256 mod 256; v mod 256].

(* the value a receiver reads back from two big-endian bytes *)
Definition be16_decode (hi lo : Z) : Z := hi * 256 + lo.

(* the 15-byte ConfigResponse payload of section 4.5 *)
Definition config_response (screen_w screen_h video_port input_port
    audio_port sample_rate channels frame_ms codec : Z) : list Z :=
  be16 screen_w ++ be16 screen_h ++ be16 video_port ++ be16 input_port
  ++ be16 audio_port ++ be16 sample_rate
  ++ [channels mod 256; frame_ms mod 256; codec].

(* the TOOL_* key that stands for a number of fingers:
   1 FINGER, 2 DOUBLETAP, 3 TRIPLETAP, 4 QUADTAP, 5 QUINTTAP *)
Definition tool_for_count (n : Z) : Z :=
  if n =? 1 then UInput.BTN_TOOL_FINGER
  else if n =? 2 then UInput.BTN_TOOL_DOUBLETAP
  else if n =? 3 then UInput.BTN_TOOL_TRIPLETAP
  else if n =? 4 then UInput.BTN_TOOL_QUADTAP
  else UInput.BTN_TOOL_QUINTTAP.

(* ceil(size / 1200) *)
Definition ceil_div_1200 (size : Z) : Z := (size + 1199) / 1200.

(* a frame sent in bursts of [burst] fragments with [delay] microseconds
   between bursts and nothing after the last one: which fragment indices
   are followed by a sleep *)
Definition sleeps_after (burst count i : Z) : bool :=
  ((i + 1) mod burst =? 0) && (i + 1 <? count).

(* fragment indices i, i+1, ..., i+len-1 *)
Definition indices (i : Z) (len : nat) : list Z :=
  map (fun k => i + Z.of_nat k) (seq 0 len).

(* [len] fragments from index i on, of a frame of [count] fragments, sent in
   bursts: inl idx is a datagram, inr us a sleep *)
Definition paced_from (burst delay count i : Z) (len : nat) : list (Z + Z) :=
  flat_map (fun j => inl j :: (if sleeps_after burst count j
                               then [inr delay] else []))
           (indices i len).

Definition paced_shape (burst delay count : Z) : list (Z + Z) :=
  paced_from burst delay count 0 (Z.to_nat count).

(* a frame sent back to back *)
Definition unpaced_shape (count : Z) : list (Z + Z) :=
  map inl (indices 0 (Z.to_nat count)).

(* Keyframe-only sub-tiers as the claim words them:
   None is "no inter-burst delay at all" *)
Definition claimed_tier (size : Z) : option (Z * Z) :=
  if size <=? 100000 then None
  else if size <=? 300000 then Some (6, 150)
  else if size <=? 500000 then Some (4, 200)
  else Some (2, 300).

(* the sub-tiers with the policy's own burst 8 / 100 us for the smallest *)
Definition keyframe_tier (size : Z) : Z * Z :=
  if size <=? 100000 then (8, 100)
  else if size <=? 300000 then (6, 150)
  else if size <=? 500000 then (4, 200)
  else (2, 300).

End Spec.

(** * Concrete inputs for the examples *)

Module Demo.

(* a sender bound to descriptor 3, destination set with --pacing keyframe *)
Definition keyframe_sender : VideoSender.t :=
  VideoSender.set_client (VideoSender.init_ok VideoSender.initial 3)
    VideoSender.LIGHT VideoSender.KEYFRAME.

(* a socket that accepts every datagram whole *)
Definition sendto_all (p : VideoSender.packet) : Z := VideoSender.packet_size p.

(* frame bytes 0, 1, ..., 255, 0, 1, ... *)
Definition ramp (i : Z) : Z := i mod 256.

(* an opened encoder with empty staging planes *)
Definition encoder : VAAPIEncoder.t :=
  {| VAAPIEncoder.codec_ctx := true; VAAPIEncoder.m_frame_count := 0;
     VAAPIEncoder.m_force_keyframe := false; VAAPIEncoder.hw_flags := 0;
     VAAPIEncoder.sw_y_plane := fun _ => 0;
     VAAPIEncoder.sw_uv_plane := fun _ => 0;
     VAAPIEncoder.sw_y_stride := 4; VAAPIEncoder.sw_uv_stride := 4 |}.

(* the codec takes the frame and has no packet yet *)
Definition env_again : VAAPIEncoder.codec_env :=
  {| VAAPIEncoder.upload_ret := 0; VAAPIEncoder.send_ret := 0;
     VAAPIEncoder.recv_ret := VAAPIEncoder.AVERROR_EAGAIN;
     VAAPIEncoder.packet_data := []; VAAPIEncoder.packet_flags := 0 |}.

(* the codec takes the frame and returns a key packet *)
Definition env_key_packet : VAAPIEncoder.codec_env :=
  {| VAAPIEncoder.upload_ret := 0; VAAPIEncoder.send_ret := 0;
     VAAPIEncoder.recv_ret := 0;
     VAAPIEncoder.packet_data := [0; 0; 1]; VAAPIEncoder.packet_flags := 1 |}.

(* 1920x1080, default ports, audio up at 48 kHz stereo 10 ms, AV1 *)
Definition handshake : Server.handshake_state :=
  {| Server.capture_width := 1920; Server.capture_height := 1080;
     Server.cfg_video_port := 9501; Server.cfg_input_port := 9502;
     Server.cfg_audio_port := 9503; Server.cfg_audio_sample_rate := 48000;
     Server.cfg_audio_channels := 2; Server.cfg_audio_frame_ms := 10;
     Server.m_audio_initialized := true; Server.encoder_codec_type := 0 |}.

(* the three devices created on descriptors 3, 4, 5 for a 1920x1080 screen *)
Definition backend : UInput.t := UInput.created 3 4 5 1920 1080.

(* the relay of a session: devices up, coordinates stretched to the screen *)
Definition relay : Server.input_state (F := Z) :=
  {| Server.m_uinput := Some backend;
     Server.m_coord_transform := fun x y => (f_scale x 1920, f_scale y 1080) |}.

(* an event of the given kind at the centre of the tablet, pressure 0.5 *)
Definition event_at_centre (kind : Server.InputEventType) (slot buttons : Z)
    : Server.InputEvent (F := Z) :=
  {| Server.type := kind; Server.pointer_id := slot;
     Server.x := 32767; Server.y := 32767; Server.pressure := 32767;
     Server.tilt_x := 0; Server.tilt_y := 0;
     Server.buttons := buttons; Server.timestamp_ms := 0 |}.

(* a 4x2 BGRA picture, every byte 128 *)
Definition grey (i : Z) : Z := 128.

(* the codec takes the frame and returns a packet that is not a key packet *)
Definition env_delta_packet : VAAPIEncoder.codec_env :=
  {| VAAPIEncoder.upload_ret := 0; VAAPIEncoder.send_ret := 0;
     VAAPIEncoder.recv_ret := 0;
     VAAPIEncoder.packet_data := [0; 0; 1; 9]; VAAPIEncoder.packet_flags := 0 |}.

(* the upload to the GPU fails *)
Definition env_upload_fails : VAAPIEncoder.codec_env :=
  {| VAAPIEncoder.upload_ret := -5; VAAPIEncoder.send_ret := 0;
     VAAPIEncoder.recv_ret := 0;
     VAAPIEncoder.packet_data := []; VAAPIEncoder.packet_flags := 0 |}.

(* three captured frames; the second one cannot be uploaded *)
Definition three_calls : list VAAPIEncoder.call :=
  [ VAAPIEncoder.mkCall env_key_packet grey 4 2 16 1000;
    VAAPIEncoder.mkCall env_upload_fails grey 4 2 16 2000;
    VAAPIEncoder.mkCall env_again grey 4 2 16 3000 ].

(* a codec stand-in: every frame becomes the three bytes 1 2 3 *)
Definition opus_stub (c : unit) (pcm : list Z) : unit * (Z * list Z) :=
  (c, (3, [1; 2; 3; 0])).

(* an Opus encoder for frames of 2 samples per channel, stereo, 10 ms, with
   one sample left over from the previous call *)
Definition opus : OpusEncoder.t (Sample := Z) (Codec := unit) :=
  {| OpusEncoder.m_encoder := Some tt;
     OpusEncoder.m_config :=
       {| OpusEncoder.sample_rate := 200; OpusEncoder.channels := 2;
          OpusEncoder.bitrate := 128000; OpusEncoder.frame_size_ms := 10;
          OpusEncoder.enable_fec := false |};
     OpusEncoder.m_frame_size := 2;
     OpusEncoder.m_input_buffer := [70];
     OpusEncoder.m_buffer_start_timestamp := 5000 |}.

(* the callback of the examples collects the frames it is given *)
Definition collect (o : OpusEncoder.EncodedAudio)
    (w : list OpusEncoder.EncodedAudio) : list OpusEncoder.EncodedAudio :=
  w ++ [o].

(* the audio path of a session: client set, 65535 datagrams sent so far *)
Definition audio_sender : AudioSender.t :=
  {| AudioSender.m_socket := 7; AudioSender.m_client_set := true;
     AudioSender.m_bytes_sent := 0; AudioSender.m_packets_sent := 0 |}.

Definition audio_state : ServerAudio.t (Sample := Z) (Codec := unit) :=
  {| ServerAudio.m_opus_encoder := Some opus;
     ServerAudio.m_audio_sender := Some audio_sender;
     ServerAudio.m_audio_sequence := 65535 |}.

(* five captured samples per channel, stereo, stamped 20 ms *)
Definition audio_frame : ServerAudio.AudioFrame (Sample := Z) :=
  {| ServerAudio.samples := ramp; ServerAudio.num_samples := 5;
     ServerAudio.channels := 2; ServerAudio.timestamp_us := 20000 |}.

(* sendto takes every audio datagram: 12 header bytes and the payload *)
Definition audio_sendto (p : AudioSender.packet) : Z :=
  12 + Z.of_nat (length (AudioSender.pkt_payload p)).

(* the video pipeline after 65535 frames of a session *)
Definition pipeline : ServerVideo.t :=
  {| ServerVideo.m_encoder := encoder;
     ServerVideo.m_video_sender := keyframe_sender;
     ServerVideo.m_frame_count := 65535 |}.

(* a frame that encodes, a failed capture, a failed upload, a frame that
   encodes *)
Definition captures : list (option VAAPIEncoder.call) :=
  [ Some (VAAPIEncoder.mkCall env_key_packet grey 4 2 16 1000);
    None;
    Some (VAAPIEncoder.mkCall env_upload_fails grey 4 2 16 2000);
    Some (VAAPIEncoder.mkCall env_key_packet grey 4 2 16 3000) ].

End Demo.

(** * Predicates used in the statements *)

(* the largest size an object, and so a frame buffer, can have *)
Definition PTRDIFF_MAX : Z := 2 ^ 63 - 1.

Definition key_bit (env : VAAPIEncoder.codec_env) : bool :=
  negb (Z.land (VAAPIEncoder.packet_flags env) VAAPIEncoder.AV_PKT_FLAG_KEY =? 0).

Definition marked_intra (fr : VAAPIEncoder.hw_frame) : Prop :=
  VAAPIEncoder.pict_type fr = VAAPIEncoder.AV_PICTURE_TYPE_I
  /\ Z.land (VAAPIEncoder.frame_flags fr) VAAPIEncoder.AV_FRAME_FLAG_KEY
     = VAAPIEncoder.AV_FRAME_FLAG_KEY.

Definition not_marked (fr : VAAPIEncoder.hw_frame) : Prop :=
  VAAPIEncoder.pict_type fr = VAAPIEncoder.AV_PICTURE_TYPE_NONE
  /\ Z.land (VAAPIEncoder.frame_flags fr) VAAPIEncoder.AV_FRAME_FLAG_KEY = 0.

Definition output_follows_packet (c : VAAPIEncoder.call)
    (out : option VAAPIEncoder.EncodedFrame) : Prop :=
  forall f, out = Some f ->
    VAAPIEncoder.is_keyframe f = key_bit (VAAPIEncoder.call_env c).

(* The codec as init_encoder configures it (max_b_frames = 0, delay = 0,
   thread_count = 1, async_depth = 1), seen from a run of encode() calls.
   [pending] lists, oldest first, the frames the codec has accepted and not
   yet answered, each by whether it was submitted as a forced intra picture.
   The run is one of such a codec when
   - the frame that carries a keyframe request is accepted by
     avcodec_send_frame (what happens when it is refused is not covered),
   - a call whose frame is accepted and that gets no packet leaves at most
     one frame with the codec,
   - a packet, when one is returned, is that of the oldest pending frame,
     and it is a key packet if that frame was submitted as intra. *)
Fixpoint codec_low_latency (has_sse2 : bool) (e : VAAPIEncoder.t)
    (pending : list bool) (calls : list VAAPIEncoder.call) : Prop :=
  match calls with
  | [] => True
  | c :: cs =>
      let '(out, e1, sent) :=
        VAAPIEncoder.encode has_sse2 e (VAAPIEncoder.call_env c)
          (VAAPIEncoder.call_bgra c) (VAAPIEncoder.call_width c)
          (VAAPIEncoder.call_height c) (VAAPIEncoder.call_stride c)
          (VAAPIEncoder.call_ts c) in
      match sent with
      | [] => codec_low_latency has_sse2 e1 pending cs
      | fr :: _ =>
          let intra :=
            VAAPIEncoder.pict_type fr =? VAAPIEncoder.AV_PICTURE_TYPE_I in
          if VAAPIEncoder.send_ret (VAAPIEncoder.call_env c) <? 0
          then intra = false /\ codec_low_latency has_sse2 e1 pending cs
          else
            match out, pending ++ [intra] with
            | None, held =>
                (length held <= 1)%nat
                /\ codec_low_latency has_sse2 e1 held cs
            | Some f, oldest :: held =>
                (oldest = true -> VAAPIEncoder.is_keyframe f = true)
                /\ codec_low_latency has_sse2 e1 held cs
            | Some _, [] => False
            end
      end
  end.

(* the frames encode() returned, in call order *)
Definition returned_frames (outs : list (option VAAPIEncoder.EncodedFrame))
    : list VAAPIEncoder.EncodedFrame :=
  omap id outs.

(* how many returned frames come before the first one with is_keyframe *)
Fixpoint before_first_keyframe (fs : list VAAPIEncoder.EncodedFrame) : nat :=
  match fs with
  | [] => 0
  | f :: fs' =>
      if VAAPIEncoder.is_keyframe f then 0 else S (before_first_keyframe fs')
  end.

Definition upload_fails (c : VAAPIEncoder.call) : Prop :=
  VAAPIEncoder.upload_ret (VAAPIEncoder.call_env c) < 0.

Definition upload_works (c : VAAPIEncoder.call) : Prop :=
  0 <= VAAPIEncoder.upload_ret (VAAPIEncoder.call_env c).

(* the byte the Y loops store for pixel x of the row starting at [src] *)
Definition y_val (bgra : NV12.mem) (src x : Z) : Z :=
  to_uint8 (Z.shiftr (66 * bgra (src + (x*4+2)) + 129 * bgra (src + (x*4+1))
                      + 25 * bgra (src + (x*4+0)) + 128) 8 + 16).

(* the averaged component c (0 = B, 1 = G, 2 = R) of block x of a row pair *)
Definition block_avg (bgra : NV12.mem) (src0 src1 x c : Z) : Z :=
  Z.shiftr (bgra (src0 + (x*8+c)) + bgra (src0 + (x*8+(c+4)))
            + bgra (src1 + (x*8+c)) + bgra (src1 + (x*8+(c+4)))) 2.

(* the bytes the UV loop stores for block x *)
Definition u_val (bgra : NV12.mem) (src0 src1 x : Z) : Z :=
  to_uint8 (NV12.clamp_0_255
    (Z.shiftr (-38 * block_avg bgra src0 src1 x 2 - 74 * block_avg bgra src0 src1 x 1
               + 112 * block_avg bgra src0 src1 x 0 + 128) 8 + 128)).

Definition v_val (bgra : NV12.mem) (src0 src1 x : Z) : Z :=
  to_uint8 (NV12.clamp_0_255
    (Z.shiftr (112 * block_avg bgra src0 src1 x 2 - 94 * block_avg bgra src0 src1 x 1
               - 18 * block_avg bgra src0 src1 x 0 + 128) 8 + 128)).

(* byte c (0 = B, 1 = G, 2 = R) of the pixel in column [col], row [row]
   of a BGRA picture with [stride] bytes per row *)
Definition pixel (bgra : NV12.mem) (stride col row c : Z) : Z :=
  bgra (row * stride + (col * 4 + c)).

(* component c averaged over the 2x2 block (bx, by) *)
Definition block_mean (bgra : NV12.mem) (stride bx by_ c : Z) : Z :=
  NV12.spec_avg (pixel bgra stride (bx * 2) (by_ * 2) c)
                (pixel bgra stride (bx * 2 + 1) (by_ * 2) c)
                (pixel bgra stride (bx * 2) (by_ * 2 + 1) c)
                (pixel bgra stride (bx * 2 + 1) (by_ * 2 + 1) c).

(* the input relay is active: the devices exist *)
Definition relay_active {F : Type} (st : Server.input_state (F := F)) : Prop :=
  exists u, Server.m_uinput st = Some u /\ UInput.is_initialized u = true.

(* StylusState of the specification read off the backend:
   tool present = m_stylus_tool_active, tip contact = m_stylus_touching *)
Definition tip_implies_tool {F : Type} (st : Server.input_state (F := F)) : Prop :=
  forall u, Server.m_uinput st = Some u ->
    UInput.m_stylus_touching u = true -> UInput.m_stylus_tool_active u = true.

Definition is_stylus_kind (k : Server.InputEventType) : bool :=
  match k with
  | Server.STYLUS_DOWN | Server.STYLUS_MOVE | Server.STYLUS_UP
  | Server.STYLUS_HOVER => true
  | _ => false
  end.

Definition is_key_kind (k : Server.InputEventType) : bool :=
  match k with
  | Server.KEY_DOWN | Server.KEY_UP => true
  | _ => false
  end.

(* the eraser bit of the buttons field *)
Definition eraser_bit (buttons : Z) : bool := negb (Z.land buttons 0x20 =? 0).

(* the config members, which sending never touches *)
Definition same_config (s s' : VideoSender.t) : Prop :=
  VideoSender.m_socket s' = VideoSender.m_socket s /\ VideoSender.m_client_set s' = VideoSender.m_client_set s
  /\ VideoSender.m_pacing_mode s' = VideoSender.m_pacing_mode s
  /\ VideoSender.m_pacing_threshold s' = VideoSender.m_pacing_threshold s
  /\ VideoSender.m_packets_per_burst s' = VideoSender.m_packets_per_burst s
  /\ VideoSender.m_burst_delay_us s' = VideoSender.m_burst_delay_us s.

(* the counters hold values of their C types: uint16_t, uint64_t *)
Definition counters_in_range (s : VideoSender.t) : Prop :=
  0 <= VideoSender.m_sequence s < 65536
  /\ 0 <= VideoSender.m_packets_sent s < 2 ^ 64
  /\ 0 <= VideoSender.m_bytes_sent s < 2 ^ 64.

(* the sleep durations in a shape *)
Definition shape_sleeps (sh : list (Z + Z)) : list Z :=
  omap (fun x => match x with inr d => Some d | inl _ => None end) sh.

(* the payload a client puts in its ConfigRequest *)
Definition config_request_payload (w h vport iport : Z) (more : list Z)
    : list Z :=
  Spec.be16 w ++ Spec.be16 h ++ Spec.be16 vport ++ Spec.be16 iport ++ more.

(* a control connection on which process() does its work *)
Definition serving (c : ControlServer.t) : Prop :=
  0 <= ControlServer.m_client_socket c
  /\ ControlServer.m_client_connected c = true.

(* offset j lies in the first [len] bytes of one of the rows 0 .. rows-1 of
   a plane with [stride] bytes per row *)
Definition in_rows (stride len rows j : Z) : Prop :=
  exists y, 0 <= y < rows /\ y * stride <= j < y * stride + len.

(* the numbers, counted from n, of the calls whose upload to the GPU works *)
Fixpoint uploaded_from (n : Z) (calls : list VAAPIEncoder.call) : list Z :=
  match calls with
  | [] => []
  | c :: cs =>
      if VAAPIEncoder.upload_ret (VAAPIEncoder.call_env c) <? 0
      then uploaded_from (n + 1) cs
      else n :: uploaded_from (n + 1) cs
  end.

(* the touch table as the backend keeps it: five slots, an active slot
   tracked under its own number, an inactive one under -1 *)
Definition slots_tidy (slots : list UInput.TouchSlot) : Prop :=
  length slots = 5%nat
  /\ forall i sl, slots !! i = Some sl ->
       UInput.tracking_id sl = if UInput.active sl then Z.of_nat i else -1.

Definition relay_tidy {F : Type} (st : Server.input_state (F := F)) : Prop :=
  forall u, Server.m_uinput st = Some u -> slots_tidy (UInput.m_touch_slots u).



(* an Opus encoder after a successful init() on a sensible configuration:
   the codec exists, frame size and channel count are positive and their
   product is a size_t *)
Definition opus_ready {Sample Codec : Type}
    (e : OpusEncoder.t (Sample := Sample) (Codec := Codec)) : Prop :=
  (exists c, OpusEncoder.m_encoder e = Some c)
  /\ 0 < OpusEncoder.m_frame_size e
  /\ 0 < OpusEncoder.channels (OpusEncoder.m_config e)
  /\ OpusEncoder.m_frame_size e * OpusEncoder.channels (OpusEncoder.m_config e)
     < 2 ^ 64
  /\ 0 <= OpusEncoder.m_buffer_start_timestamp e < 2 ^ 64.

(* the samples the codec was given, call after call *)
Definition chunks_of {Sample : Type}
    (calls : list (OpusEncoder.frame_call (Sample := Sample))) : list Sample :=
  concat (concat (map OpusEncoder.fc_codec_input calls)).

(* the frames the codec produced, in order *)
Definition produced {Sample : Type}
    (calls : list (OpusEncoder.frame_call (Sample := Sample)))
    : list OpusEncoder.EncodedAudio :=
  omap OpusEncoder.fc_output calls.

(* the duration of one frame as encode() adds it to the timestamp *)
Definition frame_step {Sample Codec : Type}
    (e : OpusEncoder.t (Sample := Sample) (Codec := Codec)) : Z :=
  to_uint64 (to_uint64 (OpusEncoder.frame_size_ms (OpusEncoder.m_config e)) * 1000).

(* the datagram that carries the encoded frame [o] under the number [n] *)
Definition audio_packet_for (n : Z) (o : OpusEncoder.EncodedAudio)
    : AudioSender.packet :=
  {| AudioSender.pkt_header :=
       {| AudioSender.magic := AudioSender.AUDIO_MAGIC;
          AudioSender.sequence := n mod 65536;
          AudioSender.timestamp :=
            to_uint32 (to_uint64 (OpusEncoder.timestamp_us o * 48) / 1000);
          AudioSender.payload_len :=
            Z.of_nat (length (OpusEncoder.data o)) mod 65536;
          AudioSender.reserved := 0 |};
     AudioSender.pkt_payload := OpusEncoder.data o |}.

(* the sender traces of the turns that reached send_frame, in order *)
Definition frames_sent (turns : list ServerVideo.turn)
    : list (list VideoSender.event) :=
  omap ServerVideo.sent turns.

(** * Theorems *)

(** ** VideoSender::send_frame *)

Import VideoSender.

Lemma num_fragments_of_ceil (size : Z) :
  0 <= size <= PTRDIFF_MAX ->
  num_fragments_of size = Spec.ceil_div_1200 size.
Proof.
  intros Hs. unfold num_fragments_of, Spec.ceil_div_1200, to_size_t,
    MAX_PAYLOAD_SIZE, PTRDIFF_MAX in *.
  rewrite Z.mod_small by lia. f_equal. lia.
Qed.

Lemma ceil_div_1200_bounds (size : Z) :
  0 < size ->
  1200 * (Spec.ceil_div_1200 size - 1) < size <= 1200 * Spec.ceil_div_1200 size.
Proof.
  intros Hs. unfold Spec.ceil_div_1200.
  pose proof (Z.div_mod (size + 1199) 1200 ltac:(lia)).
  pose proof (Z.mod_pos_bound (size + 1199) 1200 ltac:(lia)).
  lia.
Qed.

Lemma send_packet_ok (sendto : packet -> Z) (s : t) (p : packet) :
  fst (send_packet sendto s p) = negb (sendto p <? 0).
Proof. unfold send_packet. destruct (sendto p <? 0); reflexivity. Qed.

(* the payload size of fragment i when offset = 1200 * i *)
Lemma payload_size_at (size n i : Z) :
  1200 * (n - 1) < size <= 1200 * n -> size < 2 ^ 64 -> 0 <= i < n ->
  Z.min MAX_PAYLOAD_SIZE (to_size_t (size - 1200 * i))
  = Z.min 1200 (size - 1200 * i)
  /\ 0 < Z.min 1200 (size - 1200 * i) <= 1200
  /\ (i < n - 1 -> Z.min 1200 (size - 1200 * i) = 1200).
Proof.
  intros Hn Hs Hi. unfold MAX_PAYLOAD_SIZE, to_size_t.
  rewrite Z.mod_small by lia. lia.
Qed.

Lemma send_loop_datagrams (sendto : packet -> Z) (data : Z -> Z)
    (size fn : Z) (kf np : bool) (ppb delay n : Z) :
  1200 * (n - 1) < size <= 1200 * n -> size < 2 ^ 64 ->
  forall (fuel : nat) (i off pib : Z) (s s' : t) (ret : bool) (tr : list event),
    send_loop sendto fuel data size fn kf np ppb delay n i off pib s
      = (ret, s', tr) ->
    0 <= i -> Z.of_nat fuel + i = n ->
    (fuel <> O -> off = 1200 * i) ->
    (forall (k : nat) (p : packet),
        datagrams tr !! k = Some p ->
        i + Z.of_nat k < n /\
        exists sq, p = build_packet sq data size fn kf n
                         (i + Z.of_nat k) (1200 * (i + Z.of_nat k)))
    /\ (ret = true -> length (datagrams tr) = fuel)
    /\ ((forall p, 0 <= sendto p) -> ret = true).
Proof.
  intros Hn Hs fuel.
  induction fuel as [|fuel IH]; intros i off pib s s' ret tr Hrun Hi Hfuel Hoff.
  - simpl in Hrun. inversion Hrun; subst. simpl.
    split; [intros k p Hk; destruct k; discriminate|]. split; auto.
  - simpl in Hrun.
    specialize (Hoff ltac:(discriminate)). subst off.
    destruct (payload_size_at size n i Hn Hs ltac:(lia)) as (Hps & Hrange & Hfull).
    set (p0 := build_packet (m_sequence s) data size fn kf n i (1200 * i)) in *.
    unfold send_packet in Hrun.
    destruct (sendto p0 <? 0) eqn:Hsent; simpl in Hrun.
    + inversion Hrun; subst. simpl. rewrite Hsent.
      split; [intros k p Hk; destruct k; discriminate|].
      split; [discriminate|].
      intros Hall. specialize (Hall p0). apply Z.ltb_lt in Hsent. lia.
    + destruct (send_loop sendto fuel data size fn kf np ppb delay n (i + 1) _ _ _)
        as [[r s3] tr0] eqn:Hrec.
      inversion Hrun; subst ret s' tr. clear Hrun.
      apply IH in Hrec; [| lia | lia |].
      2:{ intros Hne. rewrite Hps. unfold to_size_t.
          rewrite Hfull by (destruct fuel; [congruence | lia]).
          rewrite Z.mod_small by lia. lia. }
      destruct Hrec as (Hds & Hlen & Hok).
      assert (Hdg : forall pace : bool,
                 datagrams (EvSendto p0 (sendto p0)
                              :: (if pace then [EvSleep delay] else []) ++ tr0)
                 = p0 :: datagrams tr0).
      { intros pace. simpl. rewrite Hsent. destruct pace; reflexivity. }
      rewrite Hdg. split; [|split].
      * intros k p Hk. destruct k as [|k].
        -- simpl in Hk. inversion Hk; subst p.
           rewrite Z.add_0_r. split; [lia|]. exists (m_sequence s). reflexivity.
        -- simpl in Hk. apply Hds in Hk. destruct Hk as (Hlt & sq & Hp).
           replace (i + Z.of_nat (S k)) with (i + 1 + Z.of_nat k) by lia.
           split; [lia|]. exists sq. exact Hp.
      * intros Hr. simpl. f_equal. auto.
      * auto.
Qed.

Lemma has_flag_build (sq : Z) (data : Z -> Z) (size fn : Z) (kf : bool)
    (n i off : Z) :
  let p := build_packet sq data size fn kf n i off in
  has_flag p FLAG_KEYFRAME = kf
  /\ has_flag p FLAG_START_OF_FRAME = (i =? 0)
  /\ has_flag p FLAG_END_OF_FRAME = (i =? to_size_t (n - 1)).
Proof.
  unfold has_flag, build_packet; simpl.
  destruct kf, (i =? 0), (i =? to_size_t (n - 1)); repeat split; reflexivity.
Qed.

Lemma copy_payload_length (data : Z -> Z) (off len : Z) :
  0 <= len -> Z.of_nat (length (copy_payload data off len)) = len.
Proof.
  intros Hl. unfold copy_payload.
  rewrite length_map, length_seq. lia.
Qed.

(* what the header and payload of fragment i look like *)
Lemma build_packet_fields (sq : Z) (data : Z -> Z) (size fn : Z) (kf : bool)
    (n i : Z) :
  1200 * (n - 1) < size <= 1200 * n -> size < 2 ^ 64 -> n <= 65535 ->
  0 <= i < n ->
  let p := build_packet sq data size fn kf n i (1200 * i) in
  fragment_idx (pkt_header p) = i
  /\ fragment_count (pkt_header p) = n
  /\ frame_number (pkt_header p) = fn mod 65536
  /\ pkt_payload p = copy_payload data (1200 * i) (Z.min 1200 (size - 1200 * i))
  /\ payload_len (pkt_header p) = Z.of_nat (length (pkt_payload p))
  /\ 0 < Z.of_nat (length (pkt_payload p)) <= 1200
  /\ (has_flag p FLAG_END_OF_FRAME = true <-> i = n - 1).
Proof.
  intros Hn Hs Hmax Hi p.
  destruct (payload_size_at size n i Hn Hs Hi) as (Hps & Hrange & _).
  destruct (has_flag_build sq data size fn kf n i (1200 * i)) as (_ & _ & Heof).
  fold p in Heof.
  assert (Heof' : has_flag p FLAG_END_OF_FRAME = true <-> i = n - 1).
  { rewrite Heof. unfold to_size_t. rewrite Z.mod_small by lia.
    apply Z.eqb_eq. }
  clear Heof. subst p. unfold build_packet in *.
  cbn [pkt_header pkt_payload fragment_idx fragment_count frame_number
       payload_len].
  rewrite Hps. rewrite copy_payload_length by lia.
  unfold to_uint16.
  repeat split; try lia; try tauto.
  - apply Z.mod_small; lia.
  - apply Z.mod_small; lia.
  - change 0xFFFF with (Z.ones 16). rewrite Z.land_ones by lia.
    change (2 ^ 16) with 65536. apply Z.mod_mod; lia.
  - apply Z.mod_small; lia.
Qed.

(** C1. The datagrams of one send_frame call carry fragment_idx 0, 1, 2, ...
    in the order they leave the socket; the start-of-frame flag is on
    fragment 0 and only there, the end-of-frame flag on fragment
    fragment_count - 1 and only there; all carry the frame number (16 bits),
    the fragment count ceil(size/1200) and the keyframe flag of the call;
    no payload exceeds 1200 bytes; the payloads are the consecutive 1200-byte
    slices of the frame.  A call that returns true has emitted all
    ceil(size/1200) datagrams, and the call does return true when the
    sender is set up, the count fits 16 bits and no sendto fails. *)
Theorem send_frame_fragments (sendto : packet -> Z) (s : t) (data : Z -> Z)
    (size fn : Z) (kf : bool) (ts : Z) (ret : bool) (s' : t) (tr : list event) :
  0 < size <= PTRDIFF_MAX ->
  send_frame sendto s data size fn kf ts = (ret, s', tr) ->
  let n := Spec.ceil_div_1200 size in
  (forall (k : nat) (p : packet),
      datagrams tr !! k = Some p ->
      fragment_idx (pkt_header p) = Z.of_nat k
      /\ (has_flag p FLAG_START_OF_FRAME = true <-> k = 0%nat)
      /\ (has_flag p FLAG_END_OF_FRAME = true <-> Z.of_nat k = n - 1)
      /\ frame_number (pkt_header p) = fn mod 65536
      /\ fragment_count (pkt_header p) = n
      /\ has_flag p FLAG_KEYFRAME = kf
      /\ 0 < Z.of_nat (length (pkt_payload p)) <= 1200
      /\ payload_len (pkt_header p) = Z.of_nat (length (pkt_payload p))
      /\ pkt_payload p
         = copy_payload data (1200 * Z.of_nat k)
             (Z.min 1200 (size - 1200 * Z.of_nat k)))
  /\ (ret = true -> Z.of_nat (length (datagrams tr)) = n)
  /\ (m_client_set s = true -> 0 <= m_socket s -> n <= 65535 ->
      (forall p, 0 <= sendto p) -> ret = true).
Proof.
  intros Hsize Hrun n.
  pose proof (ceil_div_1200_bounds size ltac:(lia)) as Hn. fold n in Hn.
  assert (Hs64 : size < 2 ^ 64) by (unfold PTRDIFF_MAX in Hsize; lia).
  assert (Hn0 : 0 <= n) by lia.
  unfold send_frame in Hrun.
  rewrite num_fragments_of_ceil in Hrun by lia. fold n in Hrun.
  destruct (negb (m_client_set s) || (m_socket s <? 0)) eqn:Hguard.
  { inversion Hrun; subst. simpl.
    split; [intros k p Hk; destruct k; discriminate|].
    split; [discriminate|].
    intros Hc Hsock _ _. rewrite Hc in Hguard. simpl in Hguard.
    apply Z.ltb_lt in Hguard. lia. }
  destruct (65535 <? n) eqn:Hbig.
  { inversion Hrun; subst. simpl.
    split; [intros k p Hk; destruct k; discriminate|].
    split; [discriminate|].
    intros _ _ Hle _. apply Z.ltb_lt in Hbig. lia. }
  apply Z.ltb_ge in Hbig.
  destruct (pacing_params s size kf) as [[np ppb] delay].
  apply (send_loop_datagrams sendto data size fn kf np ppb delay n Hn Hs64)
    in Hrun; [| lia | lia | auto].
  destruct Hrun as (Hds & Hlen & Hok).
  split; [|split].
  - intros k p Hk. apply Hds in Hk. destruct Hk as (Hlt & sq & Hp).
    rewrite Z.add_0_l in Hlt, Hp.
    pose proof (build_packet_fields sq data size fn kf n (Z.of_nat k)
                  Hn Hs64 Hbig ltac:(lia)) as Hf.
    pose proof (has_flag_build sq data size fn kf n (Z.of_nat k)
                  (1200 * Z.of_nat k)) as Hfl.
    cbv zeta in Hf, Hfl. rewrite <- Hp in Hf, Hfl.
    destruct Hf as (H1 & H2 & H3 & H4 & H5 & H6 & H7).
    destruct Hfl as (Hkf & Hsof & _).
    assert (Hsof' : has_flag p FLAG_START_OF_FRAME = true <-> k = 0%nat).
    { rewrite Hsof, Z.eqb_eq. lia. }
    tauto.
  - intros Hr. rewrite (Hlen Hr). lia.
  - intros _ _ _ Hall. auto.
Qed.

(** C9. A frame that needs more than 65535 fragments is refused: send_frame
    returns false, no sendto is made, and the sender (sequence counter,
    bytes and packets counters included) is left as it was. *)
Theorem send_frame_too_large (sendto : packet -> Z) (s : t) (data : Z -> Z)
    (size fn : Z) (kf : bool) (ts : Z) :
  0 <= size <= PTRDIFF_MAX ->
  65535 < Spec.ceil_div_1200 size ->
  send_frame sendto s data size fn kf ts = (false, s, []).
Proof.
  intros Hsize Hbig. unfold send_frame.
  destruct (negb (m_client_set s) || (m_socket s <? 0)); [reflexivity|].
  rewrite num_fragments_of_ceil by assumption.
  apply Z.ltb_lt in Hbig. rewrite Hbig. reflexivity.
Qed.

(** C10. An empty payload with a destination set and the socket open: the
    fragment count is 0, nothing is sent, the sender is unchanged and the
    call reports success. *)
Theorem send_frame_empty (sendto : packet -> Z) (s : t) (data : Z -> Z)
    (fn : Z) (kf : bool) (ts : Z) :
  m_client_set s = true -> 0 <= m_socket s ->
  num_fragments_of 0 = 0
  /\ send_frame sendto s data 0 fn kf ts = (true, s, []).
Proof.
  intros Hc Hsock. split; [reflexivity|].
  unfold send_frame. rewrite Hc.
  assert (Hs : (m_socket s <? 0) = false) by (apply Z.ltb_ge; lia).
  rewrite Hs. simpl.
  change (num_fragments_of 0) with 0. simpl.
  destruct (pacing_params s 0 kf) as [[np ppb] delay]. reflexivity.
Qed.

(* a 2500-byte keyframe, frame number 7: three datagrams of 1200, 1200 and
   100 bytes with flags KEY|START, KEY, KEY|END and sequence 0, 1, 2 *)
Example three_fragments :
  let '(ret, s', tr) :=
    send_frame Demo.sendto_all Demo.keyframe_sender Demo.ramp 2500 7 true 0 in
  ret = true
  /\ map (fun p => (sequence (pkt_header p), fragment_idx (pkt_header p),
                    fragment_count (pkt_header p), flags (pkt_header p),
                    payload_len (pkt_header p), length (pkt_payload p)))
         (datagrams tr)
     = [ (0, 0, 3, 3, 1200, 1200%nat); (1, 1, 3, 1, 1200, 1200%nat);
         (2, 2, 3, 5, 100, 100%nat) ]
  /\ m_sequence s' = 3 /\ m_packets_sent s' = 3 /\ m_bytes_sent s' = 2548.
Proof. vm_compute. repeat split. Qed.

Lemma send_frame_fragments_witness :
  0 < 2500 <= PTRDIFF_MAX
  /\ (forall ret s' tr,
        send_frame Demo.sendto_all Demo.keyframe_sender Demo.ramp 2500 7 true 0
          = (ret, s', tr) ->
        ret = true /\ Z.of_nat (length (datagrams tr)) = 3).
Proof.
  assert (Hsz : 0 < 2500 <= PTRDIFF_MAX) by (unfold PTRDIFF_MAX; lia).
  split; [exact Hsz|].
  intros ret s' tr Hrun.
  destruct (send_frame_fragments _ _ _ _ _ _ _ _ _ _ Hsz Hrun) as (_ & Hlen & Hok).
  assert (Hret : ret = true).
  { apply Hok; try reflexivity.
    - vm_compute; discriminate.
    - vm_compute; discriminate.
    - intros p. unfold Demo.sendto_all, packet_size, sizeof_VideoPacketHeader. lia. }
  split; [exact Hret|]. apply Hlen. exact Hret.
Defined.

Lemma send_frame_too_large_witness :
  0 <= 78642001 <= PTRDIFF_MAX
  /\ 65535 < Spec.ceil_div_1200 78642001
  /\ send_frame Demo.sendto_all Demo.keyframe_sender Demo.ramp 78642001 7 true 0
     = (false, Demo.keyframe_sender, []).
Proof.
  assert (Hsz : 0 <= 78642001 <= PTRDIFF_MAX) by (unfold PTRDIFF_MAX; lia).
  assert (Hbig : 65535 < Spec.ceil_div_1200 78642001) by (vm_compute; reflexivity).
  split; [exact Hsz|]. split; [exact Hbig|].
  exact (send_frame_too_large _ _ _ _ _ _ _ Hsz Hbig).
Defined.

Lemma send_frame_empty_witness :
  m_client_set Demo.keyframe_sender = true
  /\ 0 <= m_socket Demo.keyframe_sender
  /\ send_frame Demo.sendto_all Demo.keyframe_sender Demo.ramp 0 7 true 0
     = (true, Demo.keyframe_sender, []).
Proof.
  assert (Hc : m_client_set Demo.keyframe_sender = true) by reflexivity.
  assert (Hs : 0 <= m_socket Demo.keyframe_sender) by (vm_compute; discriminate).
  split; [exact Hc|]. split; [exact Hs|].
  exact (proj2 (send_frame_empty _ _ _ _ _ _ Hc Hs)).
Defined.

(** ** Pacing *)

Lemma indices_cons (i : Z) (len : nat) :
  Spec.indices i (S len) = i :: Spec.indices (i + 1) len.
Proof.
  unfold Spec.indices. simpl. rewrite Z.add_0_r. f_equal.
  rewrite <- seq_shift, map_map.
  apply map_ext. intros k. lia.
Qed.

Lemma paced_from_cons (burst delay count i : Z) (len : nat) :
  Spec.paced_from burst delay count i (S len)
  = inl i :: (if Spec.sleeps_after burst count i then [inr delay] else [])
      ++ Spec.paced_from burst delay count (i + 1) len.
Proof. unfold Spec.paced_from. rewrite indices_cons. reflexivity. Qed.

(* the burst counter of the loop against the words "after every b fragments" *)
Lemma burst_counter_step (ppb i : Z) :
  1 <= ppb -> 0 <= i ->
  (ppb <=? i mod ppb + 1) = ((i + 1) mod ppb =? 0)
  /\ (if ppb <=? i mod ppb + 1 then 0 else i mod ppb + 1) = (i + 1) mod ppb.
Proof.
  intros Hp Hi.
  pose proof (Z.mod_pos_bound i ppb ltac:(lia)) as Hm.
  pose proof (Z.div_mod i ppb ltac:(lia)) as Hd.
  destruct (Z.leb_spec ppb (i mod ppb + 1)) as [Hle|Hlt].
  - assert (Hz : (i + 1) mod ppb = 0).
    { replace (i + 1) with (0 + (i / ppb + 1) * ppb) by lia.
      rewrite Z.mod_add by lia. apply Z.mod_0_l. lia. }
    rewrite Hz. split; reflexivity.
  - assert (Hz : (i + 1) mod ppb = i mod ppb + 1).
    { replace (i + 1) with ((i mod ppb + 1) + (i / ppb) * ppb) by lia.
      rewrite Z.mod_add by lia. apply Z.mod_small. lia. }
    rewrite Hz. split; [|reflexivity].
    symmetry. apply Z.eqb_neq. lia.
Qed.

Lemma send_loop_shape (sendto : packet -> Z) (data : Z -> Z)
    (size fn : Z) (kf np : bool) (ppb delay n : Z) :
  (forall p, 0 <= sendto p) -> n <= 65535 ->
  (np = true -> 1 <= ppb) ->
  forall (fuel : nat) (i off pib : Z) (s : t),
    0 <= i -> Z.of_nat fuel + i = n ->
    (np = true -> fuel <> O -> pib = i mod ppb) ->
    exists s' tr,
      send_loop sendto fuel data size fn kf np ppb delay n i off pib s
        = (true, s', tr)
      /\ shape tr = if np then Spec.paced_from ppb delay n i fuel
                    else map inl (Spec.indices i fuel).
Proof.
  intros Hall Hmax Hppb fuel.
  induction fuel as [|fuel IH]; intros i off pib s Hi Hfuel Hpib.
  - exists s, []. split; [reflexivity|]. destruct np; reflexivity.
  - rewrite paced_from_cons, indices_cons.
    cbn [send_loop]. unfold send_packet.
    set (p0 := build_packet (m_sequence s) data size fn kf n i off).
    assert (Hsent : (sendto p0 <? 0) = false) by (apply Z.ltb_ge; apply Hall).
    rewrite Hsent. cbn [negb].
    assert (Hlast : to_size_t (n - 1) = n - 1).
    { unfold to_size_t. apply Z.mod_small. lia. }
    rewrite Hlast.
    set (pace := np && (ppb <=? pib + 1) && (i <? n - 1)).
    set (pib' := if np then (if pace then 0 else pib + 1) else pib).
    set (off' := to_size_t _).
    destruct (IH (i + 1) off' pib'
                 {| m_socket := m_socket s; m_client_set := m_client_set s;
                    m_sequence := to_uint16 (m_sequence s + 1);
                    m_bytes_sent := to_uint64 (m_bytes_sent s + sendto p0);
                    m_packets_sent := to_uint64 (m_packets_sent s + 1);
                    m_pacing_mode := m_pacing_mode s;
                    m_pacing_threshold := m_pacing_threshold s;
                    m_packets_per_burst := m_packets_per_burst s;
                    m_burst_delay_us := m_burst_delay_us s |}
                 ltac:(lia) ltac:(lia)) as (s' & tr & Hrec & Hshape).
    { intros Hnp Hne. subst pib' pace. rewrite Hnp. simpl.
      specialize (Hpib Hnp ltac:(discriminate)). subst pib.
      assert (Hnl : (i <? n - 1) = true)
        by (apply Z.ltb_lt; destruct fuel; [congruence | lia]).
      rewrite Hnl, andb_true_r.
      apply (burst_counter_step ppb i (Hppb Hnp) Hi). }
    unfold bump_sequence. cbn [m_socket m_client_set m_sequence m_bytes_sent
      m_packets_sent m_pacing_mode m_pacing_threshold m_packets_per_burst
      m_burst_delay_us]. rewrite Hrec.
    eexists _, _. split; [reflexivity|].
    assert (Hidx : fragment_idx (pkt_header p0) = i).
    { subst p0. simpl. unfold to_uint16. apply Z.mod_small. lia. }
    unfold shape in *. cbn [map]. rewrite Hidx, map_app, Hshape.
    destruct np.
    + f_equal. f_equal.
      subst pace. simpl.
      specialize (Hpib eq_refl ltac:(discriminate)). subst pib.
      destruct (burst_counter_step ppb i (Hppb eq_refl) Hi) as (Hb & _).
      rewrite Hb. unfold Spec.sleeps_after.
      replace (i + 1 <? n) with (i <? n - 1)
        by (destruct (Z.ltb_spec i (n - 1)), (Z.ltb_spec (i + 1) n); lia || reflexivity).
      destruct ((i + 1) mod ppb =? 0), (i <? n - 1); reflexivity.
    + subst pace. reflexivity.
Qed.

Lemma set_client_keyframe (s : t) (detected : PacingMode) :
  let s' := set_client s detected KEYFRAME in
  m_client_set s' = true /\ m_pacing_mode s' = KEYFRAME
  /\ m_packets_per_burst s' = 8 /\ m_burst_delay_us s' = 100
  /\ m_socket s' = m_socket s.
Proof. simpl. repeat split; reflexivity. Qed.

(* what lines 149-177 choose under the Keyframe-only policy *)
Lemma pacing_params_keyframe (s : t) (size : Z) (kf : bool) :
  m_pacing_mode s = KEYFRAME ->
  m_packets_per_burst s = 8 -> m_burst_delay_us s = 100 ->
  pacing_params s size kf
  = (kf, fst (Spec.keyframe_tier size), snd (Spec.keyframe_tier size))
  \/ (kf = false /\ exists b d, pacing_params s size kf = (false, b, d)).
Proof.
  intros Hm Hb Hd. unfold pacing_params, Spec.keyframe_tier.
  rewrite Hm, Hb, Hd.
  destruct kf; simpl.
  - left.
    destruct (Z.ltb_spec 100000 size), (Z.leb_spec size 100000); try lia;
      [|reflexivity].
    destruct (Z.ltb_spec 500000 size), (Z.leb_spec size 300000),
      (Z.ltb_spec 300000 size), (Z.leb_spec size 500000);
      try lia; reflexivity.
  - right. split; [reflexivity|]. eauto.
Qed.

(** C4. The code departs from the claim on small keyframes: under the
    Keyframe-only policy a 12000-byte keyframe (10 fragments, well under
    100 KB) is sent with a 100 microsecond sleep after its eighth fragment,
    where the claim, and the comment in send_frame ("Small keyframes
    (<100KB): no pacing needed"), have no delay at all. send_frame sets
    need_pacing = keyframe whatever the size and keeps the burst 8 / 100 us
    of set_client when the size is not above 100000. *)
Lemma keyframe_small_is_paced :
  Spec.claimed_tier 12000 = None
  /\ m_pacing_mode Demo.keyframe_sender = KEYFRAME
  /\ (let '(ret, _, tr) :=
        send_frame Demo.sendto_all Demo.keyframe_sender Demo.ramp 12000 1 true 0
      in ret = true
         /\ sleeps tr = [100]
         /\ shape tr <> Spec.unpaced_shape (Spec.ceil_div_1200 12000)
         /\ shape tr = [inl 0; inl 1; inl 2; inl 3; inl 4; inl 5; inl 6; inl 7;
                       inr 100; inl 8; inl 9]).
Proof.
  split; [reflexivity|]. split; [reflexivity|].
  vm_compute. repeat split. discriminate.
Qed.

(** What send_frame does under the Keyframe-only policy as set_client
    configures it (burst 8, 100 microseconds), with every sendto succeeding:
    a frame that is not a keyframe goes out back to back, with no sleep; a
    keyframe over 100 KB goes out in bursts chosen by its size, up to 300 KB
    6 / 150 us, over 300 KB up to 500 KB 4 / 200 us, over 500 KB 2 / 300 us,
    the sleep coming after every full burst except when the burst ends the
    frame; a keyframe of at most 100 KB is sent, as the code stands, with
    the 8 / 100 us burst left from set_client. *)
Theorem send_frame_keyframe_pacing (sendto : packet -> Z) (s : t)
    (data : Z -> Z) (size fn : Z) (kf : bool) (ts : Z) :
  m_client_set s = true -> 0 <= m_socket s ->
  m_pacing_mode s = KEYFRAME ->
  m_packets_per_burst s = 8 -> m_burst_delay_us s = 100 ->
  (forall p, 0 <= sendto p) ->
  0 <= size <= PTRDIFF_MAX -> Spec.ceil_div_1200 size <= 65535 ->
  exists s' tr,
    send_frame sendto s data size fn kf ts = (true, s', tr)
    /\ shape tr =
       if kf
       then Spec.paced_shape (fst (Spec.keyframe_tier size))
              (snd (Spec.keyframe_tier size)) (Spec.ceil_div_1200 size)
       else Spec.unpaced_shape (Spec.ceil_div_1200 size).
Proof.
  intros Hc Hsock Hm Hb Hd Hall Hsize Hmax.
  unfold send_frame. rewrite Hc.
  assert (Hs : (m_socket s <? 0) = false) by (apply Z.ltb_ge; lia).
  rewrite Hs. cbn [negb orb].
  rewrite num_fragments_of_ceil by assumption.
  set (n := Spec.ceil_div_1200 size) in *.
  assert (Hn0 : 0 <= n).
  { subst n. unfold Spec.ceil_div_1200. apply Z.div_pos; lia. }
  assert (Hbig : (65535 <? n) = false) by (apply Z.ltb_ge; lia).
  rewrite Hbig.
  assert (Htier : 1 <= fst (Spec.keyframe_tier size)).
  { unfold Spec.keyframe_tier.
    destruct (size <=? 100000), (size <=? 300000), (size <=? 500000);
      simpl; lia. }
  destruct (pacing_params_keyframe s size kf Hm Hb Hd) as [Hp | (Hkf & b & d & Hp)];
    rewrite Hp.
  - destruct (send_loop_shape sendto data size fn kf kf
                (fst (Spec.keyframe_tier size)) (snd (Spec.keyframe_tier size))
                n Hall Hmax ltac:(intros _; exact Htier)
                (Z.to_nat n) 0 0 0 s ltac:(lia) ltac:(lia))
      as (s' & tr & Hrun & Hshape).
    { intros _ _. symmetry. apply Z.mod_0_l. lia. }
    exists s', tr. split; [exact Hrun|]. rewrite Hshape.
    destruct kf; reflexivity.
  - subst kf.
    destruct (send_loop_shape sendto data size fn false false b d
                n Hall Hmax ltac:(discriminate)
                (Z.to_nat n) 0 0 0 s ltac:(lia) ltac:(lia))
      as (s' & tr & Hrun & Hshape); [discriminate|].
    exists s', tr. split; [exact Hrun|]. exact Hshape.
Qed.

Lemma send_frame_keyframe_pacing_witness :
  m_client_set Demo.keyframe_sender = true
  /\ 0 <= m_socket Demo.keyframe_sender
  /\ m_pacing_mode Demo.keyframe_sender = KEYFRAME
  /\ m_packets_per_burst Demo.keyframe_sender = 8
  /\ m_burst_delay_us Demo.keyframe_sender = 100
  /\ (forall p, 0 <= Demo.sendto_all p)
  /\ 0 <= 1500000 <= PTRDIFF_MAX
  /\ Spec.ceil_div_1200 1500000 <= 65535
  /\ exists s' tr,
       send_frame Demo.sendto_all Demo.keyframe_sender Demo.ramp 1500000 9 true 0
         = (true, s', tr)
       /\ shape tr = Spec.paced_shape 2 300 1250.
Proof.
  assert (H1 : m_client_set Demo.keyframe_sender = true) by reflexivity.
  assert (H2 : 0 <= m_socket Demo.keyframe_sender) by (vm_compute; discriminate).
  assert (H3 : m_pacing_mode Demo.keyframe_sender = KEYFRAME) by reflexivity.
  assert (H4 : m_packets_per_burst Demo.keyframe_sender = 8) by reflexivity.
  assert (H5 : m_burst_delay_us Demo.keyframe_sender = 100) by reflexivity.
  assert (H6 : forall p, 0 <= Demo.sendto_all p).
  { intros p. unfold Demo.sendto_all, packet_size, sizeof_VideoPacketHeader. lia. }
  assert (H7 : 0 <= 1500000 <= PTRDIFF_MAX) by (unfold PTRDIFF_MAX; lia).
  assert (H8 : Spec.ceil_div_1200 1500000 <= 65535) by (vm_compute; discriminate).
  repeat (split; [assumption|]).
  exact (send_frame_keyframe_pacing Demo.sendto_all Demo.keyframe_sender
           Demo.ramp 1500000 9 true 0 H1 H2 H3 H4 H5 H6 H7 H8).
Defined.

(** ** VAAPIEncoder: the force-keyframe flag *)

Lemma land_lor_same (a b : Z) : Z.land (Z.lor a b) b = b.
Proof.
  apply Z.bits_inj'. intros k Hk.
  rewrite Z.land_spec, Z.lor_spec.
  destruct (Z.testbit a k), (Z.testbit b k); reflexivity.
Qed.

Lemma land_lnot_same (a b : Z) : Z.land (Z.land a (Z.lnot b)) b = 0.
Proof.
  apply Z.bits_inj'. intros k Hk.
  rewrite !Z.land_spec, Z.lnot_spec, Z.bits_0 by assumption.
  destruct (Z.testbit a k), (Z.testbit b k); reflexivity.
Qed.

(* encode() with the codec open, by what the upload returns *)
Lemma encode_cases (has_sse2 : bool) (e : VAAPIEncoder.t)
    (env : VAAPIEncoder.codec_env) (bgra : NV12.mem) (w h stride ts : Z) :
  VAAPIEncoder.codec_ctx e = true ->
  let '(out, e', sent) := VAAPIEncoder.encode has_sse2 e env bgra w h stride ts in
  (VAAPIEncoder.upload_ret env < 0 ->
     out = None /\ sent = []
     /\ VAAPIEncoder.m_force_keyframe e' = VAAPIEncoder.m_force_keyframe e)
  /\ (0 <= VAAPIEncoder.upload_ret env ->
        VAAPIEncoder.m_force_keyframe e' = false
        /\ exists fr, sent = [fr]
           /\ VAAPIEncoder.pts fr = VAAPIEncoder.m_frame_count e
           /\ (VAAPIEncoder.m_force_keyframe e = true ->
                 VAAPIEncoder.pict_type fr = VAAPIEncoder.AV_PICTURE_TYPE_I
                 /\ Z.land (VAAPIEncoder.frame_flags fr)
                           VAAPIEncoder.AV_FRAME_FLAG_KEY
                    = VAAPIEncoder.AV_FRAME_FLAG_KEY)
           /\ (VAAPIEncoder.m_force_keyframe e = false ->
                 VAAPIEncoder.pict_type fr = VAAPIEncoder.AV_PICTURE_TYPE_NONE
                 /\ Z.land (VAAPIEncoder.frame_flags fr)
                           VAAPIEncoder.AV_FRAME_FLAG_KEY = 0))
  /\ (forall f, out = Some f ->
        VAAPIEncoder.is_keyframe f
          = negb (Z.land (VAAPIEncoder.packet_flags env)
                         VAAPIEncoder.AV_PKT_FLAG_KEY =? 0)
        /\ VAAPIEncoder.timestamp_us f = ts
        /\ VAAPIEncoder.data f = VAAPIEncoder.packet_data env)
  /\ VAAPIEncoder.codec_ctx e' = true.
Proof.
  intros Hctx. unfold VAAPIEncoder.encode. rewrite Hctx. cbn [negb].
  destruct (NV12.convert_bgra_to_nv12_fast _ _ _ _ _ _ _ _ _) as [yp uvp].
  cbn [VAAPIEncoder.m_force_keyframe VAAPIEncoder.hw_flags
       VAAPIEncoder.m_frame_count].
  destruct (Z.ltb_spec (VAAPIEncoder.upload_ret env) 0) as [Hup|Hup].
  - repeat split; try (intros; lia); try discriminate; auto.
  - destruct (VAAPIEncoder.m_force_keyframe e) eqn:Hforce;
      destruct (VAAPIEncoder.send_ret env <? 0);
      [| destruct (VAAPIEncoder.recv_ret env =? VAAPIEncoder.AVERROR_EAGAIN);
         [| destruct (VAAPIEncoder.recv_ret env <? 0)]
       | | destruct (VAAPIEncoder.recv_ret env =? VAAPIEncoder.AVERROR_EAGAIN);
         [| destruct (VAAPIEncoder.recv_ret env <? 0)]];
      (split; [intros; lia|]);
      (split;
       [intros _; split; [reflexivity|];
        eexists; split; [reflexivity|]; split; [reflexivity|];
        split; intros Hf; try discriminate Hf;
        (split; [reflexivity|]);
        cbn [VAAPIEncoder.frame_flags];
        first [apply land_lor_same | apply land_lnot_same]
       |]);
      (split; [|reflexivity]);
      intros f Hf; inversion Hf; subst; auto; discriminate.
Qed.

(* with the flag clear, nothing submitted is marked and the flag stays clear *)
Lemma encode_all_unforced (has_sse2 : bool) (calls : list VAAPIEncoder.call) :
  forall e : VAAPIEncoder.t,
    VAAPIEncoder.codec_ctx e = true ->
    VAAPIEncoder.m_force_keyframe e = false ->
    let '(outs, e', sent) := VAAPIEncoder.encode_all has_sse2 e calls in
    VAAPIEncoder.m_force_keyframe e' = false
    /\ Forall not_marked sent
    /\ Forall2 output_follows_packet calls outs.
Proof.
  induction calls as [|c cs IH]; intros e Hctx Hflag.
  - simpl. repeat split; auto; constructor.
  - simpl.
    pose proof (encode_cases has_sse2 e (VAAPIEncoder.call_env c)
                  (VAAPIEncoder.call_bgra c) (VAAPIEncoder.call_width c)
                  (VAAPIEncoder.call_height c) (VAAPIEncoder.call_stride c)
                  (VAAPIEncoder.call_ts c) Hctx) as Hstep.
    destruct (VAAPIEncoder.encode _ _ _ _ _ _ _ _) as [[out e1] sent1].
    destruct Hstep as (Hfail & Hwork & Hout & Hctx1).
    assert (Hflag1 : VAAPIEncoder.m_force_keyframe e1 = false
                     /\ Forall not_marked sent1).
    { destruct (Z.lt_ge_cases (VAAPIEncoder.upload_ret (VAAPIEncoder.call_env c)) 0)
        as [Hup|Hup].
      - destruct (Hfail Hup) as (_ & -> & ->). split; [exact Hflag | constructor].
      - destruct (Hwork Hup) as (-> & fr & -> & _ & _ & Hnm).
        split; [reflexivity|]. constructor; [exact (Hnm Hflag) | constructor]. }
    destruct Hflag1 as (Hflag1 & Hsent1).
    specialize (IH e1 Hctx1 Hflag1).
    destruct (VAAPIEncoder.encode_all has_sse2 e1 cs) as [[outs e2] sent2].
    destruct IH as (Hf2 & Hs2 & Ho2).
    split; [exact Hf2|]. split; [apply Forall_app; auto|].
    constructor; [|exact Ho2].
    intros f Hf. destruct (Hout f Hf) as (Hk & _). exact Hk.
Qed.

(* with the flag set: it stays set while uploads fail; the first frame that
   reaches the codec is marked intra and clears it *)
Lemma encode_all_forced (has_sse2 : bool) (calls : list VAAPIEncoder.call) :
  forall e : VAAPIEncoder.t,
    VAAPIEncoder.codec_ctx e = true ->
    VAAPIEncoder.m_force_keyframe e = true ->
    let '(outs, e', sent) := VAAPIEncoder.encode_all has_sse2 e calls in
    (Forall upload_fails calls ->
       sent = [] /\ VAAPIEncoder.m_force_keyframe e' = true
       /\ Forall (eq None) outs)
    /\ (Exists upload_works calls ->
          VAAPIEncoder.m_force_keyframe e' = false
          /\ exists fr rest, sent = fr :: rest /\ marked_intra fr
                             /\ Forall not_marked rest)
    /\ Forall2 output_follows_packet calls outs.
Proof.
  induction calls as [|c cs IH]; intros e Hctx Hflag.
  - simpl. split; [|split].
    + intros _. repeat split; auto.
    + intros Hex. inversion Hex.
    + constructor.
  - simpl.
    pose proof (encode_cases has_sse2 e (VAAPIEncoder.call_env c)
                  (VAAPIEncoder.call_bgra c) (VAAPIEncoder.call_width c)
                  (VAAPIEncoder.call_height c) (VAAPIEncoder.call_stride c)
                  (VAAPIEncoder.call_ts c) Hctx) as Hstep.
    destruct (VAAPIEncoder.encode _ _ _ _ _ _ _ _) as [[out e1] sent1].
    destruct Hstep as (Hfail & Hwork & Hout & Hctx1).
    assert (Hfollow : output_follows_packet c out).
    { intros f Hf. destruct (Hout f Hf) as (Hk & _). exact Hk. }
    destruct (Z.lt_ge_cases (VAAPIEncoder.upload_ret (VAAPIEncoder.call_env c)) 0)
      as [Hup|Hup].
    + destruct (Hfail Hup) as (-> & -> & Hflag1). rewrite Hflag in Hflag1.
      specialize (IH e1 Hctx1 Hflag1).
      destruct (VAAPIEncoder.encode_all has_sse2 e1 cs) as [[outs e2] sent2].
      destruct IH as (Hall & Hex & Ho2). simpl.
      split; [|split].
      * intros Hf. inversion Hf; subst.
        destruct (Hall ltac:(assumption)) as (-> & Hf2 & Hn).
        repeat split; auto.
      * intros Hx. inversion Hx; subst.
        -- unfold upload_works in *. lia.
        -- apply Hex. assumption.
      * constructor; assumption.
    + destruct (Hwork Hup) as (Hflag1 & fr & -> & _ & Hm & _).
      pose proof (encode_all_unforced has_sse2 cs e1 Hctx1 Hflag1) as Hrest.
      destruct (VAAPIEncoder.encode_all has_sse2 e1 cs) as [[outs e2] sent2].
      destruct Hrest as (Hf2 & Hs2 & Ho2). simpl.
      split; [|split].
      * intros Hf. inversion Hf; subst. unfold upload_fails in *. lia.
      * intros _. split; [exact Hf2|].
        exists fr, sent2. repeat split; auto; apply (Hm Hflag).
      * constructor; assumption.
Qed.

(** C3 as stated fails on its second half: with a keyframe requested, an
    encode() call that gets the frame into the codec and then receives
    EAGAIN returns NotReady, and the force-keyframe flag is already clear,
    although no keyframe has been produced. *)
Lemma force_flag_cleared_before_keyframe :
  let e := VAAPIEncoder.request_keyframe Demo.encoder in
  let '(out, e', sent) :=
    VAAPIEncoder.encode false e Demo.env_again Demo.grey 4 2 16 1000 in
  VAAPIEncoder.m_force_keyframe e = true
  /\ out = None
  /\ VAAPIEncoder.m_force_keyframe e' = false
  /\ sent = [ {| VAAPIEncoder.pts := 0;
                 VAAPIEncoder.pict_type := VAAPIEncoder.AV_PICTURE_TYPE_I;
                 VAAPIEncoder.frame_flags := VAAPIEncoder.AV_FRAME_FLAG_KEY |} ].
Proof. vm_compute. repeat split. Qed.

(* one encode() call with the codec open: what was submitted and returned *)
Lemma encode_step (has_sse2 : bool) (e : VAAPIEncoder.t)
    (env : VAAPIEncoder.codec_env) (bgra : NV12.mem) (w h stride ts : Z) :
  VAAPIEncoder.codec_ctx e = true ->
  let '(out, e1, sent) := VAAPIEncoder.encode has_sse2 e env bgra w h stride ts in
  VAAPIEncoder.codec_ctx e1 = true
  /\ ((VAAPIEncoder.upload_ret env < 0 /\ out = None /\ sent = []
       /\ VAAPIEncoder.m_force_keyframe e1 = VAAPIEncoder.m_force_keyframe e)
      \/ (0 <= VAAPIEncoder.upload_ret env
          /\ VAAPIEncoder.m_force_keyframe e1 = false
          /\ exists fr, sent = [fr]
             /\ (VAAPIEncoder.pict_type fr =? VAAPIEncoder.AV_PICTURE_TYPE_I)
                = VAAPIEncoder.m_force_keyframe e
             /\ (VAAPIEncoder.send_ret env < 0 -> out = None)
             /\ (forall f, out = Some f ->
                   VAAPIEncoder.is_keyframe f = key_bit env))).
Proof.
  intros Hctx. unfold VAAPIEncoder.encode. rewrite Hctx. cbn [negb].
  destruct (NV12.convert_bgra_to_nv12_fast _ _ _ _ _ _ _ _ _) as [yp uvp].
  cbn [VAAPIEncoder.m_force_keyframe VAAPIEncoder.hw_flags
       VAAPIEncoder.m_frame_count].
  destruct (Z.ltb_spec (VAAPIEncoder.upload_ret env) 0) as [Hup|Hup].
  - split; [reflexivity|]. left. repeat split; assumption.
  - destruct (VAAPIEncoder.m_force_keyframe e) eqn:Hforce;
      destruct (Z.ltb_spec (VAAPIEncoder.send_ret env) 0) as [Hs|Hs];
      try destruct (VAAPIEncoder.recv_ret env =? VAAPIEncoder.AVERROR_EAGAIN);
      try destruct (VAAPIEncoder.recv_ret env <? 0);
      (split; [reflexivity|]); right;
      (split; [exact Hup|]); (split; [reflexivity|]);
      eexists; (split; [reflexivity|]); (split; [reflexivity|]);
      (split; [intros Hrej; first [reflexivity | lia]|]);
      intros f Hf; inversion Hf; reflexivity.
Qed.

(* with the flag clear and the marked frame alone inside the codec, the next
   frame encode() returns is a keyframe *)
Lemma keyframe_comes_next (has_sse2 : bool) (calls : list VAAPIEncoder.call) :
  forall e : VAAPIEncoder.t,
    VAAPIEncoder.codec_ctx e = true ->
    VAAPIEncoder.m_force_keyframe e = false ->
    codec_low_latency has_sse2 e [true] calls ->
    before_first_keyframe
      (returned_frames (fst (fst (VAAPIEncoder.encode_all has_sse2 e calls))))
    = 0%nat.
Proof.
  induction calls as [|c cs IH]; intros e Hctx Hflag Hcodec.
  - reflexivity.
  - cbn [codec_low_latency VAAPIEncoder.encode_all] in *.
    pose proof (encode_step has_sse2 e (VAAPIEncoder.call_env c)
                  (VAAPIEncoder.call_bgra c) (VAAPIEncoder.call_width c)
                  (VAAPIEncoder.call_height c) (VAAPIEncoder.call_stride c)
                  (VAAPIEncoder.call_ts c) Hctx) as Hstep.
    destruct (VAAPIEncoder.encode _ _ _ _ _ _ _ _) as [[out e1] sent1].
    destruct Hstep as (Hctx1 & [(Hup & -> & -> & Hf1)
                               |(Hup & Hf1 & fr & -> & Hintra & Hrej & Hkey)]).
    + rewrite Hflag in Hf1. specialize (IH e1 Hctx1 Hf1 Hcodec).
      destruct (VAAPIEncoder.encode_all has_sse2 e1 cs) as [[outs e2] sent2].
      exact IH.
    + rewrite Hflag in Hintra. rewrite Hintra in Hcodec.
      destruct (Z.ltb_spec (VAAPIEncoder.send_ret (VAAPIEncoder.call_env c)) 0)
        as [Hs|Hs].
      * rewrite (Hrej Hs). destruct Hcodec as [_ Hcodec].
        specialize (IH e1 Hctx1 Hf1 Hcodec).
        destruct (VAAPIEncoder.encode_all has_sse2 e1 cs) as [[outs e2] sent2].
        exact IH.
      * cbn [app] in Hcodec. destruct out as [f|].
        -- destruct Hcodec as [Hk _].
           destruct (VAAPIEncoder.encode_all has_sse2 e1 cs) as [[outs e2] sent2].
           cbn. rewrite (Hk eq_refl). reflexivity.
        -- destruct Hcodec as [Hlen _]. cbn [length] in Hlen. lia.
Qed.

(* with the flag set: at most one returned frame precedes the keyframe *)
Lemma keyframe_after_request (has_sse2 : bool) (calls : list VAAPIEncoder.call) :
  forall (e : VAAPIEncoder.t) (pending : list bool),
    VAAPIEncoder.codec_ctx e = true ->
    VAAPIEncoder.m_force_keyframe e = true ->
    (length pending <= 1)%nat ->
    codec_low_latency has_sse2 e pending calls ->
    (before_first_keyframe
       (returned_frames (fst (fst (VAAPIEncoder.encode_all has_sse2 e calls))))
     <= 1)%nat.
Proof.
  induction calls as [|c cs IH]; intros e pending Hctx Hflag Hlen Hcodec.
  - cbn. lia.
  - cbn [codec_low_latency VAAPIEncoder.encode_all] in *.
    pose proof (encode_step has_sse2 e (VAAPIEncoder.call_env c)
                  (VAAPIEncoder.call_bgra c) (VAAPIEncoder.call_width c)
                  (VAAPIEncoder.call_height c) (VAAPIEncoder.call_stride c)
                  (VAAPIEncoder.call_ts c) Hctx) as Hstep.
    pose proof (keyframe_comes_next has_sse2 cs) as Hnext.
    destruct (VAAPIEncoder.encode _ _ _ _ _ _ _ _) as [[out e1] sent1].
    destruct Hstep as (Hctx1 & [(Hup & -> & -> & Hf1)
                               |(Hup & Hf1 & fr & -> & Hintra & Hrej & Hkey)]).
    + rewrite Hflag in Hf1. specialize (IH e1 pending Hctx1 Hf1 Hlen Hcodec).
      destruct (VAAPIEncoder.encode_all has_sse2 e1 cs) as [[outs e2] sent2].
      exact IH.
    + rewrite Hflag in Hintra. rewrite Hintra in Hcodec.
      destruct (VAAPIEncoder.send_ret (VAAPIEncoder.call_env c) <? 0).
      { destruct Hcodec as [Hno _]. discriminate Hno. }
      specialize (Hnext e1 Hctx1 Hf1).
      destruct pending as [|m [|m' pending]]; cbn [length] in Hlen; [| |lia];
        cbn [app] in Hcodec; destruct out as [f|];
        destruct Hcodec as [Hhead Hcodec];
        try (cbn [length] in Hhead; lia);
        try specialize (Hnext Hcodec);
        destruct (VAAPIEncoder.encode_all has_sse2 e1 cs) as [[outs e2] sent2];
        cbn [fst] in *; unfold returned_frames in *; cbn.
      * rewrite (Hhead eq_refl). lia.
      * rewrite Hnext. lia.
      * destruct (VAAPIEncoder.is_keyframe f); [lia|]. rewrite Hnext. lia.
Qed.

(** C3, amended. After every call to request_keyframe, at most one frame
    with is_keyframe = false is returned by encode() before a frame with
    is_keyframe = true is returned, for a codec that works as the encoder
    configures it: it accepts the frame that carries the request, holds back
    at most one frame, returns packets in submission order, and encodes a
    frame submitted as intra as a key packet. The one-shot flag stays set
    while encode() fails at the GPU upload, and is cleared at the moment the
    marked frame is handed to the codec, before the codec answers (so also
    when encode() then returns NotReady with that frame inside the codec),
    not at the moment the keyframe is produced; frames submitted after the
    marked one are unmarked, and is_keyframe of each returned frame is the
    key flag of the packet returned in that call. *)
Theorem request_keyframe_liveness (has_sse2 : bool)
    (e : VAAPIEncoder.t) (pending : list bool)
    (calls : list VAAPIEncoder.call) :
  VAAPIEncoder.codec_ctx e = true ->
  (length pending <= 1)%nat ->
  codec_low_latency has_sse2 (VAAPIEncoder.request_keyframe e) pending calls ->
  VAAPIEncoder.m_force_keyframe (VAAPIEncoder.request_keyframe e) = true
  /\ let '(outs, e', sent) :=
       VAAPIEncoder.encode_all has_sse2 (VAAPIEncoder.request_keyframe e) calls in
     (before_first_keyframe (returned_frames outs) <= 1)%nat
     /\ (Forall upload_fails calls ->
           sent = [] /\ VAAPIEncoder.m_force_keyframe e' = true
           /\ Forall (eq None) outs)
     /\ (Exists upload_works calls ->
           VAAPIEncoder.m_force_keyframe e' = false
           /\ exists fr rest, sent = fr :: rest /\ marked_intra fr
                              /\ Forall not_marked rest)
     /\ Forall2 output_follows_packet calls outs.
Proof.
  intros Hctx Hlen Hcodec. split; [reflexivity|].
  pose proof (keyframe_after_request has_sse2 calls
                (VAAPIEncoder.request_keyframe e) pending Hctx eq_refl Hlen
                Hcodec) as Hlive.
  pose proof (encode_all_forced has_sse2 calls
                (VAAPIEncoder.request_keyframe e) Hctx eq_refl) as Hflag.
  destruct (VAAPIEncoder.encode_all has_sse2 (VAAPIEncoder.request_keyframe e)
              calls) as [[outs e'] sent].
  split; [exact Hlive | exact Hflag].
Qed.

Lemma request_keyframe_liveness_witness :
  let '(outs, e', sent) :=
    VAAPIEncoder.encode_all false
      (VAAPIEncoder.request_keyframe Demo.encoder)
      [ VAAPIEncoder.mkCall Demo.env_upload_fails Demo.grey 4 2 16 1000;
        VAAPIEncoder.mkCall Demo.env_delta_packet Demo.grey 4 2 16 2000;
        VAAPIEncoder.mkCall Demo.env_key_packet Demo.grey 4 2 16 3000 ] in
  map VAAPIEncoder.is_keyframe (returned_frames outs) = [false; true]
  /\ (before_first_keyframe (returned_frames outs) <= 1)%nat
  /\ VAAPIEncoder.m_force_keyframe e' = false.
Proof.
  pose proof (request_keyframe_liveness false Demo.encoder [false]
                [ VAAPIEncoder.mkCall Demo.env_upload_fails Demo.grey 4 2 16 1000;
                  VAAPIEncoder.mkCall Demo.env_delta_packet Demo.grey 4 2 16 2000;
                  VAAPIEncoder.mkCall Demo.env_key_packet Demo.grey 4 2 16 3000 ]
                eq_refl ltac:(simpl; lia)
                ltac:(vm_compute; repeat split; auto)) as Hw.
  destruct Hw as [_ Hw].
  destruct (VAAPIEncoder.encode_all _ _ _) as [[outs e'] sent] eqn:Hrun.
  destruct Hw as (Hlive & _ & Hworks & _).
  split; [|split; [exact Hlive|]].
  - vm_compute in Hrun. inversion Hrun. reflexivity.
  - apply Hworks. right. left. unfold upload_works. simpl. lia.
Defined.

(** ** The ConfigResponse *)

Lemma high_byte (v : Z) :
  to_uint8 (Z.land (Z.shiftr v 8) 0xFF) = v / 256 mod 256.
Proof.
  unfold to_uint8. change 0xFF with (Z.ones 8).
  rewrite Z.land_ones, Z.shiftr_div_pow2 by lia.
  change (2 ^ 8) with 256. apply Z.mod_mod. lia.
Qed.

Lemma low_byte (v : Z) : to_uint8 (Z.land v 0xFF) = v mod 256.
Proof.
  unfold to_uint8. change 0xFF with (Z.ones 8).
  rewrite Z.land_ones by lia. change (2 ^ 8) with 256. apply Z.mod_mod. lia.
Qed.

Lemma be16_decode_encode (v : Z) :
  0 <= v < 65536 ->
  Spec.be16_decode (v / 256 mod 256) (v mod 256) = v.
Proof.
  intros Hv. unfold Spec.be16_decode.
  rewrite (Z.mod_small (v / 256) 256).
  - pose proof (Z.div_mod v 256 ltac:(lia)). lia.
  - split; [apply Z.div_pos; lia | apply Z.div_lt_upper_bound; lia].
Qed.

(* the handshake of a 1920x1080 AV1 session with audio: 3 + 15 bytes *)
Example full_config_response_sent :
  Server.run_send_configuration true Demo.handshake
    = [0; 16; ControlServer.MSG_CONFIG_RESPONSE;
       7; 128; 4; 56; 37; 29; 37; 30; 37; 31; 187; 128; 2; 10; 0].
Proof. reflexivity. Qed.

(** C2 as stated fails for the orchestrator revisions kept in server.cpp:
    their handshake step calls send_config, and the ConfigResponse on the
    wire carries 8 payload bytes, not 15. *)
Lemma short_config_response_sent :
  Server.run_send_configuration_short Demo.handshake
    = [0; 9; ControlServer.MSG_CONFIG_RESPONSE;
       7; 128; 4; 56; 37; 29; 37; 30]
  /\ length (Server.run_send_configuration_short Demo.handshake) <> (3 + 15)%nat.
Proof. split; [reflexivity | vm_compute; discriminate]. Qed.

(** C2, amended. The handshake step of the orchestrator that negotiates
    audio and codec sends, framed as [length 16 | type 0x04], the 15-byte
    payload [screen_w(2) | screen_h(2) | video port(2) | input port(2) |
    audio port(2), 0 when audio is not up | sample rate(2) | channels(1) |
    frame ms(1) | codec id(1)], two-byte fields big-endian; a receiver reads
    every 16-bit value back from its two bytes.  The earlier orchestrator
    sends the first four fields only, an 8-byte payload. *)
Theorem config_response_layout (have_opus : bool) (st : Server.handshake_state) :
  let audio_port :=
    if have_opus && Server.m_audio_initialized st
    then Server.cfg_audio_port st else 0 in
  Server.run_send_configuration have_opus st
    = [0; 16; 0x04]
      ++ Spec.config_response (Server.capture_width st) (Server.capture_height st)
           (Server.cfg_video_port st) (Server.cfg_input_port st) audio_port
           (Server.cfg_audio_sample_rate st) (Server.cfg_audio_channels st)
           (Server.cfg_audio_frame_ms st) (Server.encoder_codec_type st)
  /\ length (Spec.config_response (Server.capture_width st)
               (Server.capture_height st) (Server.cfg_video_port st)
               (Server.cfg_input_port st) audio_port
               (Server.cfg_audio_sample_rate st) (Server.cfg_audio_channels st)
               (Server.cfg_audio_frame_ms st) (Server.encoder_codec_type st))
     = 15%nat
  /\ (forall v, 0 <= v < 65536 ->
        exists hi lo, Spec.be16 v = [hi; lo] /\ Spec.be16_decode hi lo = v)
  /\ Server.run_send_configuration_short st
     = [0; 9; 0x04]
       ++ Spec.be16 (Server.capture_width st) ++ Spec.be16 (Server.capture_height st)
       ++ Spec.be16 (Server.cfg_video_port st) ++ Spec.be16 (Server.cfg_input_port st).
Proof.
  cbv zeta. split; [|split; [reflexivity|split]].
  - unfold Server.run_send_configuration, ControlServer.send_config_full,
      ControlServer.send_message, ControlServer.config_full_payload,
      Spec.config_response, Spec.be16.
    rewrite !high_byte, !low_byte. unfold to_uint8.
    destruct have_opus, (Server.m_audio_initialized st); reflexivity.
  - intros v Hv. exists (v / 256 mod 256), (v mod 256).
    split; [reflexivity | apply be16_decode_encode; exact Hv].
  - unfold Server.run_send_configuration_short, ControlServer.send_config,
      ControlServer.send_message, ControlServer.config_payload, Spec.be16.
    rewrite !high_byte, !low_byte. reflexivity.
Qed.

(** ** BGRA to NV12 *)

Lemma luma_exact (r g b : Z) :
  0 <= r <= 255 -> 0 <= g <= 255 -> 0 <= b <= 255 ->
  to_uint8 (Z.shiftr (66*r + 129*g + 25*b + 128) 8 + 16) = NV12.spec_Y r g b
  /\ 16 <= NV12.spec_Y r g b <= 235.
Proof.
  intros Hr Hg Hb. unfold to_uint8, NV12.spec_Y.
  rewrite Z.shiftr_div_pow2 by lia. change (2 ^ 8) with 256.
  assert (Hq : 0 <= (66*r + 129*g + 25*b + 128) / 256 <= 219).
  { split; [apply Z.div_pos; lia|].
    apply Z.lt_succ_r, Z.div_lt_upper_bound; lia. }
  split; [apply Z.mod_small; lia | lia].
Qed.

Lemma chroma_exact (r g b : Z) :
  0 <= r <= 255 -> 0 <= g <= 255 -> 0 <= b <= 255 ->
  (to_uint8 (NV12.clamp_0_255 (Z.shiftr (-38*r - 74*g + 112*b + 128) 8 + 128))
     = NV12.spec_U r g b
   /\ 16 <= NV12.spec_U r g b <= 240)
  /\ (to_uint8 (NV12.clamp_0_255 (Z.shiftr (112*r - 94*g - 18*b + 128) 8 + 128))
        = NV12.spec_V r g b
      /\ 16 <= NV12.spec_V r g b <= 240).
Proof.
  intros Hr Hg Hb. unfold to_uint8, NV12.spec_U, NV12.spec_V, NV12.clamp_0_255.
  rewrite !Z.shiftr_div_pow2 by lia. change (2 ^ 8) with 256.
  assert (Hu : -112 <= (-38*r - 74*g + 112*b + 128) / 256 <= 112).
  { split; [apply Z.div_le_lower_bound; lia|].
    apply Z.lt_succ_r, Z.div_lt_upper_bound; lia. }
  assert (Hv : -112 <= (112*r - 94*g - 18*b + 128) / 256 <= 112).
  { split; [apply Z.div_le_lower_bound; lia|].
    apply Z.lt_succ_r, Z.div_lt_upper_bound; lia. }
  split.
  - destruct (Z.ltb_spec ((-38*r - 74*g + 112*b + 128) / 256 + 128) 0); [lia|].
    destruct (Z.ltb_spec 255 ((-38*r - 74*g + 112*b + 128) / 256 + 128)); [lia|].
    split; [apply Z.mod_small; lia | lia].
  - destruct (Z.ltb_spec ((112*r - 94*g - 18*b + 128) / 256 + 128) 0); [lia|].
    destruct (Z.ltb_spec 255 ((112*r - 94*g - 18*b + 128) / 256 + 128)); [lia|].
    split; [apply Z.mod_small; lia | lia].
Qed.

Lemma avg_exact (a b c d : Z) :
  0 <= a <= 255 -> 0 <= b <= 255 -> 0 <= c <= 255 -> 0 <= d <= 255 ->
  Z.shiftr (a + b + c + d) 2 = NV12.spec_avg a b c d
  /\ 0 <= NV12.spec_avg a b c d <= 255.
Proof.
  intros Ha Hb Hc Hd. unfold NV12.spec_avg.
  rewrite Z.shiftr_div_pow2 by lia. change (2 ^ 2) with 4.
  split; [reflexivity|].
  split; [apply Z.div_pos; lia|].
  apply Z.lt_succ_r, Z.div_lt_upper_bound; lia.
Qed.

(* a loop that stores val x at dst + x for x = i, i+1, ... *)
Lemma store_loop_spec (val : Z -> Z) (dst : Z) :
  forall (count : nat) (i : Z) (m : NV12.mem) (j : Z),
    NV12.for_range count i 1 (fun x m => NV12.store m (dst + x) (val x)) m j
    = if (dst + i <=? j) && (j <? dst + i + Z.of_nat count)
      then val (j - dst) else m j.
Proof.
  induction count as [|c IH]; intros i m j.
  - simpl. destruct (Z.leb_spec (dst + i) j), (Z.ltb_spec j (dst + i + Z.of_nat 0));
      simpl; try reflexivity; lia.
  - cbn [NV12.for_range]. rewrite IH. unfold NV12.store.
    destruct (Z.leb_spec (dst + (i + 1)) j), (Z.ltb_spec j (dst + (i + 1) + Z.of_nat c)),
      (Z.leb_spec (dst + i) j), (Z.ltb_spec j (dst + i + Z.of_nat (S c))),
      (Z.eqb_spec j (dst + i));
      simpl; try reflexivity; try lia.
    f_equal. lia.
Qed.

Lemma y_row_scalar_spec (bgra : NV12.mem) (width src dst : Z) (yp : NV12.mem) (j : Z) :
  0 <= width ->
  NV12.y_row_scalar bgra width src dst yp j
  = if (dst <=? j) && (j <? dst + width) then y_val bgra src (j - dst) else yp j.
Proof.
  intros Hw.
  change (NV12.y_row_scalar bgra width src dst yp)
    with (NV12.for_range (Z.to_nat width) 0 1
            (fun x m => NV12.store m (dst + x) (y_val bgra src x)) yp).
  rewrite store_loop_spec, Z2Nat.id, Z.add_0_r by lia. reflexivity.
Qed.

Lemma for_range_ext {A : Type} (f g : Z -> A -> A) (step : Z) :
  (forall x a, f x a = g x a) ->
  forall (count : nat) (i : Z) (a : A),
    NV12.for_range count i step f a = NV12.for_range count i step g a.
Proof.
  intros Hfg. induction count as [|c IH]; intros i a; simpl.
  - reflexivity.
  - rewrite Hfg. apply IH.
Qed.

(* four iterations of a loop written out in one body *)
Lemma for_range_unroll4 {A : Type} (b : Z -> A -> A) :
  forall (count : nat) (i : Z) (a : A),
    NV12.for_range count i 4
      (fun x a => b (x + 3) (b (x + 2) (b (x + 1) (b x a)))) a
    = NV12.for_range (4 * count) i 1 b a.
Proof.
  induction count as [|c IH]; intros i a.
  - reflexivity.
  - replace (4 * S c)%nat with (S (S (S (S (4 * c)))))%nat by lia.
    cbn [NV12.for_range]. rewrite IH.
    replace (i + 1 + 1) with (i + 2) by lia.
    replace (i + 2 + 1) with (i + 3) by lia.
    replace (i + 3 + 1) with (i + 4) by lia.
    reflexivity.
Qed.

Lemma y_row_unrolled_spec (bgra : NV12.mem) (width src dst : Z) (yp : NV12.mem) (j : Z) :
  0 <= width ->
  NV12.y_row_unrolled bgra width src dst yp j
  = if (dst <=? j) && (j <? dst + width) then y_val bgra src (j - dst) else yp j.
Proof.
  intros Hw. unfold NV12.y_row_unrolled. cbv zeta.
  set (n4 := Z.to_nat (width / 4)).
  assert (Hn4 : 0 <= 4 * Z.of_nat n4 <= width).
  { subst n4. pose proof (Z.div_pos width 4 Hw ltac:(lia)).
    rewrite Z2Nat.id by assumption.
    pose proof (Z.mul_div_le width 4 ltac:(lia)). lia. }
  match goal with
  | |- NV12.for_range _ _ 1 ?body1 (NV12.for_range n4 0 4 ?body4 yp) j = _ =>
      change body1 with (fun x m => NV12.store m (dst + x) (y_val bgra src x));
      rewrite (for_range_ext body4
                 (fun x a =>
                    (fun x m => NV12.store m (dst + x) (y_val bgra src x)) (x + 3)
                      ((fun x m => NV12.store m (dst + x) (y_val bgra src x)) (x + 2)
                         ((fun x m => NV12.store m (dst + x) (y_val bgra src x)) (x + 1)
                            ((fun x m => NV12.store m (dst + x) (y_val bgra src x)) x a)))))
  end.
  2:{ intros x a. cbv beta zeta. unfold y_val.
      replace (x + 0) with x by lia.
      replace ((x + 1) * 4 + 2) with (x * 4 + 6) by lia.
      replace ((x + 1) * 4 + 1) with (x * 4 + 5) by lia.
      replace ((x + 1) * 4 + 0) with (x * 4 + 4) by lia.
      replace ((x + 2) * 4 + 2) with (x * 4 + 10) by lia.
      replace ((x + 2) * 4 + 1) with (x * 4 + 9) by lia.
      replace ((x + 2) * 4 + 0) with (x * 4 + 8) by lia.
      replace ((x + 3) * 4 + 2) with (x * 4 + 14) by lia.
      replace ((x + 3) * 4 + 1) with (x * 4 + 13) by lia.
      replace ((x + 3) * 4 + 0) with (x * 4 + 12) by lia.
      reflexivity. }
  rewrite (for_range_unroll4 (fun x m => NV12.store m (dst + x) (y_val bgra src x))).
  rewrite !store_loop_spec.
  rewrite Z2Nat.id by lia.
  replace (Z.of_nat (4 * n4)) with (4 * Z.of_nat n4) by lia.
  destruct (Z.leb_spec (dst + 4 * Z.of_nat n4) j),
    (Z.ltb_spec j (dst + 4 * Z.of_nat n4 + (width - 4 * Z.of_nat n4))),
    (Z.leb_spec (dst + 0) j), (Z.ltb_spec j (dst + 0 + 4 * Z.of_nat n4)),
    (Z.leb_spec dst j), (Z.ltb_spec j (dst + width));
    simpl; try reflexivity; lia.
Qed.

Lemma even_index (i : Z) : (i * 2) mod 2 = 0 /\ (i * 2) / 2 = i.
Proof. split; [apply Z.mod_mul; lia | apply Z.div_mul; lia]. Qed.

Lemma odd_index (i : Z) : (i * 2 + 1) mod 2 = 1 /\ (i * 2 + 1) / 2 = i.
Proof.
  split.
  - rewrite Z.add_comm, Z.mod_add by lia. reflexivity.
  - rewrite Z.add_comm, Z.div_add by lia. reflexivity.
Qed.

(* a loop that stores the pair (u x, v x) at dst + 2x, dst + 2x + 1 *)
Lemma store2_loop_spec (u v : Z -> Z) (dst : Z) :
  forall (count : nat) (i : Z) (m : NV12.mem) (j : Z),
    NV12.for_range count i 1
      (fun x m => NV12.store (NV12.store m (dst + (x*2+0)) (u x))
                             (dst + (x*2+1)) (v x)) m j
    = if (dst + i * 2 <=? j) && (j <? dst + (i + Z.of_nat count) * 2)
      then (if (j - dst) mod 2 =? 0 then u ((j - dst) / 2) else v ((j - dst) / 2))
      else m j.
Proof.
  induction count as [|c IH]; intros i m j.
  - cbn [NV12.for_range].
    destruct (Z.leb_spec (dst + i * 2) j), (Z.ltb_spec j (dst + (i + Z.of_nat 0) * 2));
      simpl; try reflexivity; lia.
  - cbn [NV12.for_range]. rewrite IH. unfold NV12.store.
    destruct (Z.leb_spec (dst + (i + 1) * 2) j),
      (Z.ltb_spec j (dst + (i + 1 + Z.of_nat c) * 2)),
      (Z.leb_spec (dst + i * 2) j), (Z.ltb_spec j (dst + (i + Z.of_nat (S c)) * 2));
      cbn [andb]; try reflexivity; try lia.
    all: destruct (Z.eqb_spec j (dst + (i * 2 + 1))) as [E1|N1];
      [try lia
      |destruct (Z.eqb_spec j (dst + (i * 2 + 0))) as [E0|N0];
       [try lia | try reflexivity; try lia]].
    + subst j. replace (dst + (i * 2 + 1) - dst) with (i * 2 + 1) by lia.
      destruct (odd_index i) as (-> & ->). reflexivity.
    + subst j. replace (dst + (i * 2 + 0) - dst) with (i * 2) by lia.
      destruct (even_index i) as (-> & ->). reflexivity.
Qed.

Lemma uv_row_spec (bgra : NV12.mem) (width src0 src1 dst : Z) (uvp : NV12.mem) (j : Z) :
  0 <= width ->
  NV12.uv_row bgra width src0 src1 dst uvp j
  = if (dst <=? j) && (j <? dst + (width / 2) * 2)
    then (if (j - dst) mod 2 =? 0 then u_val bgra src0 src1 ((j - dst) / 2)
          else v_val bgra src0 src1 ((j - dst) / 2))
    else uvp j.
Proof.
  intros Hw.
  change (NV12.uv_row bgra width src0 src1 dst uvp)
    with (NV12.for_range (Z.to_nat (width / 2)) 0 1
            (fun x m => NV12.store (NV12.store m (dst + (x*2+0)) (u_val bgra src0 src1 x))
                                   (dst + (x*2+1)) (v_val bgra src0 src1 x)) uvp).
  rewrite store2_loop_spec.
  rewrite Z2Nat.id by (apply Z.div_pos; lia).
  rewrite Z.mul_0_l, Z.add_0_r, Z.add_0_l. reflexivity.
Qed.

(* rows written one after the other, each inside its own stride *)
Lemma rows_untouched_below (row : Z -> NV12.mem -> NV12.mem)
    (stride len : Z) (val : Z -> Z -> Z) :
  0 <= len <= stride ->
  (forall y m j, row y m j
     = if (y * stride <=? j) && (j <? y * stride + len)
       then val y (j - y * stride) else m j) ->
  forall (count : nat) (y1 : Z) (m : NV12.mem) (a : Z),
    a < y1 * stride ->
    NV12.for_range count y1 1 row m a = m a.
Proof.
  intros Hlen Hrow. induction count as [|c IH]; intros y1 m a Ha.
  - reflexivity.
  - cbn [NV12.for_range]. rewrite IH by nia. rewrite Hrow.
    destruct (Z.leb_spec (y1 * stride) a); [lia | reflexivity].
Qed.

Lemma rows_spec (row : Z -> NV12.mem -> NV12.mem)
    (stride len : Z) (val : Z -> Z -> Z) :
  0 <= len <= stride ->
  (forall y m j, row y m j
     = if (y * stride <=? j) && (j <? y * stride + len)
       then val y (j - y * stride) else m j) ->
  forall (count : nat) (y0 : Z) (m : NV12.mem) (y k : Z),
    y0 <= y < y0 + Z.of_nat count -> 0 <= k < len ->
    NV12.for_range count y0 1 row m (y * stride + k) = val y k.
Proof.
  intros Hlen Hrow. induction count as [|c IH]; intros y0 m y k Hy Hk.
  - lia.
  - cbn [NV12.for_range].
    destruct (Z.eq_dec y y0) as [->|Hne].
    + rewrite (rows_untouched_below row stride len val Hlen Hrow) by nia.
      rewrite Hrow.
      destruct (Z.leb_spec (y0 * stride) (y0 * stride + k)); [|lia].
      destruct (Z.ltb_spec (y0 * stride + k) (y0 * stride + len)); [|lia].
      simpl. f_equal. lia.
    + apply IH; lia.
Qed.

Lemma block_avg_mean (bgra : NV12.mem) (ss bx by_ c : Z) :
  (forall i, 0 <= bgra i <= 255) -> 0 <= c <= 2 ->
  block_avg bgra (by_ * 2 * ss) ((by_ * 2 + 1) * ss) bx c
    = block_mean bgra ss bx by_ c
  /\ 0 <= block_mean bgra ss bx by_ c <= 255.
Proof.
  intros Hb Hc. unfold block_avg, block_mean, pixel.
  replace (bx * 2 * 4 + c) with (bx * 8 + c) by lia.
  replace ((bx * 2 + 1) * 4 + c) with (bx * 8 + (c + 4)) by lia.
  apply avg_exact; apply Hb.
Qed.

(** C5. With 8-bit input components and rows that fit their strides, after
    convert_bgra_to_nv12_fast (either build) the Y plane holds, for every
    pixel, ((66 R + 129 G + 25 B + 128) >> 8) + 16 of that pixel, and the UV
    plane holds, for every 2x2 block, ((-38 R - 74 G + 112 B + 128) >> 8) + 128
    and ((112 R - 94 G - 18 B + 128) >> 8) + 128 of the component-wise block
    average (sum of the four pixels shifted right by 2); all these bytes lie
    in [0,255] (indeed Y in [16,235], U and V in [16,240]). *)
Theorem bgra_to_nv12_formulas (has_sse2 : bool) (bgra : NV12.mem)
    (width height src_stride : Z) (y_plane uv_plane : NV12.mem)
    (y_stride uv_stride : Z) :
  (forall i, 0 <= bgra i <= 255) ->
  0 <= width <= y_stride -> (width / 2) * 2 <= uv_stride ->
  let '(yp, uvp) :=
    NV12.convert_bgra_to_nv12_fast has_sse2 bgra width height src_stride
      y_plane uv_plane y_stride uv_stride in
  (forall x y, 0 <= x < width -> 0 <= y < height ->
     yp (y * y_stride + x)
       = NV12.spec_Y (pixel bgra src_stride x y 2) (pixel bgra src_stride x y 1)
                     (pixel bgra src_stride x y 0)
     /\ 0 <= yp (y * y_stride + x) <= 255)
  /\ (forall bx by_, 0 <= bx < width / 2 -> 0 <= by_ < height / 2 ->
        let R := block_mean bgra src_stride bx by_ 2 in
        let G := block_mean bgra src_stride bx by_ 1 in
        let B := block_mean bgra src_stride bx by_ 0 in
        uvp (by_ * uv_stride + (bx * 2)) = NV12.spec_U R G B
        /\ uvp (by_ * uv_stride + (bx * 2 + 1)) = NV12.spec_V R G B
        /\ 0 <= uvp (by_ * uv_stride + (bx * 2)) <= 255
        /\ 0 <= uvp (by_ * uv_stride + (bx * 2 + 1)) <= 255).
Proof.
  intros Hbytes Hw Huv. unfold NV12.convert_bgra_to_nv12_fast. split.
  - intros x y Hx Hy.
    rewrite (rows_spec _ y_stride width
               (fun y k => y_val bgra (y * src_stride) k) Hw).
    + unfold y_val, pixel.
      destruct (luma_exact (bgra (y * src_stride + (x * 4 + 2)))
                  (bgra (y * src_stride + (x * 4 + 1)))
                  (bgra (y * src_stride + (x * 4 + 0)))
                  (Hbytes _) (Hbytes _) (Hbytes _)) as (Heq & Hr).
      rewrite Heq. split; [reflexivity | lia].
    + intros y' m j. destruct has_sse2.
      * apply y_row_unrolled_spec. lia.
      * apply y_row_scalar_spec. lia.
    + rewrite Z2Nat.id by lia. lia.
    + exact Hx.
  - intros bx by_ Hbx Hby.
    set (R := block_mean bgra src_stride bx by_ 2).
    set (G := block_mean bgra src_stride bx by_ 1).
    set (B := block_mean bgra src_stride bx by_ 0).
    assert (Hlen : 0 <= width / 2 * 2 <= uv_stride).
    { split; [|exact Huv]. pose proof (Z.div_pos width 2 ltac:(lia) ltac:(lia)). lia. }
    pose proof (rows_spec
      (fun y uvp => NV12.uv_row bgra width (y * 2 * src_stride)
                      ((y * 2 + 1) * src_stride) (y * uv_stride) uvp)
      uv_stride (width / 2 * 2)
      (fun y k => if k mod 2 =? 0
                  then u_val bgra (y * 2 * src_stride) ((y * 2 + 1) * src_stride) (k / 2)
                  else v_val bgra (y * 2 * src_stride) ((y * 2 + 1) * src_stride) (k / 2))
      Hlen) as Hrows.
    assert (Hrow : forall (y : Z) (m : NV12.mem) (j : Z),
               NV12.uv_row bgra width (y * 2 * src_stride)
                 ((y * 2 + 1) * src_stride) (y * uv_stride) m j
               = if (y * uv_stride <=? j) && (j <? y * uv_stride + width / 2 * 2)
                 then (if (j - y * uv_stride) mod 2 =? 0
                       then u_val bgra (y * 2 * src_stride)
                              ((y * 2 + 1) * src_stride) ((j - y * uv_stride) / 2)
                       else v_val bgra (y * 2 * src_stride)
                              ((y * 2 + 1) * src_stride) ((j - y * uv_stride) / 2))
                 else m j).
    { intros y m j. apply uv_row_spec. lia. }
    specialize (Hrows Hrow (Z.to_nat (height / 2)) 0 uv_plane by_).
    assert (Hrange : 0 <= by_ < 0 + Z.of_nat (Z.to_nat (height / 2)))
      by (rewrite Z2Nat.id by lia; lia).
    pose proof (Hrows (bx * 2) Hrange ltac:(lia)) as HU.
    pose proof (Hrows (bx * 2 + 1) Hrange ltac:(lia)) as HV.
    cbv beta in HU, HV.
    destruct (even_index bx) as (He1 & He2).
    destruct (odd_index bx) as (Ho1 & Ho2).
    rewrite He1, He2 in HU. rewrite Ho1, Ho2 in HV.
    change (0 =? 0) with true in HU. change (1 =? 0) with false in HV.
    cbv iota in HU, HV.
    rewrite HU, HV. unfold u_val, v_val.
    destruct (block_avg_mean bgra src_stride bx by_ 2 Hbytes ltac:(lia)) as (-> & H2).
    destruct (block_avg_mean bgra src_stride bx by_ 1 Hbytes ltac:(lia)) as (-> & H1).
    destruct (block_avg_mean bgra src_stride bx by_ 0 Hbytes ltac:(lia)) as (-> & H0).
    fold R G B in H2, H1, H0 |- *.
    destruct (chroma_exact R G B H2 H1 H0) as ((HUe & HUr) & (HVe & HVr)).
    rewrite HUe, HVe. repeat split; lia.
Qed.

Lemma bgra_to_nv12_formulas_witness :
  (forall i, 0 <= Demo.grey i <= 255)
  /\ 0 <= 4 <= 4 /\ (4 / 2) * 2 <= 4
  /\ let '(yp, uvp) :=
       NV12.convert_bgra_to_nv12_fast true Demo.grey 4 2 16
         (fun _ => 0) (fun _ => 0) 4 4 in
     (forall x y, 0 <= x < 4 -> 0 <= y < 2 ->
        yp (y * 4 + x)
          = NV12.spec_Y (pixel Demo.grey 16 x y 2) (pixel Demo.grey 16 x y 1)
                        (pixel Demo.grey 16 x y 0)
        /\ 0 <= yp (y * 4 + x) <= 255)
     /\ (forall bx by_, 0 <= bx < 4 / 2 -> 0 <= by_ < 2 / 2 ->
           let R := block_mean Demo.grey 16 bx by_ 2 in
           let G := block_mean Demo.grey 16 bx by_ 1 in
           let B := block_mean Demo.grey 16 bx by_ 0 in
           uvp (by_ * 4 + (bx * 2)) = NV12.spec_U R G B
           /\ uvp (by_ * 4 + (bx * 2 + 1)) = NV12.spec_V R G B
           /\ 0 <= uvp (by_ * 4 + (bx * 2)) <= 255
           /\ 0 <= uvp (by_ * 4 + (bx * 2 + 1)) <= 255).
Proof.
  assert (H1 : forall i, 0 <= Demo.grey i <= 255)
    by (intros i; unfold Demo.grey; lia).
  assert (H2 : 0 <= 4 <= 4) by lia.
  assert (H3 : (4 / 2) * 2 <= 4) by (vm_compute; discriminate).
  split; [exact H1|]. split; [exact H2|]. split; [exact H3|].
  exact (bgra_to_nv12_formulas true Demo.grey 4 2 16 (fun _ => 0) (fun _ => 0)
           4 4 H1 H2 H3).
Defined.

(* the conversion run on the grey picture: Y = 126, U = V = 128 *)
Example grey_picture_converts :
  let '(yp, uvp) :=
    NV12.convert_bgra_to_nv12_fast true Demo.grey 4 2 16
      (fun _ => 0) (fun _ => 0) 4 4 in
  map yp [0; 1; 2; 3; 4; 5; 6; 7] = [126; 126; 126; 126; 126; 126; 126; 126]
  /\ map uvp [0; 1; 2; 3] = [128; 128; 128; 128].
Proof. vm_compute. split; reflexivity. Qed.

(** ** UInputBackend::send_touch, release *)

Lemma count_active_unfold (slots : list UInput.TouchSlot) :
  UInput.count_active slots
  = (if UInput.slot_active slots 0 then 1 else 0)
    + (if UInput.slot_active slots 1 then 1 else 0)
    + (if UInput.slot_active slots 2 then 1 else 0)
    + (if UInput.slot_active slots 3 then 1 else 0)
    + (if UInput.slot_active slots 4 then 1 else 0).
Proof.
  unfold UInput.count_active. cbn [seq fold_left].
  destruct (UInput.slot_active slots 0), (UInput.slot_active slots 1),
    (UInput.slot_active slots 2), (UInput.slot_active slots 3),
    (UInput.slot_active slots 4); reflexivity.
Qed.

Lemma count_active_bounds (slots : list UInput.TouchSlot) (slot : Z) :
  0 <= slot < 5 ->
  UInput.slot_active slots (Z.to_nat slot) = true ->
  1 <= UInput.count_active slots <= 5.
Proof.
  intros Hs Ha. rewrite count_active_unfold.
  assert (Hcase : slot = 0 \/ slot = 1 \/ slot = 2 \/ slot = 3 \/ slot = 4) by lia.
  destruct Hcase as [->|[->|[->|[->| ->]]]];
    change (Z.to_nat 0) with 0%nat in Ha; change (Z.to_nat 1) with 1%nat in Ha;
    change (Z.to_nat 2) with 2%nat in Ha; change (Z.to_nat 3) with 3%nat in Ha;
    change (Z.to_nat 4) with 4%nat in Ha; rewrite Ha;
    destruct (UInput.slot_active slots 0), (UInput.slot_active slots 1),
      (UInput.slot_active slots 2), (UInput.slot_active slots 3),
      (UInput.slot_active slots 4); lia.
Qed.

(** C6 as stated fails on its middle part: with two fingers down, lifting
    one of them still writes BTN_TOUCH 0 (and BTN_TOOL_FINGER 0), although a
    slot remains active after the release. *)
Lemma touch_cleared_while_slot_active :
  let st2 :=
    fst (Server.process Demo.relay
           [ Demo.event_at_centre Server.TOUCH_DOWN 0 0;
             Demo.event_at_centre Server.TOUCH_DOWN 1 0 ]) in
  let '(st3, tr) :=
    Server.handle_input st2 (Demo.event_at_centre Server.TOUCH_UP 1 0) in
  tr = [ UInput.emit 5 UInput.EV_ABS UInput.ABS_MT_SLOT 1;
         UInput.emit 5 UInput.EV_ABS UInput.ABS_MT_TRACKING_ID (-1);
         UInput.emit 5 UInput.EV_KEY UInput.BTN_TOUCH 0;
         UInput.emit 5 UInput.EV_KEY UInput.BTN_TOOL_FINGER 0;
         UInput.emit 5 UInput.EV_KEY UInput.BTN_TOOL_DOUBLETAP 0;
         UInput.emit 5 UInput.EV_SYN UInput.SYN_REPORT 0 ]
  /\ option_map (fun u => UInput.count_active (UInput.m_touch_slots u))
                (Server.m_uinput st3) = Some 1.
Proof. vm_compute. split; reflexivity. Qed.

(** C6, amended. A TouchUp for an active slot (touch device open, slot in
    0..4) writes, in this order: ABS_MT_SLOT = slot, ABS_MT_TRACKING_ID = -1,
    BTN_TOUCH = 0 and BTN_TOOL_FINGER = 0 (both on every release, whether or
    not other slots stay active), then for a count n >= 2 of active slots
    before the release the TOOL_* key of n cleared, then SYN_REPORT. So the
    TOOL_* key of the count before the release is always cleared, and the
    slot is left inactive with tracking id -1. *)
Theorem touch_up_release {F : Type} `{FloatOps F} (u : UInput.t)
    (x y slot : Z) (pressure : F) :
  0 <= UInput.m_touch_fd u -> 0 <= slot < 5 ->
  UInput.slot_active (UInput.m_touch_slots u) (Z.to_nat slot) = true ->
  let fd := UInput.m_touch_fd u in
  let n := UInput.count_active (UInput.m_touch_slots u) in
  let '(u', tr) := UInput.send_touch u x y slot false pressure in
  1 <= n <= 5
  /\ tr = [ UInput.emit fd UInput.EV_ABS UInput.ABS_MT_SLOT slot;
            UInput.emit fd UInput.EV_ABS UInput.ABS_MT_TRACKING_ID (-1);
            UInput.emit fd UInput.EV_KEY UInput.BTN_TOUCH 0;
            UInput.emit fd UInput.EV_KEY UInput.BTN_TOOL_FINGER 0 ]
          ++ (if n =? 1 then []
              else [UInput.emit fd UInput.EV_KEY (Spec.tool_for_count n) 0])
          ++ [ UInput.emit fd UInput.EV_SYN UInput.SYN_REPORT 0 ]
  /\ In (UInput.emit fd UInput.EV_KEY (Spec.tool_for_count n) 0) tr
  /\ UInput.m_touch_slots u'
     = <[Z.to_nat slot := {| UInput.active := false; UInput.tracking_id := -1 |}]>
         (UInput.m_touch_slots u)
  /\ UInput.slot_active (UInput.m_touch_slots u') (Z.to_nat slot) = false.
Proof.
  intros Hfd Hslot Hact. cbv zeta.
  pose proof (count_active_bounds _ slot Hslot Hact) as Hn.
  unfold UInput.send_touch.
  assert (Hg : (UInput.m_touch_fd u <? 0) || (slot <? 0) || (5 <=? slot) = false).
  { destruct (Z.ltb_spec (UInput.m_touch_fd u) 0), (Z.ltb_spec slot 0),
      (Z.leb_spec 5 slot); simpl; try reflexivity; lia. }
  rewrite Hg. cbn [UInput.set_slots UInput.m_touch_slots].
  set (n := UInput.count_active (UInput.m_touch_slots u)) in *.
  split; [exact Hn|].
  assert (Htr : (if n =? 2
                 then [UInput.emit (UInput.m_touch_fd u) UInput.EV_KEY
                         UInput.BTN_TOOL_DOUBLETAP 0]
                 else if n =? 3
                 then [UInput.emit (UInput.m_touch_fd u) UInput.EV_KEY
                         UInput.BTN_TOOL_TRIPLETAP 0]
                 else if n =? 4
                 then [UInput.emit (UInput.m_touch_fd u) UInput.EV_KEY
                         UInput.BTN_TOOL_QUADTAP 0]
                 else if n =? 5
                 then [UInput.emit (UInput.m_touch_fd u) UInput.EV_KEY
                         UInput.BTN_TOOL_QUINTTAP 0]
                 else [])
                = (if n =? 1 then []
                   else [UInput.emit (UInput.m_touch_fd u) UInput.EV_KEY
                           (Spec.tool_for_count n) 0])).
  { assert (Hcase : n = 1 \/ n = 2 \/ n = 3 \/ n = 4 \/ n = 5) by lia.
    destruct Hcase as [->|[->|[->|[->| ->]]]]; reflexivity. }
  rewrite Htr. split; [reflexivity|]. split; [|split; [reflexivity|]].
  - assert (Hcase : n = 1 \/ n = 2 \/ n = 3 \/ n = 4 \/ n = 5) by lia.
    destruct Hcase as [->|[->|[->|[->| ->]]]]; simpl; tauto.
  - unfold UInput.slot_active.
    destruct (decide (Z.to_nat slot < length (UInput.m_touch_slots u))%nat) as [Hlt|Hge].
    + rewrite list_lookup_insert_eq by exact Hlt. reflexivity.
    + rewrite list_insert_ge by lia.
      unfold UInput.slot_active in Hact.
      rewrite lookup_ge_None_2 in Hact by lia. discriminate.
Qed.

Lemma touch_up_release_witness :
  let u := {| UInput.m_stylus_fd := 3; UInput.m_mouse_fd := 4;
              UInput.m_touch_fd := 5; UInput.m_screen_width := 1920;
              UInput.m_screen_height := 1080;
              UInput.m_stylus_tool_active := false;
              UInput.m_stylus_touching := false;
              UInput.m_touch_slots :=
                [ UInput.mkSlot true 0; UInput.mkSlot true 1;
                  UInput.mkSlot false (-1); UInput.mkSlot false (-1);
                  UInput.mkSlot false (-1) ] |} in
  0 <= UInput.m_touch_fd u /\ 0 <= 1 < 5
  /\ UInput.slot_active (UInput.m_touch_slots u) (Z.to_nat 1) = true
  /\ In (UInput.emit 5 UInput.EV_KEY UInput.BTN_TOOL_DOUBLETAP 0)
        (snd (UInput.send_touch (F := Z) u 960 540 1 false 0)).
Proof.
  intros u.
  assert (H1 : 0 <= UInput.m_touch_fd u) by (vm_compute; discriminate).
  assert (H2 : 0 <= 1 < 5) by lia.
  assert (H3 : UInput.slot_active (UInput.m_touch_slots u) (Z.to_nat 1) = true)
    by reflexivity.
  split; [exact H1|]. split; [exact H2|]. split; [exact H3|].
  pose proof (touch_up_release (F := Z) u 960 540 1 0 H1 H2 H3) as Hthm.
  cbv zeta in Hthm.
  destruct (UInput.send_touch u 960 540 1 false 0) as [u' tr].
  destruct Hthm as (_ & _ & Hin & _). exact Hin.
Defined.

(** ** Stylus state *)

Section InputRelay.

Context {F : Type} `{FloatOps F}.

(* send_stylus never changes the descriptors *)
Lemma send_stylus_fds (u : UInput.t) (x y : Z) (p tx ty : F)
    (tip b1 b2 er rng : bool) :
  let u' := fst (UInput.send_stylus u x y p tx ty tip b1 b2 er rng) in
  UInput.m_stylus_fd u' = UInput.m_stylus_fd u
  /\ UInput.m_mouse_fd u' = UInput.m_mouse_fd u
  /\ UInput.m_touch_fd u' = UInput.m_touch_fd u.
Proof.
  unfold UInput.send_stylus.
  destruct (UInput.m_stylus_fd u <? 0); [simpl; auto|].
  destruct rng.
  - destruct (negb (UInput.m_stylus_tool_active u) && negb er);
      destruct er; destruct (UInput.m_stylus_tool_active u);
      destruct tip; destruct (UInput.m_stylus_touching u); simpl; auto.
  - simpl; auto.
Qed.

Lemma send_touch_fds (u : UInput.t) (x y slot : Z) (down : bool) (p : F) :
  let u' := fst (UInput.send_touch u x y slot down p) in
  UInput.m_stylus_fd u' = UInput.m_stylus_fd u
  /\ UInput.m_mouse_fd u' = UInput.m_mouse_fd u
  /\ UInput.m_touch_fd u' = UInput.m_touch_fd u.
Proof.
  unfold UInput.send_touch.
  destruct ((UInput.m_touch_fd u <? 0) || (slot <? 0) || (5 <=? slot));
    [simpl; auto|].
  destruct down; [|simpl; auto].
  destruct (negb (UInput.slot_active (UInput.m_touch_slots u) (Z.to_nat slot)));
    simpl; auto.
Qed.

Lemma is_initialized_fds (u u' : UInput.t) :
  UInput.m_stylus_fd u' = UInput.m_stylus_fd u ->
  UInput.m_mouse_fd u' = UInput.m_mouse_fd u ->
  UInput.m_touch_fd u' = UInput.m_touch_fd u ->
  UInput.is_initialized u' = UInput.is_initialized u.
Proof. intros H1 H2 H3. unfold UInput.is_initialized. rewrite H1, H2, H3. reflexivity. Qed.

(* an active relay stays active *)
Lemma handle_input_active (st : Server.input_state) (e : Server.InputEvent) :
  relay_active st -> relay_active (fst (Server.handle_input st e)).
Proof.
  intros (u & Hu & Hinit). unfold Server.handle_input. rewrite Hu, Hinit.
  cbn [negb]. destruct (Server.m_coord_transform st _ _) as [sx sy].
  destruct (Server.type e) eqn:Hty;
    try (exists u; split; [exact Hu | exact Hinit]).
  all: match goal with
       | |- context [UInput.send_touch ?u0 ?a ?b ?slot ?down ?p] =>
           pose proof (send_touch_fds u0 a b slot down p) as Hf;
           destruct (UInput.send_touch u0 a b slot down p) as [u1 tr1]
       | |- context [UInput.send_stylus ?u0 ?a ?b ?p ?tx ?ty ?tip ?b1 ?b2 ?er ?rng] =>
           pose proof (send_stylus_fds u0 a b p tx ty tip b1 b2 er rng) as Hf;
           destruct (UInput.send_stylus u0 a b p tx ty tip b1 b2 er rng) as [u1 tr1]
       end;
    simpl in *; exists u1; (split; [reflexivity|]);
    destruct Hf as (Hf1 & Hf2 & Hf3);
    rewrite <- Hinit; apply is_initialized_fds; assumption.
Qed.

Lemma process_active (es : list Server.InputEvent) :
  forall st : Server.input_state,
    relay_active st -> relay_active (fst (Server.process st es)).
Proof.
  induction es as [|e es IH]; intros st Hact.
  - exact Hact.
  - simpl. pose proof (handle_input_active st e Hact) as H1.
    destruct (Server.handle_input st e) as [st1 tr1].
    specialize (IH st1 H1).
    destruct (Server.process st1 es) as [st2 tr2]. exact IH.
Qed.

End InputRelay.

Lemma initialized_stylus_fd (u : UInput.t) :
  UInput.is_initialized u = true -> (UInput.m_stylus_fd u <? 0) = false.
Proof.
  unfold UInput.is_initialized. intros Hi.
  apply andb_true_iff in Hi. destruct Hi as (Hi & _).
  apply andb_true_iff in Hi. destruct Hi as (Hi & _).
  apply Z.leb_le in Hi. apply Z.ltb_ge. exact Hi.
Qed.

(** C7. The code breaks the invariant on one path: a StylusDown that
    carries the eraser bit (0x20), arriving with the stylus out of range,
    sets tip contact and leaves tool present clear, and BTN_TOUCH 1 is
    written with no tool key pressed at all. send_stylus presses
    BTN_TOOL_RUBBER only when it switches from an active pen to the eraser;
    the case of the eraser arriving first is missed. *)
Lemma tip_contact_without_tool :
  let '(st, tr) :=
    Server.handle_input Demo.relay
      (Demo.event_at_centre Server.STYLUS_DOWN 0 0x20) in
  option_map (fun u => (UInput.m_stylus_touching u, UInput.m_stylus_tool_active u))
             (Server.m_uinput st) = Some (true, false)
  /\ (~ tip_implies_tool st)
  /\ tr = [ UInput.emit 3 UInput.EV_KEY UInput.BTN_TOUCH 1;
            UInput.emit 3 UInput.EV_ABS UInput.ABS_X 32733;
            UInput.emit 3 UInput.EV_ABS UInput.ABS_Y 32706;
            UInput.emit 3 UInput.EV_ABS UInput.ABS_PRESSURE 32767;
            UInput.emit 3 UInput.EV_ABS UInput.ABS_TILT_X 0;
            UInput.emit 3 UInput.EV_ABS UInput.ABS_TILT_Y 0;
            UInput.emit 3 UInput.EV_SYN UInput.SYN_REPORT 0 ].
Proof.
  set (r := Server.handle_input _ _). vm_compute in r. subst r. cbv beta iota.
  split; [reflexivity|]. split; [|reflexivity].
  intros Hinv. specialize (Hinv _ eq_refl eq_refl). discriminate Hinv.
Qed.

(* the pen touching, then the same stroke continued with the eraser bit:
   the pen key is released, the rubber key pressed, and the pen flag is
   clear while the tip stays in contact *)
Example eraser_switch_clears_pen_flag :
  let '(st, tr) :=
    Server.handle_input
      (fst (Server.handle_input Demo.relay
              (Demo.event_at_centre Server.STYLUS_DOWN 0 0)))
      (Demo.event_at_centre Server.STYLUS_MOVE 0 0x20) in
  option_map (fun u => (UInput.m_stylus_touching u, UInput.m_stylus_tool_active u))
             (Server.m_uinput st) = Some (true, false)
  /\ firstn 2 tr = [ UInput.emit 3 UInput.EV_KEY UInput.BTN_TOOL_PEN 0;
                     UInput.emit 3 UInput.EV_KEY UInput.BTN_TOOL_RUBBER 1 ].
Proof.
  set (r := Server.handle_input _ _). vm_compute in r. subst r. cbv beta iota.
  split; reflexivity.
Qed.

(** The pen flag of the backend after a stylus event without the eraser
    bit: with the relay active, in every state reached by any sequence of
    input events whose last event is such an event (or a StylusUp),
    m_stylus_touching implies m_stylus_tool_active; and processing a StylusUp
    leaves both flags false and writes ABS_PRESSURE 0 to the stylus
    device. *)
Theorem stylus_safety_after_plain_event {F : Type} `{FloatOps F}
    (st : Server.input_state) (es : list Server.InputEvent)
    (e : Server.InputEvent) :
  relay_active st ->
  is_stylus_kind (Server.type e) = true ->
  Server.type e = Server.STYLUS_UP \/ eraser_bit (Server.buttons e) = false ->
  let st1 := fst (Server.process st es) in
  let '(st2, tr) := Server.handle_input st1 e in
  tip_implies_tool st2
  /\ (Server.type e = Server.STYLUS_UP ->
        exists u, Server.m_uinput st2 = Some u
                  /\ UInput.m_stylus_tool_active u = false
                  /\ UInput.m_stylus_touching u = false
                  /\ In (UInput.emit (UInput.m_stylus_fd u) UInput.EV_ABS
                           UInput.ABS_PRESSURE 0) tr).
Proof.
  intros Hact Hkind Hplain. cbv zeta.
  destruct (process_active es st Hact) as (u & Hu & Hinit).
  set (st1 := fst (Server.process st es)) in *.
  unfold Server.handle_input. rewrite Hu, Hinit. cbn [negb].
  destruct (Server.m_coord_transform st1 _ _) as [sx sy].
  pose proof (initialized_stylus_fd u Hinit) as Hfd.
  unfold eraser_bit in Hplain.
  destruct (Server.type e) eqn:Hty; try discriminate Hkind;
    unfold UInput.send_stylus, UInput.sync; rewrite Hfd.
  - (* STYLUS_DOWN *)
    destruct Hplain as [Hup | Her]; [discriminate Hup|]. rewrite Her.
    rewrite andb_true_r. cbn [andb].
    destruct (UInput.m_stylus_tool_active u), (UInput.m_stylus_touching u);
      cbn; (split; [intros u' Hu' _; inversion Hu'; reflexivity
                   | intros Hup; discriminate Hup]).
  - (* STYLUS_MOVE *)
    destruct Hplain as [Hup | Her]; [discriminate Hup|]. rewrite Her.
    rewrite andb_true_r. cbn [andb].
    destruct (UInput.m_stylus_tool_active u), (UInput.m_stylus_touching u);
      cbn; (split; [intros u' Hu' _; inversion Hu'; reflexivity
                   | intros Hup; discriminate Hup]).
  - (* STYLUS_UP *)
    split.
    + intros u' Hu' Ht. cbn in Hu'. inversion Hu'; subst u'.
      cbn in Ht. discriminate Ht.
    + intros _. eexists. split; [reflexivity|]. cbn.
      split; [reflexivity|]. split; [reflexivity|].
      rewrite !in_app_iff. simpl. tauto.
  - (* STYLUS_HOVER *)
    destruct Hplain as [Hup | Her]; [discriminate Hup|]. rewrite Her.
    rewrite andb_true_r. cbn [andb].
    destruct (UInput.m_stylus_tool_active u), (UInput.m_stylus_touching u);
      cbn; (split; [intros u' Hu' _; inversion Hu'; reflexivity
                   | intros Hup; discriminate Hup]).
Qed.

Lemma stylus_safety_after_plain_event_witness :
  relay_active Demo.relay
  /\ is_stylus_kind (Server.type (Demo.event_at_centre Server.STYLUS_UP 0 0)) = true
  /\ (Server.type (Demo.event_at_centre Server.STYLUS_UP 0 0) = Server.STYLUS_UP
      \/ eraser_bit (Server.buttons (Demo.event_at_centre Server.STYLUS_UP 0 0)) = false)
  /\ tip_implies_tool
       (fst (Server.handle_input
               (fst (Server.process Demo.relay
                       [ Demo.event_at_centre Server.STYLUS_HOVER 0 0;
                         Demo.event_at_centre Server.STYLUS_DOWN 0 0x20 ]))
               (Demo.event_at_centre Server.STYLUS_UP 0 0))).
Proof.
  assert (H1 : relay_active Demo.relay).
  { exists Demo.backend. split; reflexivity. }
  assert (H2 : is_stylus_kind
                 (Server.type (Demo.event_at_centre Server.STYLUS_UP 0 0)) = true)
    by reflexivity.
  assert (H3 : Server.type (Demo.event_at_centre Server.STYLUS_UP 0 0)
               = Server.STYLUS_UP
               \/ eraser_bit (Server.buttons
                                (Demo.event_at_centre Server.STYLUS_UP 0 0)) = false)
    by (left; reflexivity).
  split; [exact H1|]. split; [exact H2|]. split; [exact H3|].
  pose proof (stylus_safety_after_plain_event Demo.relay
                [ Demo.event_at_centre Server.STYLUS_HOVER 0 0;
                  Demo.event_at_centre Server.STYLUS_DOWN 0 0x20 ]
                (Demo.event_at_centre Server.STYLUS_UP 0 0) H1 H2 H3) as Hthm.
  cbv zeta in Hthm.
  destruct (Server.handle_input _ _) as [st2 tr].
  exact (proj1 Hthm).
Defined.

(** ** Keyboard events *)

(** C8 as stated fails: a KeyDown carrying key code 30 (KEY_A) in the
    buttons field goes through handle_input with nothing written to any
    device; the relay is left as it was. *)
Lemma key_event_discarded :
  snd (Server.handle_input Demo.relay (Demo.event_at_centre Server.KEY_DOWN 0 30))
    = []
  /\ Server.m_uinput
       (fst (Server.handle_input Demo.relay
               (Demo.event_at_centre Server.KEY_DOWN 0 30)))
     = Server.m_uinput Demo.relay
  /\ ~ (exists ev,
          In ev (snd (Server.handle_input Demo.relay
                        (Demo.event_at_centre Server.KEY_DOWN 0 30)))
          /\ UInput.ev_type ev = UInput.EV_KEY /\ UInput.ev_code ev = 30).
Proof.
  split; [reflexivity|]. split; [reflexivity|].
  intros (ev & Hin & _). exact Hin.
Qed.

(** C8, amended. A KeyDown or KeyUp event is accepted and discarded:
    handle_input writes nothing to any synthetic device and leaves the relay
    unchanged, so a stream of events produces exactly the writes of the same
    stream with its key events removed, the others in arrival order. *)
Theorem key_events_are_dropped {F : Type} `{FloatOps F}
    (st : Server.input_state) (e : Server.InputEvent)
    (es : list Server.InputEvent) :
  is_key_kind (Server.type e) = true ->
  Server.handle_input st e = (st, [])
  /\ Server.process st es
     = Server.process st
         (filter (fun e' => is_key_kind (Server.type e') = false) es).
Proof.
  intros Hkey.
  assert (Hdrop : forall (st0 : Server.input_state) (e0 : Server.InputEvent),
             is_key_kind (Server.type e0) = true ->
             Server.handle_input st0 e0 = (st0, [])).
  { intros st0 e0 Hk. unfold Server.handle_input.
    destruct (Server.m_uinput st0) as [u|]; [|reflexivity].
    destruct (negb (UInput.is_initialized u)); [reflexivity|].
    destruct (Server.m_coord_transform st0 _ _) as [sx sy].
    destruct (Server.type e0); try discriminate Hk; reflexivity. }
  split; [apply Hdrop; exact Hkey|].
  clear e Hkey. revert st.
  induction es as [|e es IH]; intros st; [reflexivity|].
  rewrite filter_cons.
  destruct (decide (is_key_kind (Server.type e) = false)) as [Hnk|Hk].
  - cbn [Server.process]. destruct (Server.handle_input st e) as [st1 tr1].
    rewrite IH. reflexivity.
  - apply not_false_is_true in Hk. cbn [Server.process].
    rewrite (Hdrop st e Hk). rewrite IH.
    destruct (Server.process st _) as [st2 tr2]. reflexivity.
Qed.

Lemma key_events_are_dropped_witness :
  is_key_kind (Server.type (Demo.event_at_centre Server.KEY_UP 0 30)) = true
  /\ Server.handle_input Demo.relay (Demo.event_at_centre Server.KEY_UP 0 30)
     = (Demo.relay, []).
Proof.
  assert (H1 : is_key_kind
                 (Server.type (Demo.event_at_centre Server.KEY_UP 0 30)) = true)
    by reflexivity.
  split; [exact H1|].
  exact (proj1 (key_events_are_dropped Demo.relay
                  (Demo.event_at_centre Server.KEY_UP 0 30) [] H1)).
Defined.

(** * Further properties of the code *)

(** ** VideoSender: reassembly, counters, policies *)

Lemma map_is_fmap {A B : Type} (f : A -> B) (l : list A) : map f l = f <$> l.
Proof. reflexivity. Qed.

Lemma map_seq_from {A : Type} :
  forall (n : nat) (f : nat -> A) (a : nat),
    map f (seq a n) = map (fun k => f (a + k)%nat) (seq 0 n).
Proof.
  induction n as [|n IH]; intros f a; simpl; [reflexivity|].
  rewrite Nat.add_0_r. f_equal.
  rewrite (IH f (S a)), (IH (fun k => f (a + k)%nat) 1%nat).
  apply map_ext. intros k. f_equal. lia.
Qed.

Lemma copy_payload_app (data : Z -> Z) (off a b : Z) :
  0 <= a -> 0 <= b ->
  copy_payload data off (a + b)
  = copy_payload data off a ++ copy_payload data (off + a) b.
Proof.
  intros Ha Hb. unfold copy_payload.
  rewrite Z2Nat.inj_add by assumption.
  rewrite seq_app, map_app. f_equal.
  rewrite map_seq_from. apply map_ext. intros k. f_equal. lia.
Qed.

(* the 1200-byte slices of a frame, put end to end *)
Lemma slices_concat (data : Z -> Z) (size n : Z) :
  1200 * (n - 1) < size <= 1200 * n ->
  forall (len : nat) (i : Z),
    0 <= i -> i + Z.of_nat len = n ->
    concat (map (fun k => copy_payload data (1200 * k)
                            (Z.min 1200 (size - 1200 * k)))
                (Spec.indices i len))
    = copy_payload data (1200 * i) (if (len =? 0)%nat then 0 else size - 1200 * i).
Proof.
  intros Hn len. induction len as [|len IH]; intros i Hi Hlen.
  - reflexivity.
  - rewrite indices_cons. cbn [map concat Nat.eqb].
    rewrite IH by lia.
    destruct len as [|len'].
    + cbn [Nat.eqb]. rewrite Z.min_r by lia.
      unfold copy_payload at 2. simpl. apply app_nil_r.
    + cbn [Nat.eqb]. rewrite Z.min_l by lia.
      replace (size - 1200 * i) with (1200 + (size - 1200 * (i + 1))) by lia.
      rewrite copy_payload_app by lia.
      f_equal. f_equal; lia.
Qed.

(** X1. Reassembly: when send_frame returns true, the payloads of the
    datagrams it emitted, concatenated in emission order, are exactly the
    [size] bytes of the frame. *)
Theorem send_frame_reassembles (sendto : packet -> Z) (s : t) (data : Z -> Z)
    (size fn : Z) (kf : bool) (ts : Z) (s' : t) (tr : list event) :
  0 <= size <= PTRDIFF_MAX ->
  send_frame sendto s data size fn kf ts = (true, s', tr) ->
  concat (map pkt_payload (datagrams tr)) = copy_payload data 0 size.
Proof.
  intros Hsize Hrun.
  destruct (Z.eq_dec size 0) as [->|Hnz].
  { unfold send_frame in Hrun.
    destruct (negb (m_client_set s) || (m_socket s <? 0)); [discriminate|].
    change (num_fragments_of 0) with 0 in Hrun. simpl in Hrun.
    destruct (pacing_params s 0 kf) as [[np ppb] delay].
    inversion Hrun; subst. reflexivity. }
  set (n := Spec.ceil_div_1200 size).
  pose proof (ceil_div_1200_bounds size ltac:(lia)) as Hn. fold n in Hn.
  assert (Hs64 : size < 2 ^ 64) by (unfold PTRDIFF_MAX in Hsize; lia).
  unfold send_frame in Hrun.
  rewrite num_fragments_of_ceil in Hrun by lia. fold n in Hrun.
  destruct (negb (m_client_set s) || (m_socket s <? 0)); [discriminate|].
  destruct (65535 <? n) eqn:Hbig; [discriminate|].
  apply Z.ltb_ge in Hbig.
  destruct (pacing_params s size kf) as [[np ppb] delay].
  apply (send_loop_datagrams sendto data size fn kf np ppb delay n Hn Hs64)
    in Hrun; [| lia | lia | auto].
  destruct Hrun as (Hds & Hlen & _). specialize (Hlen eq_refl).
  assert (Hmap : map pkt_payload (datagrams tr)
                 = map (fun k => copy_payload data (1200 * k)
                                   (Z.min 1200 (size - 1200 * k)))
                       (Spec.indices 0 (Z.to_nat n))).
  { apply list_eq. intros k. unfold Spec.indices.
    rewrite !map_is_fmap, !list_lookup_fmap.
    destruct (datagrams tr !! k) as [p|] eqn:Hk.
    - pose proof (lookup_lt_Some _ _ _ Hk) as Hlt. rewrite Hlen in Hlt.
      rewrite lookup_seq_lt by exact Hlt. simpl.
      destruct (Hds k p Hk) as (Hkn & sq & Hp). rewrite Z.add_0_l in Hkn, Hp.
      pose proof (build_packet_fields sq data size fn kf n (Z.of_nat k)
                    Hn Hs64 Hbig ltac:(lia)) as Hf.
      cbv zeta in Hf. rewrite <- Hp in Hf.
      destruct Hf as (_ & _ & _ & Hpay & _). rewrite Hpay. reflexivity.
    - apply lookup_ge_None in Hk. rewrite Hlen in Hk.
      rewrite lookup_seq_ge by exact Hk. reflexivity. }
  rewrite Hmap.
  rewrite (slices_concat data size n Hn (Z.to_nat n) 0) by lia.
  destruct (Z.to_nat n =? 0)%nat eqn:Hz.
  - apply Nat.eqb_eq in Hz. lia.
  - rewrite Z.mul_0_r, Z.sub_0_r. reflexivity.
Qed.

Lemma send_frame_reassembles_witness :
  0 <= 2500 <= PTRDIFF_MAX
  /\ (forall s' tr,
        send_frame Demo.sendto_all Demo.keyframe_sender Demo.ramp 2500 7 true 0
          = (true, s', tr) ->
        concat (map pkt_payload (datagrams tr)) = copy_payload Demo.ramp 0 2500).
Proof.
  assert (Hsz : 0 <= 2500 <= PTRDIFF_MAX) by (unfold PTRDIFF_MAX; lia).
  split; [exact Hsz|].
  intros s' tr Hrun.
  exact (send_frame_reassembles _ _ _ _ _ _ _ _ _ Hsz Hrun).
Defined.

Lemma send_loop_accounting (sendto : packet -> Z) (data : Z -> Z)
    (size fn : Z) (kf np : bool) (ppb delay n : Z) :
  forall (fuel : nat) (i off pib : Z) (s s' : t) (ret : bool) (tr : list event),
    send_loop sendto fuel data size fn kf np ppb delay n i off pib s
      = (ret, s', tr) ->
    0 <= m_sequence s < 65536 ->
    0 <= m_packets_sent s < 2 ^ 64 ->
    0 <= m_bytes_sent s < 2 ^ 64 ->
    (forall (k : nat) (p : packet),
        sendto_calls tr !! k = Some p ->
        sequence (pkt_header p) = (m_sequence s + Z.of_nat k) mod 65536)
    /\ m_sequence s' = (m_sequence s + Z.of_nat (length (sendto_calls tr))) mod 65536
    /\ m_packets_sent s'
       = (m_packets_sent s + Z.of_nat (length (datagrams tr))) mod 2 ^ 64
    /\ m_bytes_sent s' = (m_bytes_sent s + bytes_accepted tr) mod 2 ^ 64
    /\ same_config s s'
    /\ (ret = false <-> exists p, last (sendto_calls tr) = Some p /\ sendto p < 0).
Proof.
  induction fuel as [|fuel IH]; intros i off pib s s' ret tr Hrun Hseq Hpk Hby.
  - simpl in Hrun. inversion Hrun; subst. simpl.
    rewrite !Z.add_0_r, !Z.mod_small by lia.
    repeat split; try reflexivity.
    + intros k p Hk. destruct k; discriminate.
    + discriminate.
    + intros (p & Hp & _). discriminate.
  - simpl in Hrun. unfold send_packet in Hrun.
    set (p0 := build_packet (m_sequence s) data size fn kf n i off) in *.
    destruct (sendto p0 <? 0) eqn:Hsent; simpl in Hrun.
    + inversion Hrun; subst. simpl. rewrite Hsent. simpl.
      rewrite !Z.add_0_r, (Z.mod_small (m_packets_sent s)),
        (Z.mod_small (m_bytes_sent s)) by lia.
      repeat split; try reflexivity.
      * intros k p Hk. destruct k as [|k]; [|destruct k; discriminate].
        inversion Hk; subst. simpl.
        rewrite Z.add_0_r, Z.mod_small by lia. reflexivity.
      * intros _. exists p0. split; [reflexivity|]. apply Z.ltb_lt. exact Hsent.
    + destruct (send_loop sendto fuel data size fn kf np ppb delay n (i + 1) _ _ _)
        as [[r s3] tr0] eqn:Hrec.
      inversion Hrun; subst ret s' tr. clear Hrun.
      apply Z.ltb_ge in Hsent.
      apply IH in Hrec; cbn [m_sequence m_packets_sent m_bytes_sent];
        try (unfold to_uint16, to_uint64; apply Z.mod_pos_bound; lia).
      cbn [m_sequence m_packets_sent m_bytes_sent] in Hrec.
      destruct Hrec as (Hsq & Hfin & Hcnt & Hbytes & Hcfg & Hret).
      assert (Hcalls : forall pace : bool,
                 sendto_calls (EvSendto p0 (sendto p0)
                                 :: (if pace then [EvSleep delay] else []) ++ tr0)
                 = p0 :: sendto_calls tr0)
        by (intros pace; destruct pace; reflexivity).
      assert (Hdg : forall pace : bool,
                 datagrams (EvSendto p0 (sendto p0)
                              :: (if pace then [EvSleep delay] else []) ++ tr0)
                 = p0 :: datagrams tr0).
      { intros pace. simpl. destruct (Z.ltb_spec (sendto p0) 0); [lia|].
        destruct pace; reflexivity. }
      assert (Hacc : forall pace : bool,
                 bytes_accepted (EvSendto p0 (sendto p0)
                                   :: (if pace then [EvSleep delay] else []) ++ tr0)
                 = sendto p0 + bytes_accepted tr0).
      { intros pace. simpl. destruct (Z.ltb_spec (sendto p0) 0); [lia|].
        destruct pace; reflexivity. }
      rewrite Hcalls, Hdg, Hacc. cbn [length].
      unfold to_uint16, to_uint64 in *.
      split; [|split; [|split; [|split; [|split]]]].
      * intros k p Hk. destruct k as [|k].
        -- inversion Hk; subst. simpl.
           rewrite Z.add_0_r, Z.mod_small by lia. reflexivity.
        -- simpl in Hk. rewrite (Hsq k p Hk).
           rewrite Zplus_mod_idemp_l. f_equal. lia.
      * rewrite Hfin, Zplus_mod_idemp_l. f_equal. lia.
      * rewrite Hcnt, Zplus_mod_idemp_l. f_equal. lia.
      * rewrite Hbytes, Zplus_mod_idemp_l. f_equal. lia.
      * unfold same_config in *. cbn in Hcfg. exact Hcfg.
      * rewrite Hret. destruct (sendto_calls tr0) as [|q qs] eqn:Hq.
        -- split; [intros (p & Hp & _); discriminate|].
           intros (p & Hp & Hneg). simpl in Hp. inversion Hp; subst. lia.
        -- change (last (p0 :: q :: qs)) with (last (q :: qs)). reflexivity.
Qed.

Lemma send_frame_accounting (sendto : packet -> Z) (s : t) (data : Z -> Z)
    (size fn : Z) (kf : bool) (ts : Z) (ret : bool) (s' : t) (tr : list event) :
  counters_in_range s ->
  send_frame sendto s data size fn kf ts = (ret, s', tr) ->
  (forall (k : nat) (p : packet),
      sendto_calls tr !! k = Some p ->
      sequence (pkt_header p) = (m_sequence s + Z.of_nat k) mod 65536)
  /\ m_sequence s' = (m_sequence s + Z.of_nat (length (sendto_calls tr))) mod 65536
  /\ m_packets_sent s'
     = (m_packets_sent s + Z.of_nat (length (datagrams tr))) mod 2 ^ 64
  /\ m_bytes_sent s' = (m_bytes_sent s + bytes_accepted tr) mod 2 ^ 64
  /\ same_config s s'.
Proof.
  intros (Hseq & Hpk & Hby) Hrun. unfold send_frame in Hrun.
  assert (Hid : (forall (k : nat) (p : packet),
                    sendto_calls [] !! k = Some p ->
                    sequence (pkt_header p) = (m_sequence s + Z.of_nat k) mod 65536)
                /\ m_sequence s = (m_sequence s + Z.of_nat (length (sendto_calls []))) mod 65536
                /\ m_packets_sent s
                   = (m_packets_sent s + Z.of_nat (length (datagrams []))) mod 2 ^ 64
                /\ m_bytes_sent s = (m_bytes_sent s + bytes_accepted []) mod 2 ^ 64
                /\ same_config s s).
  { simpl. rewrite !Z.add_0_r, !Z.mod_small by lia.
    repeat split; try reflexivity. intros k p Hk. destruct k; discriminate. }
  destruct (negb (m_client_set s) || (m_socket s <? 0));
    [inversion Hrun; subst; exact Hid|].
  destruct (65535 <? num_fragments_of size);
    [inversion Hrun; subst; exact Hid|].
  destruct (pacing_params s size kf) as [[np ppb] delay].
  apply send_loop_accounting in Hrun; try assumption.
  destruct Hrun as (H1 & H2 & H3 & H4 & H5 & _). auto.
Qed.

(** X2. The sequence counter is free-running: the k-th packet that one
    send_frame call hands to sendto carries (m_sequence + k) mod 2^16, and
    the counter is left at m_sequence plus the number of sendto calls, mod
    2^16; a datagram that sendto refuses has used up its number. *)
Theorem send_frame_sequence_numbers (sendto : packet -> Z) (s : t)
    (data : Z -> Z) (size fn : Z) (kf : bool) (ts : Z)
    (ret : bool) (s' : t) (tr : list event) :
  counters_in_range s ->
  send_frame sendto s data size fn kf ts = (ret, s', tr) ->
  (forall (k : nat) (p : packet),
      sendto_calls tr !! k = Some p ->
      sequence (pkt_header p) = (m_sequence s + Z.of_nat k) mod 65536)
  /\ m_sequence s' = (m_sequence s + Z.of_nat (length (sendto_calls tr))) mod 65536
  /\ (length (datagrams tr) <= length (sendto_calls tr))%nat.
Proof.
  intros Hr Hrun.
  destruct (send_frame_accounting _ _ _ _ _ _ _ _ _ _ Hr Hrun) as (H1 & H2 & _).
  split; [exact H1|]. split; [exact H2|].
  clear. induction tr as [|[p r|us] tr IH]; simpl; [lia| |exact IH].
  destruct (r <? 0); simpl; lia.
Qed.

(** X3. Statistics and configuration: send_frame adds the number of
    accepted datagrams to the packets counter and the byte counts sendto
    returned to the bytes counter (both mod 2^64), leaves socket, destination
    flag and pacing parameters as they were, and keeps the counters within
    their types, whatever sendto answers. *)
Theorem send_frame_statistics (sendto : packet -> Z) (s : t)
    (data : Z -> Z) (size fn : Z) (kf : bool) (ts : Z)
    (ret : bool) (s' : t) (tr : list event) :
  counters_in_range s ->
  send_frame sendto s data size fn kf ts = (ret, s', tr) ->
  m_packets_sent s'
    = (m_packets_sent s + Z.of_nat (length (datagrams tr))) mod 2 ^ 64
  /\ m_bytes_sent s' = (m_bytes_sent s + bytes_accepted tr) mod 2 ^ 64
  /\ same_config s s'
  /\ counters_in_range s'.
Proof.
  intros Hr Hrun.
  destruct (send_frame_accounting _ _ _ _ _ _ _ _ _ _ Hr Hrun)
    as (_ & H2 & H3 & H4 & H5).
  split; [exact H3|]. split; [exact H4|]. split; [exact H5|].
  unfold counters_in_range. rewrite H2, H3, H4.
  repeat split; apply Z.mod_pos_bound; lia.
Qed.

Lemma demo_counters_in_range : counters_in_range Demo.keyframe_sender.
Proof. unfold counters_in_range. vm_compute. intuition discriminate. Defined.

Lemma send_frame_sequence_numbers_witness :
  counters_in_range Demo.keyframe_sender
  /\ (forall ret s' tr,
        send_frame Demo.sendto_all Demo.keyframe_sender Demo.ramp 2500 7 true 0
          = (ret, s', tr) ->
        m_sequence s'
        = (m_sequence Demo.keyframe_sender
           + Z.of_nat (length (sendto_calls tr))) mod 65536).
Proof.
  split; [exact demo_counters_in_range|].
  intros ret s' tr Hrun.
  exact (proj1 (proj2 (send_frame_sequence_numbers _ _ _ _ _ _ _ _ _ _
                         demo_counters_in_range Hrun))).
Defined.

Lemma send_frame_statistics_witness :
  counters_in_range Demo.keyframe_sender
  /\ (forall ret s' tr,
        send_frame Demo.sendto_all Demo.keyframe_sender Demo.ramp 2500 7 true 0
          = (ret, s', tr) ->
        counters_in_range s').
Proof.
  split; [exact demo_counters_in_range|].
  intros ret s' tr Hrun.
  exact (proj2 (proj2 (proj2 (send_frame_statistics _ _ _ _ _ _ _ _ _ _
                                demo_counters_in_range Hrun)))).
Defined.

(* send_frame with the sender set up, the count within 16 bits and sendto
   never failing, in terms of the pacing parameters it computes *)
Lemma send_frame_shape (sendto : packet -> Z) (s : t) (data : Z -> Z)
    (size fn : Z) (kf : bool) (ts : Z) :
  m_client_set s = true -> 0 <= m_socket s ->
  (forall p, 0 <= sendto p) ->
  0 <= size <= PTRDIFF_MAX -> Spec.ceil_div_1200 size <= 65535 ->
  (fst (fst (pacing_params s size kf)) = true ->
   1 <= snd (fst (pacing_params s size kf))) ->
  exists s' tr,
    send_frame sendto s data size fn kf ts = (true, s', tr)
    /\ shape tr =
       if fst (fst (pacing_params s size kf))
       then Spec.paced_shape (snd (fst (pacing_params s size kf)))
              (snd (pacing_params s size kf)) (Spec.ceil_div_1200 size)
       else Spec.unpaced_shape (Spec.ceil_div_1200 size).
Proof.
  intros Hc Hsock Hall Hsize Hmax Hb.
  unfold send_frame. rewrite Hc.
  assert (Hs : (m_socket s <? 0) = false) by (apply Z.ltb_ge; lia).
  rewrite Hs. cbn [negb orb].
  rewrite num_fragments_of_ceil by assumption.
  set (n := Spec.ceil_div_1200 size) in *.
  assert (Hn0 : 0 <= n).
  { subst n. unfold Spec.ceil_div_1200. apply Z.div_pos; lia. }
  assert (Hbig : (65535 <? n) = false) by (apply Z.ltb_ge; lia).
  rewrite Hbig.
  destruct (pacing_params s size kf) as [[np ppb] delay]. cbn [fst snd] in *.
  destruct (send_loop_shape sendto data size fn kf np ppb delay n Hall Hmax Hb
              (Z.to_nat n) 0 0 0 s ltac:(lia) ltac:(lia))
    as (s' & tr & Hrun & Hshape).
  { intros Hnp _. symmetry. apply Z.mod_0_l. specialize (Hb Hnp). lia. }
  exists s', tr. split; [exact Hrun|]. exact Hshape.
Qed.

(** X4. The size-triggered policies.  After set_client with a policy that
    resolves to None, Light or Aggressive (Auto resolves to what the address
    detection returned), a frame is sent back to back under None; under
    Light it is sent in bursts of 20 fragments with 50 us between them when
    it is larger than 50000 bytes, under Aggressive in bursts of 4 with
    200 us when larger than 2400 bytes, and back to back otherwise; the
    keyframe flag plays no part. *)
Theorem send_frame_size_policies (sendto : packet -> Z) (s0 : t)
    (detected mode : PacingMode) (data : Z -> Z) (size fn : Z)
    (kf : bool) (ts : Z) :
  let resolved := match mode with AUTO => detected | _ => mode end in
  resolved <> KEYFRAME ->
  0 <= m_socket s0 -> (forall p, 0 <= sendto p) ->
  0 <= size <= PTRDIFF_MAX -> Spec.ceil_div_1200 size <= 65535 ->
  exists s' tr,
    send_frame sendto (set_client s0 detected mode) data size fn kf ts
      = (true, s', tr)
    /\ shape tr =
       match resolved with
       | NONE => Spec.unpaced_shape (Spec.ceil_div_1200 size)
       | AGGRESSIVE =>
           if 2400 <? size
           then Spec.paced_shape 4 200 (Spec.ceil_div_1200 size)
           else Spec.unpaced_shape (Spec.ceil_div_1200 size)
       | _ =>
           if 50000 <? size
           then Spec.paced_shape 20 50 (Spec.ceil_div_1200 size)
           else Spec.unpaced_shape (Spec.ceil_div_1200 size)
       end.
Proof.
  intros resolved Hnk Hsock Hall Hsize Hmax.
  set (s := set_client s0 detected mode).
  assert (Hfields : m_client_set s = true /\ m_socket s = m_socket s0
                    /\ m_pacing_mode s = resolved).
  { subst s resolved. unfold set_client.
    destruct mode, detected; repeat split; reflexivity. }
  destruct Hfields as (Hc & Hso & Hm).
  assert (Hpp : pacing_params s size kf
                = match resolved with
                  | NONE => (false, 0, 0)
                  | AGGRESSIVE => (2400 <? size, 4, 200)
                  | _ => (50000 <? size, 20, 50)
                  end).
  { subst s resolved. unfold set_client, pacing_params.
    destruct mode, detected; try reflexivity; contradiction Hnk; reflexivity. }
  destruct (send_frame_shape sendto s data size fn kf ts Hc ltac:(lia) Hall
              Hsize Hmax) as (s' & tr & Hrun & Hshape).
  { rewrite Hpp. destruct resolved; cbn [fst snd]; intros; lia || discriminate. }
  exists s', tr. split; [exact Hrun|]. rewrite Hshape, Hpp.
  destruct resolved; cbn [fst snd]; reflexivity.
Qed.

Lemma send_frame_size_policies_witness :
  AGGRESSIVE <> KEYFRAME
  /\ 0 <= m_socket (init_ok initial 3)
  /\ (forall p, 0 <= Demo.sendto_all p)
  /\ 0 <= 6000 <= PTRDIFF_MAX /\ Spec.ceil_div_1200 6000 <= 65535
  /\ exists s' tr,
       send_frame Demo.sendto_all (set_client (init_ok initial 3) AGGRESSIVE AUTO)
         Demo.ramp 6000 1 false 0 = (true, s', tr)
       /\ shape tr = [inl 0; inl 1; inl 2; inl 3; inr 200; inl 4].
Proof.
  assert (H1 : AGGRESSIVE <> KEYFRAME) by discriminate.
  assert (H2 : 0 <= m_socket (init_ok initial 3)) by (vm_compute; discriminate).
  assert (H3 : forall p, 0 <= Demo.sendto_all p).
  { intros p. unfold Demo.sendto_all, packet_size, sizeof_VideoPacketHeader. lia. }
  assert (H4 : 0 <= 6000 <= PTRDIFF_MAX) by (unfold PTRDIFF_MAX; lia).
  assert (H5 : Spec.ceil_div_1200 6000 <= 65535) by (vm_compute; discriminate).
  repeat (split; [assumption|]).
  exact (send_frame_size_policies Demo.sendto_all (init_ok initial 3)
           AGGRESSIVE AUTO Demo.ramp 6000 1 false 0 H1 H2 H3 H4 H5).
Defined.

Lemma sleeps_of_shape (tr : list event) : sleeps tr = shape_sleeps (shape tr).
Proof.
  unfold sleeps, shape_sleeps, shape.
  induction tr as [|[p r|us] tr IH]; cbn;
    [reflexivity | exact IH | f_equal; exact IH].
Qed.

Lemma div_succ_step (b m : Z) :
  1 <= b -> 0 <= m ->
  (m + 1) / b = m / b + (if (m + 1) mod b =? 0 then 1 else 0).
Proof.
  intros Hb Hm.
  pose proof (Z.div_mod m b ltac:(lia)) as Hd.
  pose proof (Z.mod_pos_bound m b ltac:(lia)) as Hr.
  destruct (burst_counter_step b m Hb Hm) as (Hc & Hs).
  destruct (Z.leb_spec b (m mod b + 1)) as [Hle|Hlt].
  - rewrite <- Hc. symmetry. apply (Z.div_unique (m + 1) b (m / b + 1) 0); lia.
  - rewrite <- Hc. rewrite Z.add_0_r. symmetry.
    apply (Z.div_unique (m + 1) b (m / b) (m mod b + 1)); lia.
Qed.

(* how many sleeps a frame of n fragments costs in bursts of b *)
Lemma paced_sleeps_count (b d n : Z) :
  1 <= b ->
  forall m : nat,
    Z.of_nat m <= n ->
    shape_sleeps (Spec.paced_from b d n 0 m)
    = replicate (Z.to_nat (Z.min (Z.of_nat m) (n - 1) / b)) d.
Proof.
  intros Hb. induction m as [|m IH]; intros Hm.
  - assert (Hz : Z.min (Z.of_nat 0) (n - 1) / b <= 0)
      by (apply Z.div_le_upper_bound; lia).
    replace (Z.to_nat (Z.min (Z.of_nat 0) (n - 1) / b)) with 0%nat by lia.
    reflexivity.
  - unfold Spec.paced_from, Spec.indices in *.
    rewrite seq_S, map_app, flat_map_app. unfold shape_sleeps in *.
    rewrite omap_app, IH by lia. cbn [map flat_map app Nat.add].
    rewrite Z.add_0_l. unfold Spec.sleeps_after.
    destruct (Z.ltb_spec (Z.of_nat m + 1) n) as [Hlt|Hge].
    + rewrite !Z.min_l by lia.
      replace (Z.of_nat (S m)) with (Z.of_nat m + 1) by lia.
      rewrite (div_succ_step b (Z.of_nat m)) by lia.
      destruct ((Z.of_nat m + 1) mod b =? 0); cbn.
      * rewrite Z2Nat.inj_add by (try apply Z.div_pos; lia).
        change (Z.to_nat 1) with 1%nat.
        rewrite replicate_add. reflexivity.
      * rewrite Z.add_0_r, app_nil_r. reflexivity.
    + rewrite andb_false_r. cbn. rewrite app_nil_r.
      f_equal. f_equal. f_equal. lia.
Qed.

(** X5. What pacing costs: with the sender set up and sendto never failing,
    a paced frame of n fragments sleeps exactly (n - 1) / burst times, each
    for the burst delay, so the call adds ((n - 1) / burst) * delay
    microseconds of sleep; an unpaced frame never sleeps. *)
Theorem send_frame_sleep_count (sendto : packet -> Z) (s : t) (data : Z -> Z)
    (size fn : Z) (kf : bool) (ts : Z) :
  m_client_set s = true -> 0 <= m_socket s ->
  (forall p, 0 <= sendto p) ->
  0 <= size <= PTRDIFF_MAX -> Spec.ceil_div_1200 size <= 65535 ->
  (fst (fst (pacing_params s size kf)) = true ->
   1 <= snd (fst (pacing_params s size kf))) ->
  exists s' tr,
    send_frame sendto s data size fn kf ts = (true, s', tr)
    /\ sleeps tr =
       if fst (fst (pacing_params s size kf))
       then replicate
              (Z.to_nat ((Spec.ceil_div_1200 size - 1)
                         / snd (fst (pacing_params s size kf))))
              (snd (pacing_params s size kf))
       else [].
Proof.
  intros Hc Hsock Hall Hsize Hmax Hb.
  destruct (send_frame_shape sendto s data size fn kf ts Hc Hsock Hall Hsize
              Hmax Hb) as (s' & tr & Hrun & Hshape).
  exists s', tr. split; [exact Hrun|].
  rewrite sleeps_of_shape, Hshape.
  set (n := Spec.ceil_div_1200 size) in *.
  assert (Hn0 : 0 <= n).
  { subst n. unfold Spec.ceil_div_1200. apply Z.div_pos; lia. }
  destruct (pacing_params s size kf) as [[np ppb] delay]. cbn [fst snd] in *.
  destruct np.
  - unfold Spec.paced_shape.
    rewrite (paced_sleeps_count ppb delay n (Hb eq_refl) (Z.to_nat n)) by lia.
    rewrite Z2Nat.id by lia. rewrite Z.min_r by lia. reflexivity.
  - unfold Spec.unpaced_shape, shape_sleeps.
    induction (Spec.indices 0 (Z.to_nat n)) as [|j l IH]; [reflexivity|exact IH].
Qed.

Lemma send_frame_sleep_count_witness :
  m_client_set Demo.keyframe_sender = true
  /\ 0 <= m_socket Demo.keyframe_sender
  /\ (forall p, 0 <= Demo.sendto_all p)
  /\ 0 <= 1500000 <= PTRDIFF_MAX
  /\ Spec.ceil_div_1200 1500000 <= 65535
  /\ (fst (fst (pacing_params Demo.keyframe_sender 1500000 true)) = true ->
      1 <= snd (fst (pacing_params Demo.keyframe_sender 1500000 true)))
  /\ exists s' tr,
       send_frame Demo.sendto_all Demo.keyframe_sender Demo.ramp 1500000 9 true 0
         = (true, s', tr)
       /\ sleeps tr = replicate 624 300.
Proof.
  assert (H1 : m_client_set Demo.keyframe_sender = true) by reflexivity.
  assert (H2 : 0 <= m_socket Demo.keyframe_sender) by (vm_compute; discriminate).
  assert (H3 : forall p, 0 <= Demo.sendto_all p).
  { intros p. unfold Demo.sendto_all, packet_size, sizeof_VideoPacketHeader. lia. }
  assert (H4 : 0 <= 1500000 <= PTRDIFF_MAX) by (unfold PTRDIFF_MAX; lia).
  assert (H5 : Spec.ceil_div_1200 1500000 <= 65535) by (vm_compute; discriminate).
  assert (H6 : fst (fst (pacing_params Demo.keyframe_sender 1500000 true)) = true ->
               1 <= snd (fst (pacing_params Demo.keyframe_sender 1500000 true)))
    by (intros _; vm_compute; discriminate).
  repeat (split; [assumption|]).
  exact (send_frame_sleep_count Demo.sendto_all Demo.keyframe_sender Demo.ramp
           1500000 9 true 0 H1 H2 H3 H4 H5 H6).
Defined.

(** ** ControlServer: framing and dispatch *)

Lemma lor_shiftl8 (a b : Z) :
  0 <= b < 256 -> Z.lor (Z.shiftl a 8) b = a * 256 + b.
Proof.
  intros Hb.
  assert (Hland : Z.land (Z.shiftl a 8) b = 0).
  { apply Z.bits_inj'. intros n Hn.
    rewrite Z.land_spec, Z.bits_0.
    destruct (Z.ltb_spec n 8).
    - rewrite Z.shiftl_spec_low by lia. reflexivity.
    - replace b with (b mod 2 ^ 8) by (apply Z.mod_small; lia).
      rewrite Z.mod_pow2_bits_high by lia. apply andb_false_r. }
  pose proof (Z.add_lor_land (Z.shiftl a 8) b) as Hadd.
  assert (Hadd' : Z.shiftl a 8 + b = a * 256 + b)
    by (rewrite Z.shiftl_mul_pow2 by lia; reflexivity).
  rewrite Hland in Hadd. rewrite Hadd' in Hadd. lia.
Qed.

Lemma length_header (len : Z) :
  0 <= len < 65536 ->
  to_uint16
    (Z.lor (Z.shiftl (Z.land (Z.shiftr (to_uint16 len) 8) 0xFF) 8)
           (Z.land (to_uint16 len) 0xFF)) = len.
Proof.
  intros Hlen. unfold to_uint16.
  rewrite (Z.mod_small len) by lia.
  change 0xFF with (Z.ones 8).
  rewrite !Z.land_ones, Z.shiftr_div_pow2 by lia.
  change (2 ^ 8) with 256.
  rewrite lor_shiftl8 by (apply Z.mod_pos_bound; lia).
  rewrite (Z.mod_small (len / 256)).
  - pose proof (Z.div_mod len 256 ltac:(lia)).
    replace (len / 256 * 256 + len mod 256) with len by lia.
    apply Z.mod_small. lia.
  - split; [apply Z.div_pos; lia | apply Z.div_lt_upper_bound; lia].
Qed.

Lemma read_message_framed (ty : Z) (data rest : list Z) :
  Z.of_nat (length data) <= 65534 ->
  ControlServer.read_message (ControlServer.send_message ty data ++ rest)
    = (Some (ty, data), rest).
Proof.
  intros Hlen.
  unfold ControlServer.send_message, ControlServer.read_message,
    ControlServer.recv_waitall.
  cbv zeta. change (Z.to_nat 3) with 3%nat.
  cbn [app firstn skipn]. rewrite firstn_O, skipn_O.
  rewrite length_header by lia.
  destruct (Z.ltb_spec 1 (Z.of_nat (length data) + 1)) as [Hgt|Hle].
  - replace (Z.to_nat (Z.of_nat (length data) + 1 - 1))
      with (length data) by lia.
    rewrite take_app_length, drop_app_length.
    replace (Z.of_nat (length data) =? Z.of_nat (length data) + 1 - 1)
      with true by (symmetry; apply Z.eqb_eq; lia).
    reflexivity.
  - destruct data; [reflexivity | cbn [length] in Hle; lia].
Qed.

(** X6. A message written by send_message is read back by read_message as
    the same type and the same payload, and the bytes that follow it on the
    stream are left for the next read, whenever the payload has at most
    65534 bytes (so that payload length plus one fits the 16-bit length
    field). *)
Theorem read_message_round_trip (ty : Z) (data rest : list Z) :
  Z.of_nat (length data) <= 65534 ->
  ControlServer.read_message (ControlServer.send_message ty data ++ rest)
    = (Some (ty, data), rest).
Proof. apply read_message_framed. Qed.

Lemma read_message_round_trip_witness :
  Z.of_nat (length [7; 128; 4; 56]) <= 65534
  /\ ControlServer.read_message
       (ControlServer.send_message ControlServer.MSG_PING [7; 128; 4; 56]
          ++ [0; 1; 5])
     = (Some (ControlServer.MSG_PING, [7; 128; 4; 56]), [0; 1; 5]).
Proof.
  split; [simpl; lia | apply read_message_round_trip; simpl; lia].
Defined.

(** X7. A payload of exactly 65535 bytes does not survive the framing: the
    16-bit length field wraps to 0, so read_message returns the type with an
    empty payload and leaves all 65535 payload bytes on the stream as if
    they were further messages. *)
Theorem read_message_length_wraps (ty : Z) (data rest : list Z) :
  Z.of_nat (length data) = 65535 ->
  ControlServer.read_message (ControlServer.send_message ty data ++ rest)
    = (Some (ty, []), data ++ rest).
Proof.
  intros Hlen.
  unfold ControlServer.send_message, ControlServer.read_message,
    ControlServer.recv_waitall.
  cbv zeta. rewrite Hlen. reflexivity.
Qed.

Lemma read_message_length_wraps_witness :
  Z.of_nat (length (replicate (Z.to_nat 65535) 0)) = 65535
  /\ ControlServer.read_message
       (ControlServer.send_message ControlServer.MSG_PING (replicate (Z.to_nat 65535) 0)
          ++ [])
     = (Some (ControlServer.MSG_PING, []), replicate (Z.to_nat 65535) 0 ++ []).
Proof.
  split; [rewrite length_replicate; reflexivity
         | apply read_message_length_wraps; rewrite length_replicate;
           reflexivity].
Defined.

(** X8. On a connection that is being served and has data to read, a PING
    with any payload of at most 65534 bytes makes process() send exactly one
    message, which a reader decodes as a PONG carrying the same payload; the
    connection state is unchanged and the bytes after the PING stay on the
    stream. *)
Theorem process_ping_is_echoed (c : ControlServer.t) (data rest : list Z) :
  serving c ->
  Z.of_nat (length data) <= 65534 ->
  exists reply,
    ControlServer.process c true
      (ControlServer.send_message ControlServer.MSG_PING data ++ rest)
      = (c, [ControlServer.Sent reply], rest)
    /\ ControlServer.read_message reply
        = (Some (ControlServer.MSG_PONG, data), []).
Proof.
  intros [Hsock Hconn] Hlen.
  exists (ControlServer.send_message ControlServer.MSG_PONG data). split.
  - unfold ControlServer.process.
    rewrite Hconn.
    replace (ControlServer.m_client_socket c <? 0) with false
      by (symmetry; apply Z.ltb_ge; lia).
    cbn [orb negb]. rewrite read_message_framed by exact Hlen.
    reflexivity.
  - rewrite <- (app_nil_r (ControlServer.send_message _ data)).
    apply read_message_framed. exact Hlen.
Qed.

Lemma process_ping_is_echoed_witness :
  exists reply,
    ControlServer.process
      (ControlServer.mkControl 3 4 [] true false) true
      (ControlServer.send_message ControlServer.MSG_PING [1; 2; 3] ++ [9])
      = (ControlServer.mkControl 3 4 [] true false,
         [ControlServer.Sent reply], [9])
    /\ ControlServer.read_message reply
        = (Some (ControlServer.MSG_PONG, [1; 2; 3]), []).
Proof.
  apply (process_ping_is_echoed (ControlServer.mkControl 3 4 [] true false)
           [1; 2; 3] [9]).
  - split; [simpl; lia | reflexivity].
  - simpl; lia.
Defined.

Ltac process_cases :=
  repeat match goal with |- _ /\ _ => split end;
  cbn [length In ControlServer.set_connected
       ControlServer.m_listen_socket ControlServer.m_client_socket
       ControlServer.m_client_host ControlServer.m_client_connected
       ControlServer.m_keyframe_cb];
  try reflexivity; try lia; try congruence; try tauto;
  try (intros [?|[]]; congruence);
  try (intros [?|[?|?]]; first [lia | congruence]).

(** X9. Whatever arrives, process() never opens a connection and never
    touches the sockets or the callback: the connected flag can only go from
    true to false, the keyframe callback runs at most once and only when one
    is installed, and when the client is not connected, has no socket, or
    has nothing to read, nothing is sent, nothing is consumed and the object
    is unchanged. *)
Theorem process_invariants (c : ControlServer.t) (readable : bool)
    (stream : list Z) :
  let '(c', acts, rest) := ControlServer.process c readable stream in
  ControlServer.m_listen_socket c' = ControlServer.m_listen_socket c
  /\ ControlServer.m_client_socket c' = ControlServer.m_client_socket c
  /\ ControlServer.m_client_host c' = ControlServer.m_client_host c
  /\ ControlServer.m_keyframe_cb c' = ControlServer.m_keyframe_cb c
  /\ (ControlServer.m_client_connected c' = true ->
      ControlServer.m_client_connected c = true)
  /\ (length acts <= 1)%nat
  /\ (In ControlServer.KeyframeCallback acts ->
      ControlServer.m_keyframe_cb c = true)
  /\ (ControlServer.m_client_socket c < 0
      \/ ControlServer.m_client_connected c = false
      \/ readable = false ->
      c' = c /\ acts = [] /\ rest = stream).
Proof.
  unfold ControlServer.process.
  destruct (Z.ltb_spec (ControlServer.m_client_socket c) 0) as [Hs|Hs];
    cbn [orb]; [process_cases|].
  destruct (ControlServer.m_client_connected c) eqn:Hc; cbn [negb];
    [|process_cases].
  destruct readable; cbn [negb]; [|process_cases].
  destruct (ControlServer.read_message stream) as [[[ty data]|] rest];
    [|process_cases].
  destruct (ty =? ControlServer.MSG_KEYFRAME_REQUEST).
  { destruct (ControlServer.m_keyframe_cb c) eqn:Hcb; process_cases. }
  destruct (ty =? ControlServer.MSG_PING); [process_cases|].
  destruct (ty =? ControlServer.MSG_DISCONNECT); process_cases.
Qed.

Lemma be16_joined (v : Z) :
  0 <= v < 65536 ->
  Z.lor (Z.shiftl (v / 256 mod 256) 8) (v mod 256) = v.
Proof.
  intros Hv. rewrite lor_shiftl8 by (apply Z.mod_pos_bound; lia).
  apply (be16_decode_encode v Hv).
Qed.

Lemma parse_config_request_fields (info : ControlServer.ClientInfo)
    (w h vport iport : Z) (more : list Z) :
  0 <= w < 65536 -> 0 <= h < 65536 ->
  0 <= vport < 65536 -> 0 <= iport < 65536 ->
  ControlServer.parse_config_request info
    (config_request_payload w h vport iport more)
  = ControlServer.mkClientInfo (ControlServer.host info) vport iport w h.
Proof.
  intros Hw Hh Hv Hi.
  unfold ControlServer.parse_config_request, config_request_payload, Spec.be16.
  cbn [app length Nat.leb nth].
  rewrite !be16_joined by assumption.
  unfold to_uint16. rewrite !Z.mod_small by lia. reflexivity.
Qed.

(** X10. A client that opens with a ConfigRequest whose payload starts with
    width, height, video port and input port as big-endian 16-bit fields
    (any further payload bytes are ignored) is accepted: accept_client
    returns true, reports exactly those four values together with the peer
    address, marks the connection as connected on the accepted socket, and
    leaves the bytes after the request unread. *)
Theorem accept_client_config_request (c : ControlServer.t) (accepted : Z)
    (peer : list Z) (info : ControlServer.ClientInfo)
    (w h vport iport : Z) (more rest : list Z) :
  0 <= ControlServer.m_listen_socket c ->
  0 <= accepted ->
  0 <= w < 65536 -> 0 <= h < 65536 ->
  0 <= vport < 65536 -> 0 <= iport < 65536 ->
  Z.of_nat (length more) <= 65526 ->
  ControlServer.accept_client c accepted peer info
    (ControlServer.send_message ControlServer.MSG_CONFIG_REQUEST
       (config_request_payload w h vport iport more) ++ rest)
  = (true,
     ControlServer.mkClientInfo peer vport iport w h,
     ControlServer.mkControl (ControlServer.m_listen_socket c) accepted peer
       true (ControlServer.m_keyframe_cb c),
     rest).
Proof.
  intros Hl Ha Hw Hh Hv Hi Hmore.
  unfold ControlServer.accept_client.
  replace (ControlServer.m_listen_socket c <? 0) with false
    by (symmetry; apply Z.ltb_ge; lia).
  replace (accepted <? 0) with false by (symmetry; apply Z.ltb_ge; lia).
  rewrite read_message_framed.
  - rewrite Z.eqb_refl. cbn [negb].
    rewrite parse_config_request_fields by assumption. reflexivity.
  - unfold config_request_payload, Spec.be16. cbn [app length].
    lia.
Qed.

Lemma accept_client_config_request_witness :
  ControlServer.accept_client
    (ControlServer.mkControl 3 (-1) [] false true) 4 [10; 0; 0; 7]
    ControlServer.default_ClientInfo
    (ControlServer.send_message ControlServer.MSG_CONFIG_REQUEST
       (config_request_payload 2560 1600 9501 9502 []) ++ [0; 1; 5])
  = (true,
     ControlServer.mkClientInfo [10; 0; 0; 7] 9501 9502 2560 1600,
     ControlServer.mkControl 3 4 [10; 0; 0; 7] true true,
     [0; 1; 5]).
Proof.
  apply (accept_client_config_request
           (ControlServer.mkControl 3 (-1) [] false true) 4 [10; 0; 0; 7]
           ControlServer.default_ClientInfo 2560 1600 9501 9502 [] [0; 1; 5]);
    simpl; lia.
Defined.

(** X11. A ConfigRequest with fewer than 8 payload bytes is still accepted:
    accept_client returns true and marks the client connected, but none of
    the payload is used, so width, height and both ports keep the values the
    caller's ClientInfo had before the call; only the host is filled in. *)
Theorem accept_client_short_request (c : ControlServer.t) (accepted : Z)
    (peer : list Z) (info : ControlServer.ClientInfo) (data rest : list Z) :
  0 <= ControlServer.m_listen_socket c ->
  0 <= accepted ->
  Z.of_nat (length data) < 8 ->
  ControlServer.accept_client c accepted peer info
    (ControlServer.send_message ControlServer.MSG_CONFIG_REQUEST data ++ rest)
  = (true,
     ControlServer.mkClientInfo peer
       (ControlServer.video_port info) (ControlServer.input_port info)
       (ControlServer.width info) (ControlServer.height info),
     ControlServer.mkControl (ControlServer.m_listen_socket c) accepted peer
       true (ControlServer.m_keyframe_cb c),
     rest).
Proof.
  intros Hl Ha Hlen.
  unfold ControlServer.accept_client.
  replace (ControlServer.m_listen_socket c <? 0) with false
    by (symmetry; apply Z.ltb_ge; lia).
  replace (accepted <? 0) with false by (symmetry; apply Z.ltb_ge; lia).
  rewrite read_message_framed by lia.
  rewrite Z.eqb_refl. cbn [negb].
  unfold ControlServer.parse_config_request.
  replace (8 <=? length data)%nat with false
    by (symmetry; apply Nat.leb_gt; lia).
  reflexivity.
Qed.

Lemma accept_client_short_request_witness :
  ControlServer.accept_client
    (ControlServer.mkControl 3 (-1) [] false false) 4 [10; 0; 0; 7]
    ControlServer.default_ClientInfo
    (ControlServer.send_message ControlServer.MSG_CONFIG_REQUEST
       [10; 0; 6; 64; 37; 29; 37] ++ [])
  = (true,
     ControlServer.mkClientInfo [10; 0; 0; 7] 0 0 0 0,
     ControlServer.mkControl 3 4 [10; 0; 0; 7] true false,
     []).
Proof.
  apply (accept_client_short_request
           (ControlServer.mkControl 3 (-1) [] false false) 4 [10; 0; 0; 7]
           ControlServer.default_ClientInfo [10; 0; 6; 64; 37; 29; 37] []);
    simpl; lia.
Defined.

(** X12. When the first message of a new client is not a ConfigRequest,
    accept_client returns false without changing the caller's ClientInfo or
    the connected flag, yet the accepted socket and the peer address stay
    stored in the object: the descriptor is not closed and not reset to -1
    on this path. *)
Theorem accept_client_wrong_first_message (c : ControlServer.t)
    (accepted : Z) (peer : list Z) (info : ControlServer.ClientInfo)
    (ty : Z) (data rest : list Z) :
  0 <= ControlServer.m_listen_socket c ->
  0 <= accepted ->
  ty <> ControlServer.MSG_CONFIG_REQUEST ->
  Z.of_nat (length data) <= 65534 ->
  ControlServer.accept_client c accepted peer info
    (ControlServer.send_message ty data ++ rest)
  = (false, info,
     ControlServer.mkControl (ControlServer.m_listen_socket c) accepted peer
       (ControlServer.m_client_connected c) (ControlServer.m_keyframe_cb c),
     rest).
Proof.
  intros Hl Ha Hty Hlen.
  unfold ControlServer.accept_client.
  replace (ControlServer.m_listen_socket c <? 0) with false
    by (symmetry; apply Z.ltb_ge; lia).
  replace (accepted <? 0) with false by (symmetry; apply Z.ltb_ge; lia).
  rewrite read_message_framed by lia.
  replace (ty =? ControlServer.MSG_CONFIG_REQUEST) with false
    by (symmetry; apply Z.eqb_neq; exact Hty).
  reflexivity.
Qed.

Lemma accept_client_wrong_first_message_witness :
  ControlServer.accept_client
    (ControlServer.mkControl 3 (-1) [] false false) 4 [10; 0; 0; 7]
    ControlServer.default_ClientInfo
    (ControlServer.send_message ControlServer.MSG_PING [1] ++ [])
  = (false, ControlServer.default_ClientInfo,
     ControlServer.mkControl 3 4 [10; 0; 0; 7] false false,
     []).
Proof.
  apply (accept_client_wrong_first_message
           (ControlServer.mkControl 3 (-1) [] false false) 4 [10; 0; 0; 7]
           ControlServer.default_ClientInfo ControlServer.MSG_PING [1] []);
    first [ discriminate | simpl; lia ].
Defined.

(** X13. The three ConfigResponse encoders agree on their common fields: the
    14-byte payload of send_config_with_audio begins with the 8 bytes of
    send_config, and the 15-byte payload of send_config_full is the 14-byte
    payload followed by the codec byte, so a client that reads only the
    prefix it knows sees the same values whichever encoder was used. *)
Theorem config_payloads_nest
    (w h vport iport aport rate channels frame_ms codec : Z) :
  ControlServer.config_payload w h vport iport
    = firstn 8 (ControlServer.config_with_audio_payload
                  w h vport iport aport rate channels frame_ms)
  /\ ControlServer.config_full_payload
       w h vport iport aport rate channels frame_ms codec
     = ControlServer.config_with_audio_payload
         w h vport iport aport rate channels frame_ms ++ [codec]
  /\ ControlServer.read_message
       (ControlServer.send_config_with_audio
          w h vport iport aport rate channels frame_ms)
     = (Some (ControlServer.MSG_CONFIG_RESPONSE,
              ControlServer.config_with_audio_payload
                w h vport iport aport rate channels frame_ms), []).
Proof.
  split; [reflexivity | split; [reflexivity |]].
  unfold ControlServer.send_config_with_audio.
  rewrite <- (app_nil_r (ControlServer.send_message _ _)).
  apply read_message_framed. simpl. lia.
Qed.

(** ** NV12 conversion: build variants and write confinement *)

Lemma y_row_scalar_any (bgra : NV12.mem) (width src dst : Z) (yp : NV12.mem)
    (j : Z) :
  NV12.y_row_scalar bgra width src dst yp j
  = if (dst <=? j) && (j <? dst + width) then y_val bgra src (j - dst) else yp j.
Proof.
  destruct (Z.le_gt_cases 0 width) as [Hw|Hw].
  - apply y_row_scalar_spec. exact Hw.
  - unfold NV12.y_row_scalar.
    replace (Z.to_nat width) with 0%nat by lia. cbn [NV12.for_range].
    destruct (Z.leb_spec dst j), (Z.ltb_spec j (dst + width));
      cbn [andb]; try reflexivity; lia.
Qed.

Lemma y_row_unrolled_any (bgra : NV12.mem) (width src dst : Z) (yp : NV12.mem)
    (j : Z) :
  NV12.y_row_unrolled bgra width src dst yp j
  = if (dst <=? j) && (j <? dst + width) then y_val bgra src (j - dst) else yp j.
Proof.
  destruct (Z.le_gt_cases 0 width) as [Hw|Hw].
  - apply y_row_unrolled_spec. exact Hw.
  - unfold NV12.y_row_unrolled. cbv zeta.
    assert (Hq : width / 4 < 0) by (apply Z.div_lt_upper_bound; lia).
    replace (Z.to_nat (width / 4)) with 0%nat by lia.
    replace (Z.to_nat (width - 4 * Z.of_nat 0)) with 0%nat by lia.
    cbn [NV12.for_range].
    destruct (Z.leb_spec dst j), (Z.ltb_spec j (dst + width));
      cbn [andb]; try reflexivity; lia.
Qed.

Lemma uv_row_any (bgra : NV12.mem) (width src0 src1 dst : Z) (uvp : NV12.mem)
    (j : Z) :
  NV12.uv_row bgra width src0 src1 dst uvp j
  = if (dst <=? j) && (j <? dst + (width / 2) * 2)
    then (if (j - dst) mod 2 =? 0 then u_val bgra src0 src1 ((j - dst) / 2)
          else v_val bgra src0 src1 ((j - dst) / 2))
    else uvp j.
Proof.
  destruct (Z.le_gt_cases 0 width) as [Hw|Hw].
  - apply uv_row_spec. exact Hw.
  - unfold NV12.uv_row.
    assert (Hq : width / 2 < 0) by (apply Z.div_lt_upper_bound; lia).
    replace (Z.to_nat (width / 2)) with 0%nat by lia. cbn [NV12.for_range].
    destruct (Z.leb_spec dst j), (Z.ltb_spec j (dst + width / 2 * 2));
      cbn [andb]; try reflexivity; lia.
Qed.

(* a loop over rows leaves alone every byte that is in none of its rows *)
Lemma rows_outside (row : Z -> NV12.mem -> NV12.mem)
    (stride len : Z) (val : Z -> Z -> Z) :
  (forall y m j, row y m j
     = if (y * stride <=? j) && (j <? y * stride + len)
       then val y (j - y * stride) else m j) ->
  forall (count : nat) (y0 : Z) (m : NV12.mem) (j : Z),
    (forall y, y0 <= y < y0 + Z.of_nat count ->
               ~ (y * stride <= j < y * stride + len)) ->
    NV12.for_range count y0 1 row m j = m j.
Proof.
  intros Hrow. induction count as [|c IH]; intros y0 m j Hout.
  - reflexivity.
  - cbn [NV12.for_range]. rewrite IH.
    + rewrite Hrow.
      destruct (Z.leb_spec (y0 * stride) j), (Z.ltb_spec j (y0 * stride + len));
        cbn [andb]; try reflexivity.
      exfalso. apply (Hout y0); lia.
    + intros y Hy. apply Hout. lia.
Qed.

(* two row loops whose bodies agree byte for byte give the same plane *)
Lemma rows_pointwise (f g : Z -> NV12.mem -> NV12.mem) :
  (forall y m m', (forall j, m j = m' j) -> forall j, f y m j = g y m' j) ->
  forall (count : nat) (i : Z) (m m' : NV12.mem),
    (forall j, m j = m' j) ->
    forall j, NV12.for_range count i 1 f m j = NV12.for_range count i 1 g m' j.
Proof.
  intros Hfg. induction count as [|c IH]; intros i m m' Hm j.
  - apply Hm.
  - cbn [NV12.for_range]. apply IH. intros k. apply Hfg. exact Hm.
Qed.

(** X14. The conversion writes nothing outside the picture: a byte of the Y
    plane that is not among the first width bytes of one of the rows
    0 .. height-1 (row padding up to the stride, rows past the picture, the
    whole plane when width or height is not positive) keeps its old value,
    and likewise the UV plane outside the first 2*(width/2) bytes of the
    rows 0 .. height/2-1; with an odd width or height the last column or row
    therefore gets luma but no chroma. *)
Theorem convert_writes_only_picture_rows (has_sse2 : bool) (bgra : NV12.mem)
    (width height src_stride : Z) (y_plane uv_plane : NV12.mem)
    (y_stride uv_stride : Z) :
  let '(yp, uvp) :=
    NV12.convert_bgra_to_nv12_fast has_sse2 bgra width height src_stride
      y_plane uv_plane y_stride uv_stride in
  (forall j, ~ in_rows y_stride width height j -> yp j = y_plane j)
  /\ (forall j, ~ in_rows uv_stride (width / 2 * 2) (height / 2) j ->
                uvp j = uv_plane j).
Proof.
  unfold NV12.convert_bgra_to_nv12_fast. split.
  - intros j Hout.
    apply (rows_outside _ y_stride width
             (fun y k => y_val bgra (y * src_stride) k)).
    + intros y m k. destruct has_sse2.
      * apply y_row_unrolled_any.
      * apply y_row_scalar_any.
    + intros y Hy Hin. apply Hout. exists y. split; [lia | exact Hin].
  - intros j Hout.
    apply (rows_outside
             (fun y uvp => NV12.uv_row bgra width (y * 2 * src_stride)
                             ((y * 2 + 1) * src_stride) (y * uv_stride) uvp)
             uv_stride (width / 2 * 2)
             (fun y k => if k mod 2 =? 0
                         then u_val bgra (y * 2 * src_stride)
                                ((y * 2 + 1) * src_stride) (k / 2)
                         else v_val bgra (y * 2 * src_stride)
                                ((y * 2 + 1) * src_stride) (k / 2))).
    + intros y m k. apply uv_row_any.
    + intros y Hy Hin. apply Hout. exists y. split; [lia | exact Hin].
Qed.

(** X15. The HAS_SSE2 build, which converts four pixels per iteration and
    then the remaining ones, and the fallback build, which converts one pixel
    per iteration, store the same value in every byte of the Y plane, for
    every width (multiple of four or not), height, strides and input. *)
Theorem convert_builds_agree (bgra : NV12.mem)
    (width height src_stride : Z) (y_plane uv_plane : NV12.mem)
    (y_stride uv_stride : Z) (j : Z) :
  fst (NV12.convert_bgra_to_nv12_fast true bgra width height src_stride
         y_plane uv_plane y_stride uv_stride) j
  = fst (NV12.convert_bgra_to_nv12_fast false bgra width height src_stride
           y_plane uv_plane y_stride uv_stride) j.
Proof.
  unfold NV12.convert_bgra_to_nv12_fast. cbn [fst].
  apply rows_pointwise; [|reflexivity].
  intros y m m' Hm k.
  rewrite y_row_unrolled_any, y_row_scalar_any, Hm. reflexivity.
Qed.

(** ** VAAPIEncoder: frame numbering *)

Lemma encode_counter (has_sse2 : bool) (e : VAAPIEncoder.t)
    (env : VAAPIEncoder.codec_env) (bgra : NV12.mem) (w h stride ts : Z) :
  VAAPIEncoder.codec_ctx e = true ->
  let '(out, e', sent) := VAAPIEncoder.encode has_sse2 e env bgra w h stride ts in
  VAAPIEncoder.m_frame_count e' = to_uint64 (VAAPIEncoder.m_frame_count e + 1)
  /\ map VAAPIEncoder.pts sent
     = (if VAAPIEncoder.upload_ret env <? 0 then []
        else [VAAPIEncoder.m_frame_count e])
  /\ VAAPIEncoder.codec_ctx e' = true.
Proof.
  intros Hctx. unfold VAAPIEncoder.encode. rewrite Hctx. cbn [negb].
  destruct (NV12.convert_bgra_to_nv12_fast _ _ _ _ _ _ _ _ _) as [yp uvp].
  cbn [VAAPIEncoder.m_force_keyframe VAAPIEncoder.hw_flags
       VAAPIEncoder.m_frame_count].
  destruct (VAAPIEncoder.upload_ret env <? 0).
  - repeat split.
  - destruct (VAAPIEncoder.m_force_keyframe e);
      destruct (VAAPIEncoder.send_ret env <? 0);
      try destruct (VAAPIEncoder.recv_ret env =? VAAPIEncoder.AVERROR_EAGAIN);
      try destruct (VAAPIEncoder.recv_ret env <? 0);
      repeat split.
Qed.

Lemma uploaded_from_sorted (calls : list VAAPIEncoder.call) :
  forall n,
    Forall (fun p => n <= p < n + Z.of_nat (length calls)) (uploaded_from n calls)
    /\ StronglySorted Z.lt (uploaded_from n calls).
Proof.
  induction calls as [|c cs IH]; intros n.
  - split; constructor.
  - destruct (IH (n + 1)) as [Hr Hs]. cbn [uploaded_from length].
    assert (Hr' : Forall (fun p => n < p < n + Z.of_nat (S (length cs)))
                         (uploaded_from (n + 1) cs)).
    { eapply Forall_impl; [exact Hr|]. cbv beta. intros p Hp. lia. }
    destruct (VAAPIEncoder.upload_ret (VAAPIEncoder.call_env c) <? 0).
    + split; [|exact Hs].
      eapply Forall_impl; [exact Hr'|]. cbv beta. intros p Hp. lia.
    + split.
      * constructor; [lia|].
        eapply Forall_impl; [exact Hr'|]. cbv beta. intros p Hp. lia.
      * constructor; [exact Hs|].
        eapply Forall_impl; [exact Hr'|]. cbv beta. intros p Hp. lia.
Qed.

(** X16. An initialised encoder numbers frames by call, not by success:
    over any run of encode() calls the frame counter advances by one per
    call, whether the call produced output or failed, and the frames handed
    to the codec carry as presentation timestamps exactly the numbers of the
    calls whose GPU upload succeeded. These timestamps are therefore
    strictly increasing, with a gap for every failed upload. The counter is
    assumed to stay below 2^63, where it and the signed pts agree. *)
Theorem encode_all_frame_numbers (has_sse2 : bool) (e : VAAPIEncoder.t)
    (calls : list VAAPIEncoder.call) :
  VAAPIEncoder.codec_ctx e = true ->
  0 <= VAAPIEncoder.m_frame_count e ->
  VAAPIEncoder.m_frame_count e + Z.of_nat (length calls) < 2 ^ 63 ->
  let '(outs, e', sent) := VAAPIEncoder.encode_all has_sse2 e calls in
  VAAPIEncoder.m_frame_count e'
    = VAAPIEncoder.m_frame_count e + Z.of_nat (length calls)
  /\ length outs = length calls
  /\ map VAAPIEncoder.pts sent
     = uploaded_from (VAAPIEncoder.m_frame_count e) calls
  /\ StronglySorted Z.lt (map VAAPIEncoder.pts sent).
Proof.
  assert (Hmain : forall calls e,
    VAAPIEncoder.codec_ctx e = true ->
    0 <= VAAPIEncoder.m_frame_count e ->
    VAAPIEncoder.m_frame_count e + Z.of_nat (length calls) < 2 ^ 63 ->
    let '(outs, e', sent) := VAAPIEncoder.encode_all has_sse2 e calls in
    VAAPIEncoder.m_frame_count e'
      = VAAPIEncoder.m_frame_count e + Z.of_nat (length calls)
    /\ length outs = length calls
    /\ map VAAPIEncoder.pts sent
       = uploaded_from (VAAPIEncoder.m_frame_count e) calls).
  { clear e calls. induction calls as [|c cs IH]; intros e Hctx H0 Hb.
    - cbn. repeat split; lia.
    - cbn [VAAPIEncoder.encode_all uploaded_from length] in *.
      pose proof (encode_counter has_sse2 e (VAAPIEncoder.call_env c)
                    (VAAPIEncoder.call_bgra c) (VAAPIEncoder.call_width c)
                    (VAAPIEncoder.call_height c) (VAAPIEncoder.call_stride c)
                    (VAAPIEncoder.call_ts c) Hctx) as Hone.
      destruct (VAAPIEncoder.encode _ _ _ _ _ _ _ _) as [[out e1] sent1].
      destruct Hone as (Hc & Hp & Hctx1).
      assert (Hc1 : VAAPIEncoder.m_frame_count e1
                    = VAAPIEncoder.m_frame_count e + 1).
      { rewrite Hc. unfold to_uint64. apply Z.mod_small.
        change (2 ^ 64) with (2 * 2 ^ 63). lia. }
      specialize (IH e1 Hctx1 ltac:(lia) ltac:(lia)).
      destruct (VAAPIEncoder.encode_all has_sse2 e1 cs) as [[outs e2] sent2].
      destruct IH as (IHc & IHl & IHp).
      rewrite map_app, Hp, IHp, Hc1. cbn [length].
      repeat split; try lia.
      destruct (VAAPIEncoder.upload_ret (VAAPIEncoder.call_env c) <? 0);
        reflexivity. }
  intros Hctx H0 Hb. specialize (Hmain calls e Hctx H0 Hb).
  destruct (VAAPIEncoder.encode_all has_sse2 e calls) as [[outs e'] sent].
  destruct Hmain as (Hc & Hl & Hp).
  repeat split; try assumption.
  rewrite Hp. apply uploaded_from_sorted.
Qed.

Lemma encode_all_frame_numbers_witness :
  let '(outs, e', sent) :=
    VAAPIEncoder.encode_all true Demo.encoder Demo.three_calls in
  VAAPIEncoder.m_frame_count e' = 3
  /\ map VAAPIEncoder.pts sent = [0; 2].
Proof.
  pose proof (encode_all_frame_numbers true Demo.encoder Demo.three_calls
                eq_refl ltac:(simpl; lia) ltac:(simpl; lia)) as Hw.
  destruct (VAAPIEncoder.encode_all true Demo.encoder Demo.three_calls)
    as [[outs e'] sent].
  destruct Hw as (Hc & _ & Hp & _). split; [exact Hc | exact Hp].
Defined.

(** ** UInputBackend and Server::handle_input: touch table and reports *)

Lemma created_tidy (sfd mfd tfd w h : Z) :
  slots_tidy (UInput.m_touch_slots (UInput.created sfd mfd tfd w h)).
Proof.
  split; [reflexivity|].
  intros i sl Hsl. cbn [UInput.created UInput.m_touch_slots] in Hsl.
  apply lookup_replicate in Hsl. destruct Hsl as [-> _]. reflexivity.
Qed.

Lemma insert_tidy (slots : list UInput.TouchSlot) (slot : Z) (on : bool) :
  0 <= slot < 5 ->
  slots_tidy slots ->
  slots_tidy (<[Z.to_nat slot :=
                 {| UInput.active := on;
                    UInput.tracking_id := if on then slot else -1 |}]> slots).
Proof.
  intros Hslot [Hlen Hids]. split.
  - rewrite length_insert. exact Hlen.
  - intros i sl Hsl. apply list_lookup_insert_Some in Hsl.
    destruct Hsl as [(Hi & Hx & _) | (_ & Hold)].
    + subst i sl. cbn [UInput.active UInput.tracking_id].
      destruct on; [lia | reflexivity].
    + apply Hids. exact Hold.
Qed.

Section TouchTable.

Context {F : Type} `{FloatOps F}.

Lemma send_touch_tidy (u : UInput.t) (x y slot : Z) (down : bool) (p : F) :
  slots_tidy (UInput.m_touch_slots u) ->
  slots_tidy (UInput.m_touch_slots (fst (UInput.send_touch u x y slot down p))).
Proof.
  intros Htidy. unfold UInput.send_touch.
  destruct (Z.ltb_spec (UInput.m_touch_fd u) 0); cbn [orb]; [exact Htidy|].
  destruct (Z.ltb_spec slot 0); cbn [orb]; [exact Htidy|].
  destruct (Z.leb_spec 5 slot); [exact Htidy|].
  destruct down.
  - destruct (negb (UInput.slot_active (UInput.m_touch_slots u) (Z.to_nat slot)));
      cbn [fst UInput.set_slots UInput.m_touch_slots]; [|exact Htidy].
    apply (insert_tidy _ slot true); [lia | exact Htidy].
  - cbn [fst UInput.set_slots UInput.m_touch_slots].
    apply (insert_tidy _ slot false); [lia | exact Htidy].
Qed.

Lemma send_stylus_slots (u : UInput.t) (x y : Z) (p tx ty : F)
    (tip b1 b2 er rng : bool) :
  UInput.m_touch_slots (fst (UInput.send_stylus u x y p tx ty tip b1 b2 er rng))
  = UInput.m_touch_slots u.
Proof.
  unfold UInput.send_stylus.
  destruct (UInput.m_stylus_fd u <? 0); [reflexivity|].
  destruct rng; [|reflexivity].
  destruct (negb (UInput.m_stylus_tool_active u) && negb er);
    destruct er; destruct (UInput.m_stylus_tool_active u);
    destruct tip; destruct (UInput.m_stylus_touching u); reflexivity.
Qed.

Lemma handle_input_tidy (st : Server.input_state) (e : Server.InputEvent) :
  relay_tidy st -> relay_tidy (fst (Server.handle_input st e)).
Proof.
  intros Htidy. unfold Server.handle_input.
  destruct (Server.m_uinput st) as [u|] eqn:Hu; [|exact Htidy].
  destruct (negb (UInput.is_initialized u)); [exact Htidy|].
  destruct (Server.m_coord_transform st _ _) as [sx sy].
  specialize (Htidy u Hu).
  destruct (Server.type e) eqn:Hty;
    try (intros u' Hu'; cbn [fst] in Hu'; rewrite Hu in Hu';
         inversion Hu'; subst u'; exact Htidy).
  all: match goal with
       | |- context [UInput.send_touch ?u0 ?a ?b ?slot ?down ?p] =>
           pose proof (send_touch_tidy u0 a b slot down p Htidy) as Hf;
           destruct (UInput.send_touch u0 a b slot down p) as [u1 tr1]
       | |- context [UInput.send_stylus ?u0 ?a ?b ?p ?tx ?ty ?tip ?b1 ?b2 ?er ?rng] =>
           pose proof (send_stylus_slots u0 a b p tx ty tip b1 b2 er rng) as Hf;
           destruct (UInput.send_stylus u0 a b p tx ty tip b1 b2 er rng) as [u1 tr1]
       end;
    cbn [fst UInput.sync Server.with_uinput Server.m_uinput] in *;
    intros u' Hu'; inversion Hu'; subst u';
    first [exact Hf | rewrite Hf; exact Htidy].
Qed.

End TouchTable.

(** X17. The touch table keeps its shape under every stream of input
    events: if it has five slots, each active slot tracked under its own
    number and each inactive slot under -1, then the same holds after
    InputReceiver::process has dispatched any sequence of events of any
    kind, whatever slot numbers (in or out of range) they carry. *)
Theorem touch_table_stays_tidy {F : Type} `{FloatOps F}
    (st : Server.input_state) (es : list Server.InputEvent) :
  relay_tidy st -> relay_tidy (fst (Server.process st es)).
Proof.
  revert st. induction es as [|e es IH]; intros st Htidy.
  - exact Htidy.
  - cbn [Server.process].
    pose proof (handle_input_tidy st e Htidy) as H1.
    destruct (Server.handle_input st e) as [st1 tr1].
    specialize (IH st1 H1).
    destruct (Server.process st1 es) as [st2 tr2]. exact IH.
Qed.

Lemma touch_table_stays_tidy_witness :
  relay_tidy
    (fst (Server.process Demo.relay
            [ Demo.event_at_centre Server.TOUCH_DOWN 2 0;
              Demo.event_at_centre Server.TOUCH_DOWN 7 0;
              Demo.event_at_centre Server.TOUCH_UP 2 0 ])).
Proof.
  apply touch_table_stays_tidy.
  intros u Hu. inversion Hu. apply created_tidy.
Defined.




Ltac kernel_codes :=
  unfold UInput.EV_SYN, UInput.EV_KEY, UInput.EV_ABS, UInput.SYN_REPORT,
    UInput.BTN_TOOL_PEN, UInput.BTN_TOOL_RUBBER, UInput.BTN_TOUCH,
    UInput.ABS_X, UInput.ABS_Y, UInput.ABS_PRESSURE, UInput.ABS_TILT_X,
    UInput.ABS_TILT_Y in *.

(** X19. A StylusHover event never reports contact: whatever pressure the
    client put in the event and whatever the stylus state was, the only
    ABS_PRESSURE value written is 0, BTN_TOUCH is never pressed, a tip that
    was down is released with BTN_TOUCH 0, and the backend is left with tip
    contact false. *)
Theorem stylus_hover_reports_no_contact {F : Type} `{FloatOps F}
    (st : Server.input_state) (u : UInput.t) (e : Server.InputEvent) :
  Server.m_uinput st = Some u ->
  UInput.is_initialized u = true ->
  Server.type e = Server.STYLUS_HOVER ->
  let fd := UInput.m_stylus_fd u in
  let '(st2, tr) := Server.handle_input st e in
  (exists u2, Server.m_uinput st2 = Some u2
              /\ UInput.m_stylus_touching u2 = false)
  /\ In (UInput.emit fd UInput.EV_ABS UInput.ABS_PRESSURE 0) tr
  /\ (forall v, In (UInput.emit fd UInput.EV_ABS UInput.ABS_PRESSURE v) tr ->
                v = 0)
  /\ ~ In (UInput.emit fd UInput.EV_KEY UInput.BTN_TOUCH 1) tr
  /\ (UInput.m_stylus_touching u = true ->
      In (UInput.emit fd UInput.EV_KEY UInput.BTN_TOUCH 0) tr).
Proof.
  intros Hu Hinit Hty. cbv zeta.
  unfold Server.handle_input. rewrite Hu, Hinit, Hty. cbn [negb].
  destruct (Server.m_coord_transform st _ _) as [sx sy].
  unfold UInput.send_stylus, UInput.sync.
  rewrite (initialized_stylus_fd u Hinit).
  destruct (negb (Z.land (Server.buttons e) 32 =? 0)),
    (UInput.m_stylus_tool_active u), (UInput.m_stylus_touching u);
    cbn [negb andb app Server.with_uinput Server.m_uinput UInput.set_stylus
         UInput.m_stylus_touching];
    (split; [eexists; split; reflexivity|]);
    (split; [cbn [In]; tauto|]);
    (split; [intros v Hin; cbn [In] in Hin; kernel_codes;
             repeat (destruct Hin as [Hin|Hin]; [congruence|]);
             contradiction|]);
    (split; [intros Hin; cbn [In] in Hin; kernel_codes;
             repeat (destruct Hin as [Hin|Hin]; [congruence|]);
             contradiction|]);
    intros Ht; first [discriminate Ht | cbn [In]; tauto].
Qed.

Lemma stylus_hover_reports_no_contact_witness :
  let '(st2, tr) :=
    Server.handle_input Demo.relay
      (Demo.event_at_centre Server.STYLUS_HOVER 0 0) in
  In (UInput.emit 3 UInput.EV_ABS UInput.ABS_PRESSURE 0) tr
  /\ ~ In (UInput.emit 3 UInput.EV_KEY UInput.BTN_TOUCH 1) tr.
Proof.
  pose proof (stylus_hover_reports_no_contact Demo.relay Demo.backend
                (Demo.event_at_centre Server.STYLUS_HOVER 0 0)
                eq_refl eq_refl eq_refl) as Hw.
  cbv zeta in Hw.
  destruct (Server.handle_input Demo.relay
              (Demo.event_at_centre Server.STYLUS_HOVER 0 0)) as [st2 tr].
  destruct Hw as (_ & Hp & _ & Hn & _). split; [exact Hp | exact Hn].
Defined.

Lemma five_slots (slots : list UInput.TouchSlot) :
  length slots = 5%nat ->
  exists a b c d e, slots = [a; b; c; d; e].
Proof.
  intros Hlen.
  destruct slots as [|a [|b [|c [|d [|e [|f l]]]]]]; try discriminate Hlen.
  exists a, b, c, d, e. reflexivity.
Qed.

(** X20. reset_all brings the backend back to the state it had right after
    its devices were created: with the touch device open and a tidy touch
    table, the object afterwards equals UInputBackend's freshly created state
    for the same descriptors and screen size (both stylus flags clear, all
    five slots inactive with tracking id -1); every slot that was active has
    its ABS_MT_SLOT selection written to the touch device, and the writes end
    with SYN_REPORT. *)
Theorem reset_all_restores_created (u : UInput.t) :
  slots_tidy (UInput.m_touch_slots u) ->
  0 <= UInput.m_touch_fd u ->
  let '(u', tr) := UInput.reset_all u in
  u' = UInput.created (UInput.m_stylus_fd u) (UInput.m_mouse_fd u)
         (UInput.m_touch_fd u) (UInput.m_screen_width u)
         (UInput.m_screen_height u)
  /\ (forall i, UInput.slot_active (UInput.m_touch_slots u) i = true ->
        In (UInput.emit (UInput.m_touch_fd u) UInput.EV_ABS
              UInput.ABS_MT_SLOT (Z.of_nat i)) tr)
  /\ last tr = Some (UInput.emit (UInput.m_touch_fd u) UInput.EV_SYN
                       UInput.SYN_REPORT 0)
  /\ UInput.count_active (UInput.m_touch_slots u') = 0.
Proof.
  intros [Hlen Hids] Hfd.
  destruct (five_slots _ Hlen) as (a & b & c & d & e & Hslots).
  pose proof (Hids 0%nat a) as Ha. pose proof (Hids 1%nat b) as Hb.
  pose proof (Hids 2%nat c) as Hc. pose proof (Hids 3%nat d) as Hd.
  pose proof (Hids 4%nat e) as He.
  rewrite Hslots in Ha, Hb, Hc, Hd, He.
  specialize (Ha eq_refl). specialize (Hb eq_refl). specialize (Hc eq_refl).
  specialize (Hd eq_refl). specialize (He eq_refl).
  unfold UInput.reset_all.
  replace (0 <=? UInput.m_touch_fd u) with true
    by (symmetry; apply Z.leb_le; exact Hfd).
  rewrite Hslots.
  destruct a as [aa ai], b as [ba bi], c as [ca ci], d as [da di],
    e as [ea ei].
  cbn [UInput.active UInput.tracking_id] in Ha, Hb, Hc, Hd, He.
  set (ts := if 0 <=? UInput.m_stylus_fd u then _ else _).
  set (tm := if 0 <=? UInput.m_mouse_fd u then _ else _).
  destruct aa, ba, ca, da, ea; subst ai bi ci di ei;
    cbn [seq fold_left UInput.reset_slot UInput.slot_active UInput.active
         lookup list_lookup insert list_insert app Z.of_nat];
    (split; [reflexivity|]);
    (split;
     [ intros i Hi;
       destruct i as [|[|[|[|[|i]]]]]; try discriminate Hi;
       rewrite !in_app_iff; right; right; cbn [In Z.of_nat Pos.of_succ_nat
         Pos.succ]; tauto |]);
    (split; [rewrite app_assoc, last_app_cons; reflexivity | reflexivity]).
Qed.

Lemma reset_all_restores_created_witness :
  fst (UInput.reset_all
         (fst (UInput.send_touch Demo.backend 960 540 2 true 32767)))
  = Demo.backend.
Proof.
  pose proof (reset_all_restores_created
                (fst (UInput.send_touch Demo.backend 960 540 2 true 32767))
                (send_touch_tidy Demo.backend 960 540 2 true 32767
                   (created_tidy 3 4 5 1920 1080))
                ltac:(vm_compute; discriminate)) as Hw.
  destruct (UInput.reset_all _) as [u' tr].
  destruct Hw as (Hu & _). exact Hu.
Defined.

(** ** OpusEncoder: buffering into frames *)

Section OpusBuffering.

Context {Sample Codec W : Type}.
Variable codec : Codec -> list Sample -> Codec * (Z * list Z).
Variable cb : OpusEncoder.EncodedAudio -> W -> W.

Lemma samples_per_frame_ready (e : OpusEncoder.t (Sample := Sample) (Codec := Codec)) :
  opus_ready e ->
  OpusEncoder.samples_per_frame e
  = OpusEncoder.m_frame_size e * OpusEncoder.channels (OpusEncoder.m_config e)
  /\ 0 < OpusEncoder.samples_per_frame e.
Proof.
  intros (_ & Hf & Hc & Hp & _). unfold OpusEncoder.samples_per_frame, to_size_t.
  assert (Hf' : OpusEncoder.m_frame_size e < 2 ^ 64) by nia.
  assert (Hc' : OpusEncoder.channels (OpusEncoder.m_config e) < 2 ^ 64) by nia.
  rewrite (Z.mod_small (OpusEncoder.m_frame_size e)) by lia.
  rewrite (Z.mod_small (OpusEncoder.channels _)) by lia.
  rewrite Z.mod_small by nia. split; [reflexivity | nia].
Qed.

(* what one turn of the loop does to the encoder *)
Lemma encode_frame_ready (e : OpusEncoder.t (Sample := Sample) (Codec := Codec)) :
  opus_ready e ->
  OpusEncoder.samples_per_frame e
    <= Z.of_nat (length (OpusEncoder.m_input_buffer e)) ->
  exists c' out,
    OpusEncoder.encode_frame codec e (OpusEncoder.m_input_buffer e)
      (OpusEncoder.m_frame_size e) (OpusEncoder.m_buffer_start_timestamp e)
    = (out,
       OpusEncoder.mkOpus (Some c') (OpusEncoder.m_config e)
         (OpusEncoder.m_frame_size e) (OpusEncoder.m_input_buffer e)
         (OpusEncoder.m_buffer_start_timestamp e),
       [firstn (Z.to_nat (OpusEncoder.samples_per_frame e))
               (OpusEncoder.m_input_buffer e)])
    /\ (forall o, out = Some o ->
          OpusEncoder.timestamp_us o = OpusEncoder.m_buffer_start_timestamp e
          /\ OpusEncoder.samples_per_channel o = OpusEncoder.m_frame_size e).
Proof.
  intros Hr Hlen.
  destruct (samples_per_frame_ready e Hr) as [Hspf _].
  destruct Hr as ((c & Hc) & _).
  unfold OpusEncoder.encode_frame. rewrite Hc, Z.eqb_refl. cbn [negb].
  rewrite <- Hspf.
  destruct (codec c _) as [c' [encoded_bytes encode_buffer]].
  exists c'. destruct (encoded_bytes <? 0).
  - exists None. split; [reflexivity | discriminate].
  - eexists. split; [reflexivity|].
    intros o Ho. inversion Ho; subst o. split; reflexivity.
Qed.

Lemma encode_loop_short (fuel : nat)
    (e : OpusEncoder.t (Sample := Sample) (Codec := Codec))
    (frames : Z) (w : W) :
  Z.of_nat (length (OpusEncoder.m_input_buffer e))
    < OpusEncoder.samples_per_frame e ->
  OpusEncoder.encode_loop codec cb fuel e frames w = Some (frames, e, w, []).
Proof.
  intros Hlt. apply Z.ltb_lt in Hlt.
  destruct fuel; cbn [OpusEncoder.encode_loop]; rewrite Hlt; reflexivity.
Qed.

Lemma encode_loop_spec (fuel : nat) :
  forall (e : OpusEncoder.t (Sample := Sample) (Codec := Codec)) (frames : Z) (w : W),
    opus_ready e ->
    Z.of_nat (length (OpusEncoder.m_input_buffer e))
      / OpusEncoder.samples_per_frame e <= Z.of_nat fuel ->
    exists n e' w' calls,
      OpusEncoder.encode_loop codec cb fuel e frames w = Some (n, e', w', calls)
      /\ opus_ready e'
      /\ OpusEncoder.m_config e' = OpusEncoder.m_config e
      /\ OpusEncoder.m_frame_size e' = OpusEncoder.m_frame_size e
      /\ chunks_of calls ++ OpusEncoder.m_input_buffer e'
         = OpusEncoder.m_input_buffer e
      /\ Forall (fun fc => exists pcm,
                   OpusEncoder.fc_codec_input fc = [pcm]
                   /\ Z.of_nat (length pcm) = OpusEncoder.samples_per_frame e)
                calls
      /\ Z.of_nat (length calls)
         = Z.of_nat (length (OpusEncoder.m_input_buffer e))
           / OpusEncoder.samples_per_frame e
      /\ Z.of_nat (length (OpusEncoder.m_input_buffer e'))
         = Z.of_nat (length (OpusEncoder.m_input_buffer e))
           mod OpusEncoder.samples_per_frame e
      /\ n = frames + Z.of_nat (length (produced calls))
      /\ w' = fold_left (fun w o => cb o w) (produced calls) w
      /\ (forall k fc, calls !! k = Some fc ->
            OpusEncoder.fc_timestamp fc
            = (OpusEncoder.m_buffer_start_timestamp e
               + Z.of_nat k * frame_step e) mod 2 ^ 64
            /\ forall o, OpusEncoder.fc_output fc = Some o ->
                 OpusEncoder.timestamp_us o = OpusEncoder.fc_timestamp fc
                 /\ OpusEncoder.samples_per_channel o
                    = OpusEncoder.m_frame_size e)
      /\ OpusEncoder.m_buffer_start_timestamp e'
         = (OpusEncoder.m_buffer_start_timestamp e
            + Z.of_nat (length calls) * frame_step e) mod 2 ^ 64.
Proof.
  induction fuel as [|fuel IH]; intros e frames w Hr Hfuel;
    destruct (samples_per_frame_ready e Hr) as [Hspf Hpos];
    pose proof Hr as (_ & _ & _ & _ & Hts);
    set (spf := OpusEncoder.samples_per_frame e) in *;
    set (len := Z.of_nat (length (OpusEncoder.m_input_buffer e))) in *.
  all: destruct (Z.ltb_spec len spf) as [Hlt|Hge].
  1,3: exists frames, e, w, [];
    (split; [apply encode_loop_short; fold spf len; exact Hlt|]);
    (split; [exact Hr|]); (split; [reflexivity|]); (split; [reflexivity|]);
    (split; [reflexivity|]); (split; [constructor|]);
    (split; [cbn [length]; rewrite Z.div_small by lia; reflexivity|]);
    (split; [fold len; rewrite Z.mod_small by lia; reflexivity|]);
    (split; [cbn; lia|]); (split; [reflexivity|]);
    (split; [intros k fc Hk; rewrite lookup_nil in Hk; discriminate|]);
    cbn [length]; rewrite Z.mul_0_l, Z.add_0_r, Z.mod_small by lia;
    reflexivity.
  - (* out of fuel with a full frame buffered: excluded *)
    exfalso.
    assert (1 <= len / spf) by (apply Z.div_le_lower_bound; lia). lia.
  - (* one turn, then the rest *)
    destruct (encode_frame_ready e Hr ltac:(fold spf len; lia))
      as (c' & out & Hframe & Hout).
    fold spf in Hframe.
    set (e2 := OpusEncoder.mkOpus (Some c') (OpusEncoder.m_config e)
                 (OpusEncoder.m_frame_size e)
                 (skipn (Z.to_nat spf) (OpusEncoder.m_input_buffer e))
                 (to_uint64 (OpusEncoder.m_buffer_start_timestamp e
                             + frame_step e))).
    assert (Hr2 : opus_ready e2).
    { destruct Hr as (_ & Hf & Hc & Hp & _).
      split; [exists c'; reflexivity|]. repeat split; try assumption.
      all: subst e2; cbn [OpusEncoder.m_buffer_start_timestamp];
        unfold to_uint64; apply Z.mod_pos_bound; lia. }
    assert (Hspf2 : OpusEncoder.samples_per_frame e2 = spf) by reflexivity.
    assert (Hlen2 : Z.of_nat (length (OpusEncoder.m_input_buffer e2))
                    = len - spf).
    { subst e2. cbn [OpusEncoder.m_input_buffer].
      rewrite length_skipn. subst len. lia. }
    assert (Hdiv : (len - spf) / spf = len / spf - 1).
    { replace (len - spf) with (len + (-1) * spf) by lia.
      rewrite Z.div_add by lia. lia. }
    assert (Hmod : (len - spf) mod spf = len mod spf).
    { replace (len - spf) with (len + (-1) * spf) by lia.
      apply Z.mod_add. lia. }
    destruct (IH e2
                (match out with Some _ => frames + 1 | None => frames end)
                (match out with Some o => cb o w | None => w end) Hr2)
      as (n & e' & w' & calls & Hrun & Hr' & Hcfg & Hfs & Hchunks & Hall
          & Hcount & Hrest & Hn & Hw & Hstamps & Hfinal).
    { rewrite Hspf2, Hlen2, Hdiv. lia. }
    rewrite Hspf2 in *. rewrite Hlen2 in *.
    set (fc0 := OpusEncoder.mkFrameCall
                  [firstn (Z.to_nat spf) (OpusEncoder.m_input_buffer e)]
                  (OpusEncoder.m_buffer_start_timestamp e) out).
    exists n, e', w', (fc0 :: calls).
    split.
    { cbn [OpusEncoder.encode_loop]. fold spf len.
      replace (len <? spf) with false by (symmetry; apply Z.ltb_ge; lia).
      rewrite Hframe.
      cbn [OpusEncoder.m_encoder OpusEncoder.m_config OpusEncoder.m_frame_size
           OpusEncoder.m_input_buffer OpusEncoder.m_buffer_start_timestamp].
      fold (frame_step e). fold e2.
      destruct out as [o|]; cbn; rewrite Hrun; reflexivity. }
    split; [exact Hr'|]. split; [exact Hcfg|]. split; [exact Hfs|].
    split.
    { unfold chunks_of in *. subst fc0.
      cbn [map concat app OpusEncoder.fc_codec_input].
      rewrite <- app_assoc, Hchunks. subst e2.
      cbn [OpusEncoder.m_input_buffer]. apply firstn_skipn. }
    split.
    { constructor; [|exact Hall].
      eexists. split; [reflexivity|].
      rewrite length_firstn. subst len. lia. }
    split; [cbn [length]; lia|].
    split; [rewrite Hrest, Hmod; reflexivity|].
    split.
    { rewrite Hn. unfold produced. subst fc0.
      destruct out; cbn; lia. }
    split.
    { rewrite Hw. unfold produced. subst fc0.
      destruct out; reflexivity. }
    assert (Hstep2 : frame_step e2 = frame_step e) by reflexivity.
    split.
    { intros [|k] fc Hk.
      - cbn in Hk. inversion Hk; subst fc fc0. cbn [OpusEncoder.fc_timestamp].
        split; [rewrite Z.mul_0_l, Z.add_0_r, Z.mod_small by lia; reflexivity|].
        cbn [OpusEncoder.fc_output]. exact Hout.
      - cbn in Hk. destruct (Hstamps k fc Hk) as [Ht Ho]. split.
        + rewrite Ht, Hstep2. subst e2.
          cbn [OpusEncoder.m_buffer_start_timestamp]. unfold to_uint64.
          rewrite Zplus_mod_idemp_l. f_equal. lia.
        + exact Ho. }
    rewrite Hfinal, Hstep2. subst e2.
    cbn [OpusEncoder.m_buffer_start_timestamp length]. unfold to_uint64.
    rewrite Zplus_mod_idemp_l. f_equal. lia.
Qed.

End OpusBuffering.

Section OpusEncode.

Context {Sample Codec W : Type}.
Variable codec : Codec -> list Sample -> Codec * (Z * list Z).
Variable cb : OpusEncoder.EncodedAudio -> W -> W.

(* encode() is the loop run on the buffer extended by the new samples *)
Lemma encode_enters_loop (fuel : nat)
    (e : OpusEncoder.t (Sample := Sample) (Codec := Codec))
    (samples : Z -> Sample) (spc ts : Z) (w : W) :
  opus_ready e -> 0 <= spc ->
  spc * OpusEncoder.channels (OpusEncoder.m_config e) < 2 ^ 64 ->
  0 <= ts < 2 ^ 64 ->
  let e1 :=
    OpusEncoder.mkOpus (OpusEncoder.m_encoder e) (OpusEncoder.m_config e)
      (OpusEncoder.m_frame_size e)
      (OpusEncoder.m_input_buffer e
         ++ OpusEncoder.read_samples samples
              (spc * OpusEncoder.channels (OpusEncoder.m_config e)))
      (match OpusEncoder.m_input_buffer e with
       | [] => ts
       | _ :: _ => OpusEncoder.m_buffer_start_timestamp e
       end) in
  OpusEncoder.encode codec fuel e samples spc ts (Some cb) w
    = OpusEncoder.encode_loop codec cb fuel e1 0 w
  /\ opus_ready e1.
Proof.
  intros Hr Hspc Htot Hts. cbv zeta.
  pose proof Hr as ((c & Hc) & Hf & Hch & Hp & Hst).
  assert (Htotal : to_size_t (to_size_t spc
                     * to_size_t (OpusEncoder.channels (OpusEncoder.m_config e)))
                   = spc * OpusEncoder.channels (OpusEncoder.m_config e)).
  { unfold to_size_t.
    assert (OpusEncoder.channels (OpusEncoder.m_config e) < 2 ^ 64) by nia.
    rewrite (Z.mod_small (OpusEncoder.channels _)) by lia.
    destruct (Z.eq_dec spc 0) as [->|Hnz]; [reflexivity|].
    assert (spc < 2 ^ 64) by nia.
    rewrite (Z.mod_small spc) by lia. apply Z.mod_small. nia. }
  split.
  - unfold OpusEncoder.encode. rewrite Hc, Htotal. rewrite <- Hc. reflexivity.
  - split; [exists c; exact Hc|]. repeat split; try assumption;
      cbn [OpusEncoder.m_buffer_start_timestamp];
      destruct (OpusEncoder.m_input_buffer e); lia.
Qed.

End OpusEncode.

(* what encode() returns and what it did to the callback's data *)
Lemma opus_encode_loop_result {Sample Codec W : Type}
    (codec : Codec -> list Sample -> Codec * (Z * list Z))
    (cb : OpusEncoder.EncodedAudio -> W -> W) (fuel : nat)
    (e : OpusEncoder.t (Sample := Sample) (Codec := Codec))
    (samples : Z -> Sample) (spc ts : Z) (w : W) :
  opus_ready e -> 0 <= spc ->
  spc * OpusEncoder.channels (OpusEncoder.m_config e) < 2 ^ 64 ->
  0 <= ts < 2 ^ 64 ->
  Z.of_nat (length (OpusEncoder.m_input_buffer e
                      ++ OpusEncoder.read_samples samples
                           (spc * OpusEncoder.channels (OpusEncoder.m_config e))))
    / OpusEncoder.samples_per_frame e <= Z.of_nat fuel ->
  exists n e' w' calls,
    OpusEncoder.encode codec fuel e samples spc ts (Some cb) w
      = Some (n, e', w', calls)
    /\ w' = fold_left (fun w o => cb o w) (produced calls) w.
Proof.
  intros Hr Hspc Htot Hts Hfuel.
  destruct (encode_enters_loop codec cb fuel e samples spc ts w Hr Hspc Htot Hts)
    as [Henc Hr1].
  cbv zeta in Henc, Hr1.
  destruct (encode_loop_spec codec cb fuel _ 0 w Hr1 Hfuel)
    as (n & e' & w' & calls & Hrun & _ & _ & _ & _ & _ & _ & _ & _ & Hw & _).
  exists n, e', w', calls. rewrite Henc. split; [exact Hrun | exact Hw].
Qed.

(** X21. OpusEncoder::encode neither loses nor reorders samples: on an
    initialised encoder the samples handed to the codec, call after call,
    followed by what stays in the buffer, are exactly the samples buffered
    before the call followed by the new ones. Every codec call gets exactly
    frame_size * channels samples, the number of codec calls is the number
    of complete frames available, fewer than one frame stays buffered, and
    the loop ends (the fuel of the model suffices as soon as it covers that
    number of frames). The return value counts the frames the codec
    produced, each passed to the callback in order. *)
Theorem opus_encode_conserves_samples {Sample Codec W : Type}
    (codec : Codec -> list Sample -> Codec * (Z * list Z))
    (cb : OpusEncoder.EncodedAudio -> W -> W) (fuel : nat)
    (e : OpusEncoder.t (Sample := Sample) (Codec := Codec))
    (samples : Z -> Sample) (spc ts : Z) (w : W) :
  opus_ready e -> 0 <= spc ->
  spc * OpusEncoder.channels (OpusEncoder.m_config e) < 2 ^ 64 ->
  0 <= ts < 2 ^ 64 ->
  let buffered :=
    OpusEncoder.m_input_buffer e
      ++ OpusEncoder.read_samples samples
           (spc * OpusEncoder.channels (OpusEncoder.m_config e)) in
  let spf := OpusEncoder.samples_per_frame e in
  Z.of_nat (length buffered) / spf <= Z.of_nat fuel ->
  exists n e' w' calls,
    OpusEncoder.encode codec fuel e samples spc ts (Some cb) w
      = Some (n, e', w', calls)
    /\ chunks_of calls ++ OpusEncoder.m_input_buffer e' = buffered
    /\ Forall (fun fc => exists pcm,
                 OpusEncoder.fc_codec_input fc = [pcm]
                 /\ Z.of_nat (length pcm) = spf) calls
    /\ Z.of_nat (length calls) = Z.of_nat (length buffered) / spf
    /\ Z.of_nat (length (OpusEncoder.m_input_buffer e'))
       = Z.of_nat (length buffered) mod spf
    /\ Z.of_nat (length (OpusEncoder.m_input_buffer e')) < spf
    /\ n = Z.of_nat (length (produced calls))
    /\ w' = fold_left (fun w o => cb o w) (produced calls) w.
Proof.
  intros Hr Hspc Htot Hts buffered spf Hfuel.
  destruct (encode_enters_loop codec cb fuel e samples spc ts w Hr Hspc Htot Hts)
    as [Henc Hr1].
  cbv zeta in Henc, Hr1.
  destruct (encode_loop_spec codec cb fuel _ 0 w Hr1 Hfuel)
    as (n & e' & w' & calls & Hrun & _ & _ & _ & Hchunks & Hall & Hcount
        & Hrest & Hn & Hw & _).
  exists n, e', w', calls.
  rewrite Henc. split; [exact Hrun|]. split; [exact Hchunks|].
  split; [exact Hall|]. split; [exact Hcount|]. split; [exact Hrest|].
  split.
  { cbn [OpusEncoder.m_input_buffer] in Hrest. rewrite Hrest.
    apply Z.mod_pos_bound.
    destruct (samples_per_frame_ready e Hr) as [_ Hpos]. exact Hpos. }
  split; [lia | exact Hw].
Qed.

Lemma opus_encode_conserves_samples_witness :
  exists n e' w' calls,
    OpusEncoder.encode Demo.opus_stub 3 Demo.opus Demo.ramp 5 20000
      (Some Demo.collect) []
      = Some (n, e', w', calls)
    /\ chunks_of calls ++ OpusEncoder.m_input_buffer e'
       = [70; 0; 1; 2; 3; 4; 5; 6; 7; 8; 9]
    /\ n = 2.
Proof.
  destruct (opus_encode_conserves_samples Demo.opus_stub Demo.collect 3
              Demo.opus Demo.ramp 5 20000 [])
    as (n & e' & w' & calls & Hrun & Hchunks & _ & Hcount & _ & _ & Hn & _).
  - unfold opus_ready. cbn. repeat split; try lia. exists tt. reflexivity.
  - lia.
  - cbn. lia.
  - lia.
  - vm_compute. discriminate.
  - exists n, e', w', calls. split; [exact Hrun|]. split; [exact Hchunks|].
    vm_compute in Hrun. inversion Hrun. reflexivity.
Defined.

(** X22. Frame timestamps are counted, not measured: the k-th codec call of
    one encode() carries start + k * frame_size_ms * 1000 microseconds
    (mod 2^64), where start is the timestamp argument if the buffer was
    empty on entry and otherwise the stored timestamp of the buffered
    samples (the argument is then ignored). Every frame passed to the
    callback carries the timestamp of its codec call and frame_size as its
    sample count, and the stored timestamp ends one frame duration after
    the last call, whether or not the codec produced a frame. *)
Theorem opus_encode_timestamps {Sample Codec W : Type}
    (codec : Codec -> list Sample -> Codec * (Z * list Z))
    (cb : OpusEncoder.EncodedAudio -> W -> W) (fuel : nat)
    (e : OpusEncoder.t (Sample := Sample) (Codec := Codec))
    (samples : Z -> Sample) (spc ts : Z) (w : W) :
  opus_ready e -> 0 <= spc ->
  spc * OpusEncoder.channels (OpusEncoder.m_config e) < 2 ^ 64 ->
  0 <= ts < 2 ^ 64 ->
  Z.of_nat (length (OpusEncoder.m_input_buffer e
                      ++ OpusEncoder.read_samples samples
                           (spc * OpusEncoder.channels (OpusEncoder.m_config e))))
    / OpusEncoder.samples_per_frame e <= Z.of_nat fuel ->
  let start :=
    match OpusEncoder.m_input_buffer e with
    | [] => ts
    | _ :: _ => OpusEncoder.m_buffer_start_timestamp e
    end in
  exists n e' w' calls,
    OpusEncoder.encode codec fuel e samples spc ts (Some cb) w
      = Some (n, e', w', calls)
    /\ (forall k fc, calls !! k = Some fc ->
          OpusEncoder.fc_timestamp fc
          = (start + Z.of_nat k * frame_step e) mod 2 ^ 64
          /\ forall o, OpusEncoder.fc_output fc = Some o ->
               OpusEncoder.timestamp_us o = OpusEncoder.fc_timestamp fc
               /\ OpusEncoder.samples_per_channel o
                  = OpusEncoder.m_frame_size e)
    /\ OpusEncoder.m_buffer_start_timestamp e'
       = (start + Z.of_nat (length calls) * frame_step e) mod 2 ^ 64
    /\ OpusEncoder.m_config e' = OpusEncoder.m_config e
    /\ OpusEncoder.m_frame_size e' = OpusEncoder.m_frame_size e
    /\ opus_ready e'.
Proof.
  intros Hr Hspc Htot Hts Hfuel start.
  destruct (encode_enters_loop codec cb fuel e samples spc ts w Hr Hspc Htot Hts)
    as [Henc Hr1].
  cbv zeta in Henc, Hr1.
  destruct (encode_loop_spec codec cb fuel _ 0 w Hr1 Hfuel)
    as (n & e' & w' & calls & Hrun & Hr' & Hcfg & Hfs & _ & _ & _ & _ & _ & _
        & Hstamps & Hfinal).
  exists n, e', w', calls.
  rewrite Henc. split; [exact Hrun|]. split; [exact Hstamps|].
  split; [exact Hfinal|]. split; [exact Hcfg|]. split; [exact Hfs | exact Hr'].
Qed.

Lemma opus_encode_timestamps_witness :
  exists n e' w' calls,
    OpusEncoder.encode Demo.opus_stub 3 Demo.opus Demo.ramp 5 20000
      (Some Demo.collect) []
      = Some (n, e', w', calls)
    /\ map OpusEncoder.fc_timestamp calls = [5000; 15000]
    /\ OpusEncoder.m_buffer_start_timestamp e' = 25000.
Proof.
  destruct (opus_encode_timestamps Demo.opus_stub Demo.collect 3
              Demo.opus Demo.ramp 5 20000 [])
    as (n & e' & w' & calls & Hrun & _ & Hfinal & _).
  - unfold opus_ready. cbn. repeat split; try lia. exists tt. reflexivity.
  - lia.
  - cbn. lia.
  - lia.
  - vm_compute. discriminate.
  - exists n, e', w', calls. split; [exact Hrun|].
    vm_compute in Hrun. inversion Hrun. split; reflexivity.
Defined.

(** ** Server::on_audio_frame: encoded frames as numbered datagrams *)

Lemma low16_of_uint32 (v : Z) : (v mod 2 ^ 32) mod 65536 = v mod 65536.
Proof.
  apply Z.mod_mod_divide. exists 65536. reflexivity.
Qed.

Lemma send_packet_numbered (sendto : AudioSender.packet -> Z)
    (sender : AudioSender.t) (o : OpusEncoder.EncodedAudio) (seq_no : Z) :
  AudioSender.m_client_set sender = true ->
  0 <= AudioSender.m_socket sender ->
  exists ok sender',
    AudioSender.send_packet sendto sender (OpusEncoder.data o) seq_no
      (OpusEncoder.timestamp_us o)
    = (ok, sender', [audio_packet_for seq_no o])
    /\ AudioSender.m_client_set sender' = true
    /\ AudioSender.m_socket sender' = AudioSender.m_socket sender.
Proof.
  intros Hset Hsock. unfold AudioSender.send_packet.
  rewrite Hset.
  replace (AudioSender.m_socket sender <? 0) with false
    by (symmetry; apply Z.ltb_ge; lia).
  cbn [negb orb].
  assert (Hp : forall d ts,
    AudioSender.mkAudioPacket
      (AudioSender.mkAudioHeader AudioSender.AUDIO_MAGIC
         (to_uint16 (Z.land seq_no 65535)) ts
         (to_uint16 (Z.of_nat (length d))) 0) d
    = AudioSender.mkAudioPacket
        (AudioSender.mkAudioHeader AudioSender.AUDIO_MAGIC
           (seq_no mod 65536) ts (Z.of_nat (length d) mod 65536) 0) d).
  { intros d ts. unfold to_uint16. change 65535 with (Z.ones 16).
    rewrite Z.land_ones by lia. change (2 ^ 16) with 65536.
    rewrite Z.mod_mod by lia. reflexivity. }
  rewrite Hp. fold (audio_packet_for seq_no o).
  destruct (sendto (audio_packet_for seq_no o) <? 0).
  - exists false, sender. repeat split; assumption.
  - eexists true, _. repeat split; assumption.
Qed.

Lemma send_encoded_fold (sendto : AudioSender.packet -> Z)
    (outs : list OpusEncoder.EncodedAudio) :
  forall (sender : AudioSender.t) (seq_no : Z)
         (tr : list AudioSender.packet),
    AudioSender.m_client_set sender = true ->
    0 <= AudioSender.m_socket sender ->
    exists sender',
      fold_left (fun w o => ServerAudio.send_encoded sendto o w) outs
        (sender, seq_no mod 2 ^ 32, tr)
      = (sender', (seq_no + Z.of_nat (length outs)) mod 2 ^ 32,
         tr ++ imap (fun k o => audio_packet_for (seq_no + Z.of_nat k) o) outs)
      /\ AudioSender.m_client_set sender' = true
      /\ AudioSender.m_socket sender' = AudioSender.m_socket sender.
Proof.
  induction outs as [|o outs IH]; intros sender seq_no tr Hset Hsock.
  - exists sender. cbn [fold_left length imap]. rewrite Z.add_0_r, app_nil_r.
    repeat split; assumption.
  - cbn [fold_left]. unfold ServerAudio.send_encoded at 2.
    destruct (send_packet_numbered sendto sender o (seq_no mod 2 ^ 32)
                Hset Hsock) as (ok & sender1 & Hsend & Hset1 & Hsock1).
    rewrite Hsend.
    replace (to_uint32 (seq_no mod 2 ^ 32 + 1)) with ((seq_no + 1) mod 2 ^ 32)
      by (unfold to_uint32; rewrite Zplus_mod_idemp_l; reflexivity).
    destruct (IH sender1 (seq_no + 1) (tr ++ [audio_packet_for (seq_no mod 2 ^ 32) o])
                Hset1 ltac:(lia)) as (sender' & Hfold & Hset' & Hsock').
    exists sender'. rewrite Hfold. split; [|split; [exact Hset' | lia]].
    f_equal; [f_equal; f_equal; cbn [length]; lia|].
    rewrite <- app_assoc. f_equal. cbn [app imap]. f_equal.
    + unfold audio_packet_for. rewrite low16_of_uint32, Z.add_0_r.
      reflexivity.
    + apply imap_ext. intros k x _. cbn. f_equal. lia.
Qed.

(** X23. Audio datagrams are numbered without gaps: when on_audio_frame
    runs with an initialised encoder and a sender that has a client, every
    frame the codec produces is handed to sendto as one datagram, in order,
    carrying the frame's bytes, the magic 0x5341, the frame timestamp
    converted by * 48 / 1000 and truncated to 32 bits, and as sequence number
    the low 16 bits of m_audio_sequence plus its position. The counter
    advances by the number of frames produced (mod 2^32), also for datagrams
    that sendto refuses. *)
Theorem audio_frames_become_numbered_packets {Sample Codec : Type}
    (codec : Codec -> list Sample -> Codec * (Z * list Z))
    (sendto : AudioSender.packet -> Z) (fuel : nat)
    (st : ServerAudio.t (Sample := Sample) (Codec := Codec))
    (enc : OpusEncoder.t (Sample := Sample) (Codec := Codec))
    (sender : AudioSender.t) (frame : ServerAudio.AudioFrame) :
  ServerAudio.m_opus_encoder st = Some enc -> opus_ready enc ->
  ServerAudio.m_audio_sender st = Some sender ->
  AudioSender.m_client_set sender = true ->
  0 <= AudioSender.m_socket sender ->
  0 <= ServerAudio.m_audio_sequence st < 2 ^ 32 ->
  0 <= ServerAudio.num_samples frame ->
  ServerAudio.num_samples frame
    * OpusEncoder.channels (OpusEncoder.m_config enc) < 2 ^ 64 ->
  0 <= ServerAudio.timestamp_us frame < 2 ^ 64 ->
  Z.of_nat (length (OpusEncoder.m_input_buffer enc
                      ++ OpusEncoder.read_samples (ServerAudio.samples frame)
                           (ServerAudio.num_samples frame
                            * OpusEncoder.channels (OpusEncoder.m_config enc))))
    / OpusEncoder.samples_per_frame enc <= Z.of_nat fuel ->
  exists n enc' w' calls st',
    OpusEncoder.encode codec fuel enc (ServerAudio.samples frame)
      (ServerAudio.num_samples frame) (ServerAudio.timestamp_us frame)
      (Some (ServerAudio.send_encoded sendto))
      (sender, ServerAudio.m_audio_sequence st, [])
    = Some (n, enc', w', calls)
    /\ ServerAudio.on_audio_frame codec sendto fuel st frame
       = Some (st',
               imap (fun k o =>
                       audio_packet_for
                         (ServerAudio.m_audio_sequence st + Z.of_nat k) o)
                    (produced calls))
    /\ ServerAudio.m_audio_sequence st'
       = (ServerAudio.m_audio_sequence st
          + Z.of_nat (length (produced calls))) mod 2 ^ 32
    /\ ServerAudio.m_opus_encoder st' = Some enc'.
Proof.
  intros Henc Hr Hsnd Hset Hsock Hseq Hnum Htot Hts Hfuel.
  destruct (opus_encode_loop_result codec (ServerAudio.send_encoded sendto)
              fuel enc (ServerAudio.samples frame)
              (ServerAudio.num_samples frame) (ServerAudio.timestamp_us frame)
              (sender, ServerAudio.m_audio_sequence st, [])
              Hr Hnum Htot Hts Hfuel)
    as (n & enc' & w' & calls & Hrun & Hw).
  destruct (send_encoded_fold sendto (produced calls) sender
              (ServerAudio.m_audio_sequence st) [] Hset Hsock)
    as (sender' & Hfold & _ & _).
  rewrite (Z.mod_small (ServerAudio.m_audio_sequence st)) in Hfold by lia.
  rewrite Hfold in Hw. cbn [app] in Hw.
  exists n, enc', w', calls.
  eexists. split; [exact Hrun|].
  unfold ServerAudio.on_audio_frame.
  rewrite Henc, Hsnd. unfold AudioSender.has_client. rewrite Hset.
  cbn [negb]. rewrite Hrun, Hw.
  split; [reflexivity|]. split; reflexivity.
Qed.

Lemma audio_frames_become_numbered_packets_witness :
  exists st',
    ServerAudio.on_audio_frame Demo.opus_stub Demo.audio_sendto 3
      Demo.audio_state Demo.audio_frame
    = Some (st',
            [ AudioSender.mkAudioPacket
                (AudioSender.mkAudioHeader 0x5341 65535 240 3 0) [1; 2; 3];
              AudioSender.mkAudioPacket
                (AudioSender.mkAudioHeader 0x5341 0 720 3 0) [1; 2; 3] ])
    /\ ServerAudio.m_audio_sequence st' = 65537.
Proof.
  destruct (audio_frames_become_numbered_packets Demo.opus_stub
              Demo.audio_sendto 3 Demo.audio_state Demo.opus Demo.audio_sender
              Demo.audio_frame)
    as (n & enc' & w' & calls & st' & Hrun & Hon & Hseq & _).
  - reflexivity.
  - unfold opus_ready. cbn. repeat split; try lia. exists tt. reflexivity.
  - reflexivity.
  - reflexivity.
  - cbn. lia.
  - cbn. lia.
  - cbn. lia.
  - cbn. lia.
  - cbn. lia.
  - vm_compute. discriminate.
  - exists st'. vm_compute in Hrun. inversion Hrun; subst.
    split; [exact Hon | exact Hseq].
Defined.

(** ** Server::capture_and_encode_loop: frame numbers on the wire *)

Lemma send_loop_frame_number (sendto : packet -> Z) (data : Z -> Z)
    (size fn : Z) (kf np : bool) (ppb delay n : Z) :
  forall (fuel : nat) (i off pib : Z) (s s' : t) (ret : bool) (tr : list event),
    send_loop sendto fuel data size fn kf np ppb delay n i off pib s
      = (ret, s', tr) ->
    Forall (fun p => frame_number (pkt_header p) = fn mod 65536)
           (sendto_calls tr).
Proof.
  induction fuel as [|fuel IH]; intros i off pib s s' ret tr Hrun.
  - cbn [send_loop] in Hrun. inversion Hrun; subst. constructor.
  - cbn [send_loop] in Hrun. unfold send_packet in Hrun.
    set (p0 := build_packet (m_sequence (bump_sequence s)) data size fn kf n i off)
      in *.
    assert (Hp0 : forall q, frame_number
                    (pkt_header (build_packet q data size fn kf n i off))
                  = fn mod 65536).
    { intros q. cbn [build_packet pkt_header frame_number]. unfold to_uint16.
      change 65535 with (Z.ones 16). rewrite Z.land_ones by lia.
      change (2 ^ 16) with 65536. apply Z.mod_mod. lia. }
    match type of Hrun with
    | context [sendto ?p <? 0] => destruct (sendto p <? 0) eqn:Hsent
    end; cbn [negb] in Hrun.
    + inversion Hrun; subst. cbn [sendto_calls].
      constructor; [apply Hp0 | constructor].
    + match type of Hrun with
      | context [send_loop sendto fuel ?a ?b ?c ?d ?e ?f ?g ?h ?i1 ?o1 ?p1 ?s1] =>
          destruct (send_loop sendto fuel a b c d e f g h i1 o1 p1 s1)
            as [[r s3] tr0] eqn:Hrec
      end.
      inversion Hrun; subst. apply IH in Hrec.
      cbn [sendto_calls]. constructor; [apply Hp0|].
      match goal with
      | |- context [if ?c then [EvSleep _] else []] => destruct c
      end; exact Hrec.
Qed.

Lemma send_frame_frame_number (sendto : packet -> Z) (s s' : t)
    (data : Z -> Z) (size fn : Z) (kf : bool) (ts : Z) (ret : bool)
    (tr : list event) :
  send_frame sendto s data size fn kf ts = (ret, s', tr) ->
  Forall (fun p => frame_number (pkt_header p) = fn mod 65536)
         (sendto_calls tr).
Proof.
  unfold send_frame. intros Hrun.
  destruct (negb (m_client_set s) || (m_socket s <? 0)).
  { inversion Hrun; subst. constructor. }
  destruct (65535 <? num_fragments_of size).
  { inversion Hrun; subst. constructor. }
  destruct (pacing_params s size kf) as [[np ppb] delay].
  eapply send_loop_frame_number. exact Hrun.
Qed.

Lemma capture_and_encode_loop_counts (has_sse2 : bool)
    (sendto : packet -> Z) (st : ServerVideo.t)
    (captured : option VAAPIEncoder.call) :
  let '(st1, tn) :=
    ServerVideo.capture_and_encode_loop has_sse2 sendto st captured in
  match ServerVideo.sent tn with
  | None => ServerVideo.m_frame_count st1 = ServerVideo.m_frame_count st
  | Some tr =>
      ServerVideo.m_frame_count st1
        = (ServerVideo.m_frame_count st + 1) mod 2 ^ 32
      /\ Forall (fun p => frame_number (pkt_header p)
                          = ServerVideo.m_frame_count st mod 65536)
                (sendto_calls tr)
  end.
Proof.
  unfold ServerVideo.capture_and_encode_loop.
  destruct captured as [c|]; [|reflexivity].
  destruct (VAAPIEncoder.encode _ _ _ _ _ _ _ _) as [[[encoded|] e1] frames];
    [|reflexivity].
  destruct (send_frame sendto _ _ _ _ _ _) as [[ok s1] tr] eqn:Hsend.
  cbn [ServerVideo.sent ServerVideo.m_frame_count].
  split; [reflexivity|].
  eapply send_frame_frame_number. exact Hsend.
Qed.

(** X24. Frame numbers on the wire count encoded frames: over any run of
    capture_and_encode_loop calls, a call whose capture or encode fails
    sends nothing and uses up no number, while each call that reaches
    send_frame stamps every datagram of its frame with the low 16 bits of
    m_frame_count plus the number of frames sent before it, and then
    advances the counter (mod 2^32) whether or not the sending worked. *)
Theorem stream_frame_numbers (has_sse2 : bool) (sendto : packet -> Z)
    (st : ServerVideo.t) (captures : list (option VAAPIEncoder.call)) :
  0 <= ServerVideo.m_frame_count st < 2 ^ 32 ->
  let '(st', turns) := ServerVideo.stream has_sse2 sendto st captures in
  ServerVideo.m_frame_count st'
    = (ServerVideo.m_frame_count st + Z.of_nat (length (frames_sent turns)))
      mod 2 ^ 32
  /\ forall (j : nat) (tr : list event),
       frames_sent turns !! j = Some tr ->
       Forall (fun p => frame_number (pkt_header p)
                        = (ServerVideo.m_frame_count st + Z.of_nat j) mod 65536)
              (sendto_calls tr).
Proof.
  revert st. induction captures as [|c cs IH]; intros st Hc.
  - cbn [ServerVideo.stream frames_sent]. split.
    + cbn. rewrite Z.add_0_r, Z.mod_small by lia. reflexivity.
    + intros j tr Hj. destruct j; discriminate Hj.
  - cbn [ServerVideo.stream].
    pose proof (capture_and_encode_loop_counts has_sse2 sendto st c) as Hone.
    destruct (ServerVideo.capture_and_encode_loop has_sse2 sendto st c)
      as [st1 tn].
    assert (Hc1 : 0 <= ServerVideo.m_frame_count st1 < 2 ^ 32).
    { destruct (ServerVideo.sent tn); [destruct Hone as [-> _]|rewrite Hone];
        [apply Z.mod_pos_bound; lia | exact Hc]. }
    specialize (IH st1 Hc1).
    destruct (ServerVideo.stream has_sse2 sendto st1 cs) as [st2 tns].
    destruct IH as [IHc IHn]. unfold frames_sent in *.
    destruct (ServerVideo.sent tn) as [tr0|] eqn:Hsent.
    + destruct Hone as [Hcnt Hfn].
      replace (omap ServerVideo.sent (tn :: tns))
        with (tr0 :: omap ServerVideo.sent tns)
        by (cbn; rewrite Hsent; reflexivity).
      split.
      * rewrite IHc, Hcnt, Zplus_mod_idemp_l. cbn [length]. f_equal. lia.
      * intros [|j] tr Hj; cbn in Hj.
        -- inversion Hj; subst tr. rewrite Z.add_0_r. exact Hfn.
        -- specialize (IHn j tr Hj).
           eapply Forall_impl; [exact IHn|]. cbv beta. intros p ->.
           rewrite Hcnt.
           rewrite (Z.add_mod ((ServerVideo.m_frame_count st + 1) mod 2 ^ 32))
             by lia.
           rewrite low16_of_uint32, <- Z.add_mod by lia. f_equal. lia.
    + replace (omap ServerVideo.sent (tn :: tns))
        with (omap ServerVideo.sent tns)
        by (cbn; rewrite Hsent; reflexivity).
      rewrite <- Hone. split; [exact IHc | exact IHn].
Qed.

Lemma stream_frame_numbers_witness :
  let '(st', turns) :=
    ServerVideo.stream true Demo.sendto_all Demo.pipeline Demo.captures in
  ServerVideo.m_frame_count st' = 65537
  /\ map (fun tr => map (fun p => frame_number (pkt_header p)) (sendto_calls tr))
         (frames_sent turns)
     = [[65535]; [0]].
Proof.
  pose proof (stream_frame_numbers true Demo.sendto_all Demo.pipeline
                Demo.captures ltac:(cbn; lia)) as Hw.
  destruct (ServerVideo.stream true Demo.sendto_all Demo.pipeline
              Demo.captures) as [st' turns] eqn:Hrun.
  destruct Hw as [Hc _].
  vm_compute in Hrun. inversion Hrun; subst. split; reflexivity.
Defined.

(** ** Server::run: deadlines and sleeps *)

(** X25. The stream loop skips late frames instead of catching up: when a
    frame was due (now >= next_frame) and the interval is not negative, the
    new deadline is never in the past and never more than one interval
    ahead of now; it is the old deadline plus one interval exactly when
    that is not already in the past. *)
Theorem advance_deadline_bounds (now next_frame frame_interval : Z) :
  next_frame <= now -> 0 <= frame_interval ->
  let next' := ServerLoop.advance_deadline now next_frame frame_interval in
  now <= next' <= now + frame_interval
  /\ (now <= next_frame + frame_interval -> next' = next_frame + frame_interval)
  /\ (next_frame + frame_interval < now -> next' = now + frame_interval).
Proof.
  intros Hdue Hint. cbv zeta. unfold ServerLoop.advance_deadline.
  destruct (Z.ltb_spec (next_frame + frame_interval) now); repeat split; lia.
Qed.

Lemma advance_deadline_bounds_witness :
  1000000 <= ServerLoop.advance_deadline 1000000 940000 16666 <= 1016666.
Proof.
  exact (proj1 (advance_deadline_bounds 1000000 940000 16666
                  ltac:(lia) ltac:(lia))).
Defined.

(** X26. The loop never asks to sleep through the deadline: whenever it
    sleeps, the requested time is positive and leaves part of the remaining
    time unslept, at least 400 microseconds above 90 fps and at least 50
    microseconds otherwise; and it does not sleep at all once the deadline
    is 500 (above 90 fps) or 100 microseconds away or closer, so the last
    stretch is always spent polling. *)
Theorem sleep_request_leaves_margin (current_fps time_to_next : Z) :
  match ServerLoop.sleep_request current_fps time_to_next with
  | Some d =>
      0 < d < time_to_next
      /\ (if 90 <? current_fps then 400 else 50) <= time_to_next - d
  | None => time_to_next <= (if 90 <? current_fps then 500 else 100)
  end.
Proof.
  unfold ServerLoop.sleep_request.
  destruct (90 <? current_fps).
  - destruct (Z.ltb_spec 2000 time_to_next) as [H1|H1].
    + assert (Hq : time_to_next * 6 / 10 <= time_to_next * 6 / 10) by lia.
      pose proof (Z.mul_div_le (time_to_next * 6) 10 ltac:(lia)) as Hle.
      assert (Hpos : 0 < time_to_next * 6 / 10)
        by (apply Z.div_str_pos; lia).
      lia.
    + destruct (Z.ltb_spec 500 time_to_next); lia.
  - destruct (Z.ltb_spec 1000 time_to_next) as [H1|H1].
    + pose proof (Z.mul_div_le time_to_next 2 ltac:(lia)) as Hle.
      assert (Hpos : 0 < time_to_next / 2) by (apply Z.div_str_pos; lia).
      lia.
    + destruct (Z.ltb_spec 100 time_to_next); lia.
Qed.

(** ** UInputBackend::send_touch: a new contact *)

Lemma count_active_insert_on (slots : list UInput.TouchSlot) (slot id : Z) :
  length slots = 5%nat -> 0 <= slot < 5 ->
  UInput.slot_active slots (Z.to_nat slot) = false ->
  UInput.count_active
    (<[Z.to_nat slot := {| UInput.active := true; UInput.tracking_id := id |}]>
       slots)
  = UInput.count_active slots + 1
  /\ 0 <= UInput.count_active slots <= 4
  /\ UInput.slot_active
       (<[Z.to_nat slot := {| UInput.active := true; UInput.tracking_id := id |}]>
          slots) (Z.to_nat slot) = true.
Proof.
  intros Hlen Hslot Hoff.
  destruct (five_slots slots Hlen) as (a & b & c & d & e & ->).
  rewrite !count_active_unfold.
  assert (Hcase : slot = 0 \/ slot = 1 \/ slot = 2 \/ slot = 3 \/ slot = 4) by lia.
  destruct a as [aa ai], b as [ba bi], c as [ca ci], d as [da di],
    e as [ea ei].
  destruct Hcase as [->|[->|[->|[->| ->]]]];
    change (Z.to_nat 0) with 0%nat in *; change (Z.to_nat 1) with 1%nat in *;
    change (Z.to_nat 2) with 2%nat in *; change (Z.to_nat 3) with 3%nat in *;
    change (Z.to_nat 4) with 4%nat in *;
    unfold UInput.slot_active in *; cbn in Hoff |- *; subst;
    repeat match goal with b : bool |- _ => destruct b end;
    cbn; repeat split; lia.
Qed.

(** X27. A TouchDown on a free slot opens a contact: with the touch device
    open, five slots in the table and the slot (0..4) inactive, send_touch
    marks the slot active under its own number, the count n of active slots
    goes up by one (1 <= n <= 5), and the writes are, in order, ABS_MT_SLOT
    and ABS_MT_TRACKING_ID with the slot number, BTN_TOUCH 1, the TOOL key
    of n - 1 fingers released (BTN_TOOL_QUINTTAP when n = 1, the default
    branch), the TOOL key of n fingers pressed, pressure and position, and
    SYN_REPORT. *)
Theorem touch_down_new_contact {F : Type} `{FloatOps F} (u : UInput.t)
    (x y slot : Z) (pressure : F) :
  0 <= UInput.m_touch_fd u -> 0 <= slot < 5 ->
  length (UInput.m_touch_slots u) = 5%nat ->
  UInput.slot_active (UInput.m_touch_slots u) (Z.to_nat slot) = false ->
  let fd := UInput.m_touch_fd u in
  let n := UInput.count_active (UInput.m_touch_slots u) + 1 in
  let abs_x := UInput.transform_coord x (UInput.m_screen_width u) in
  let abs_y := UInput.transform_coord y (UInput.m_screen_height u) in
  let '(u', tr) := UInput.send_touch u x y slot true pressure in
  1 <= n <= 5
  /\ UInput.count_active (UInput.m_touch_slots u') = n
  /\ UInput.slot_active (UInput.m_touch_slots u') (Z.to_nat slot) = true
  /\ UInput.m_touch_slots u'
     = <[Z.to_nat slot := {| UInput.active := true;
                             UInput.tracking_id := slot |}]>
         (UInput.m_touch_slots u)
  /\ tr = [ UInput.emit fd UInput.EV_ABS UInput.ABS_MT_SLOT slot;
            UInput.emit fd UInput.EV_ABS UInput.ABS_MT_TRACKING_ID slot;
            UInput.emit fd UInput.EV_KEY UInput.BTN_TOUCH 1;
            UInput.emit fd UInput.EV_KEY (Spec.tool_for_count (n - 1)) 0;
            UInput.emit fd UInput.EV_KEY (Spec.tool_for_count n) 1;
            UInput.emit fd UInput.EV_ABS UInput.ABS_MT_PRESSURE
              (f_scale pressure UInput.ABS_MAXVAL);
            UInput.emit fd UInput.EV_ABS UInput.ABS_MT_POSITION_X abs_x;
            UInput.emit fd UInput.EV_ABS UInput.ABS_MT_POSITION_Y abs_y;
            UInput.emit fd UInput.EV_ABS UInput.ABS_X abs_x;
            UInput.emit fd UInput.EV_ABS UInput.ABS_Y abs_y;
            UInput.emit fd UInput.EV_SYN UInput.SYN_REPORT 0 ].
Proof.
  intros Hfd Hslot Hlen Hoff. cbv zeta.
  destruct (count_active_insert_on _ slot slot Hlen Hslot Hoff)
    as (Hcount & Hrange & Hon).
  unfold UInput.send_touch.
  assert (Hg : (UInput.m_touch_fd u <? 0) || (slot <? 0) || (5 <=? slot) = false).
  { destruct (Z.ltb_spec (UInput.m_touch_fd u) 0), (Z.ltb_spec slot 0),
      (Z.leb_spec 5 slot); simpl; try reflexivity; lia. }
  rewrite Hg, Hoff. cbn [negb UInput.set_slots UInput.m_touch_slots].
  rewrite Hcount.
  set (n := UInput.count_active (UInput.m_touch_slots u) + 1) in *.
  split; [lia|]. split; [reflexivity|]. split; [exact Hon|].
  split; [reflexivity|].
  assert (Hn : n = 1 \/ n = 2 \/ n = 3 \/ n = 4 \/ n = 5) by lia.
  destruct Hn as [->|[->|[->|[->| ->]]]]; reflexivity.
Qed.

Lemma touch_down_new_contact_witness :
  let '(u', tr) := UInput.send_touch Demo.backend 960 540 3 true 32767 in
  UInput.count_active (UInput.m_touch_slots u') = 1
  /\ firstn 5 tr
     = [ UInput.emit 5 UInput.EV_ABS UInput.ABS_MT_SLOT 3;
         UInput.emit 5 UInput.EV_ABS UInput.ABS_MT_TRACKING_ID 3;
         UInput.emit 5 UInput.EV_KEY UInput.BTN_TOUCH 1;
         UInput.emit 5 UInput.EV_KEY UInput.BTN_TOOL_QUINTTAP 0;
         UInput.emit 5 UInput.EV_KEY UInput.BTN_TOOL_FINGER 1 ].
Proof.
  pose proof (touch_down_new_contact Demo.backend 960 540 3 32767
                ltac:(vm_compute; discriminate) ltac:(lia) eq_refl eq_refl)
    as Hw.
  cbv zeta in Hw.
  destruct (UInput.send_touch Demo.backend 960 540 3 true 32767) as [u' tr].
  destruct Hw as (_ & Hc & _ & _ & Htr).
  split; [exact Hc | rewrite Htr; reflexivity].
Defined.

(** X28. A tap leaves no trace in the backend: with the touch device open,
    a tidy touch table and the slot (0..4) free, a TouchDown followed by a
    TouchUp on the same slot returns the backend to exactly the state it
    had before, and the TouchUp releases the contact (ABS_MT_TRACKING_ID
    -1, BTN_TOUCH 0) and clears the TOOL key that the TouchDown had set for
    the number of fingers then down. *)
Theorem touch_tap_round_trip {F : Type} `{FloatOps F} (u : UInput.t)
    (x y x' y' slot : Z) (p p' : F) :
  0 <= UInput.m_touch_fd u -> 0 <= slot < 5 ->
  slots_tidy (UInput.m_touch_slots u) ->
  UInput.slot_active (UInput.m_touch_slots u) (Z.to_nat slot) = false ->
  let fd := UInput.m_touch_fd u in
  let n := UInput.count_active (UInput.m_touch_slots u) + 1 in
  let '(u1, tr1) := UInput.send_touch u x y slot true p in
  let '(u2, tr2) := UInput.send_touch u1 x' y' slot false p' in
  u2 = u
  /\ In (UInput.emit fd UInput.EV_KEY (Spec.tool_for_count n) 1) tr1
  /\ In (UInput.emit fd UInput.EV_KEY (Spec.tool_for_count n) 0) tr2
  /\ In (UInput.emit fd UInput.EV_ABS UInput.ABS_MT_TRACKING_ID (-1)) tr2
  /\ In (UInput.emit fd UInput.EV_KEY UInput.BTN_TOUCH 0) tr2.
Proof.
  intros Hfd Hslot [Hlen Hids] Hoff. cbv zeta.
  destruct (count_active_insert_on _ slot slot Hlen Hslot Hoff)
    as (Hcount & Hrange & Hon).
  assert (Hg : (UInput.m_touch_fd u <? 0) || (slot <? 0) || (5 <=? slot) = false).
  { destruct (Z.ltb_spec (UInput.m_touch_fd u) 0), (Z.ltb_spec slot 0),
      (Z.leb_spec 5 slot); simpl; try reflexivity; lia. }
  assert (Hfree : UInput.m_touch_slots u !! Z.to_nat slot
                  = Some {| UInput.active := false; UInput.tracking_id := -1 |}).
  { destruct (UInput.m_touch_slots u !! Z.to_nat slot) as [[act id]|] eqn:Hl.
    - pose proof (Hids _ _ Hl) as Hid.
      unfold UInput.slot_active in Hoff. rewrite Hl in Hoff.
      cbn in Hoff, Hid. subst act. subst id. reflexivity.
    - apply lookup_ge_None in Hl. lia. }
  unfold UInput.send_touch at 1. rewrite Hg, Hoff.
  cbn [negb UInput.set_slots UInput.m_touch_slots].
  unfold UInput.send_touch.
  cbn [UInput.set_slots UInput.m_touch_slots UInput.m_touch_fd
       UInput.m_screen_width UInput.m_screen_height].
  rewrite Hg, Hcount.
  set (n := UInput.count_active (UInput.m_touch_slots u) + 1) in *.
  rewrite list_insert_insert_eq, (list_insert_id _ _ _ Hfree).
  split; [destruct u; reflexivity|].
  assert (Hn : n = 1 \/ n = 2 \/ n = 3 \/ n = 4 \/ n = 5) by lia.
  destruct Hn as [->|[->|[->|[->| ->]]]]; cbn; tauto.
Qed.

Lemma touch_tap_round_trip_witness :
  fst (UInput.send_touch
         (fst (UInput.send_touch Demo.backend 960 540 3 true 32767))
         961 541 3 false 0)
  = Demo.backend.
Proof.
  pose proof (touch_tap_round_trip Demo.backend 960 540 961 541 3 32767 0
                ltac:(vm_compute; discriminate) ltac:(lia)
                (created_tidy 3 4 5 1920 1080) eq_refl) as Hw.
  cbv zeta in Hw.
  destruct (UInput.send_touch Demo.backend 960 540 3 true 32767) as [u1 tr1].
  cbn [fst].
  destruct (UInput.send_touch u1 961 541 3 false 0) as [u2 tr2].
  exact (proj1 Hw).
Defined.

(** ** ControlServer: a message cut short *)

Lemma read_message_truncated (ty : Z) (data : list Z) (k : nat) :
  Z.of_nat (length data) <= 65534 ->
  (k < 3 + length data)%nat ->
  fst (ControlServer.read_message
         (firstn k (ControlServer.send_message ty data))) = None.
Proof.
  intros Hlen Hk.
  unfold ControlServer.send_message. cbv zeta.
  destruct k as [|[|[|k]]]; try reflexivity.
  cbn [app firstn].
  unfold ControlServer.read_message, ControlServer.recv_waitall.
  change (Z.to_nat 3) with 3%nat. cbn [firstn skipn].
  rewrite firstn_O, skipn_O, length_header by lia.
  assert (Hpos : (k < length data)%nat) by lia.
  replace (1 <? Z.of_nat (length data) + 1) with true
    by (symmetry; apply Z.ltb_lt; lia).
  replace (Z.to_nat (Z.of_nat (length data) + 1 - 1)) with (length data) by lia.
  rewrite firstn_firstn, Nat.min_r by lia.
  rewrite length_firstn, Nat.min_l by lia.
  replace (Z.of_nat k =? Z.of_nat (length data) + 1 - 1) with false
    by (symmetry; apply Z.eqb_neq; lia).
  reflexivity.
Qed.

(** X29. A control message that the peer cuts short ends the session
    instead of being dispatched: if the stream stops anywhere inside a
    message (in its 3-byte header or before the end of its payload, payload
    of at most 65534 bytes), process() on a served connection with data to
    read performs no action (no callback, nothing sent) and clears the
    connected flag, whatever the message type was. *)
Theorem process_truncated_message (c : ControlServer.t) (ty : Z)
    (data : list Z) (k : nat) :
  serving c ->
  Z.of_nat (length data) <= 65534 ->
  (k < 3 + length data)%nat ->
  let '(c', acts, _) :=
    ControlServer.process c true
      (firstn k (ControlServer.send_message ty data)) in
  acts = []
  /\ ControlServer.m_client_connected c' = false
  /\ ControlServer.m_client_socket c' = ControlServer.m_client_socket c.
Proof.
  intros [Hsock Hconn] Hlen Hk.
  pose proof (read_message_truncated ty data k Hlen Hk) as Hread.
  unfold ControlServer.process. rewrite Hconn.
  replace (ControlServer.m_client_socket c <? 0) with false
    by (symmetry; apply Z.ltb_ge; lia).
  cbn [orb negb].
  destruct (ControlServer.read_message _) as [[[ty' data']|] rest];
    [discriminate Hread|].
  repeat split.
Qed.

Lemma process_truncated_message_witness :
  let '(c', acts, _) :=
    ControlServer.process (ControlServer.mkControl 3 4 [] true true) true
      (firstn 5 (ControlServer.send_message ControlServer.MSG_KEYFRAME_REQUEST
                   [1; 2; 3; 4])) in
  acts = [] /\ ControlServer.m_client_connected c' = false.
Proof.
  pose proof (process_truncated_message
                (ControlServer.mkControl 3 4 [] true true)
                ControlServer.MSG_KEYFRAME_REQUEST [1; 2; 3; 4] 5) as Hw.
  destruct (ControlServer.process _ _ _) as [[c' acts] rest].
  destruct Hw as (Ha & Hc & _).
  - split; [simpl; lia | reflexivity].
  - simpl; lia.
  - simpl; lia.
  - split; [exact Ha | exact Hc].
Defined.
